(** * fourkeys-go: webhook authentication and GitHub event normalisation

    A shallow embedding of the Go sources of the repository:

    - [event-handler/cmd/main.go], in its revision with SHA-256:
      [verifyGithubSignature256], the HMAC-SHA256 check of the
      [X-Hub-Signature-256] header, [getSource] and the receiver [indexPost];
    - [packages/shared/map.go]: the generic navigators [LookupMap] and
      [LookupMapE] over decoded JSON trees;
    - [packages/github-parser/src/cmd/main.go]: [processGithubEvent] and the
      consumer handler [indexPost], and the revision of the same file that
      preceded it.

    Go strings are byte sequences and are modelled by [string] (a list of
    8-bit characters); [[]byte] is [list byte]; a Go [map] is a [gmap]; a
    run-time panic is the [Panic] outcome of the [result] type. *)

From Stdlib Require Import ZArith NArith Strings.Byte Strings.Ascii Strings.String.
From Stdlib Require Import Floats.SpecFloat.
From stdpp Require Import base option list strings pretty sorting gmap.

(** ** Outcomes of Go code that may panic *)

Inductive result (A : Type) : Type :=
| Ok (a : A)
| Panic (msg : string).
Arguments Ok {A} a.
Arguments Panic {A} msg.

#[global] Instance result_ret : MRet result := fun A a => Ok a.

#[global] Instance result_bind : MBind result := fun A B k r =>
  match r with
  | Ok a => k a
  | Panic msg => Panic msg
  end.

Definition returns {A} (r : result A) : Prop := exists a, r = Ok a.

(** Go's [error] values, as far as this program builds them: [fmt.Errorf]
    without [%w] and the errors of the standard library carry a message;
    [errors.Join] wraps a non-empty list of errors. *)
#[warnings="-register-all"]
Inductive error : Type :=
| errorString (msg : string)
| joinError (errs : list error).

(** ** Module [hex]: Go's [encoding/hex] *)

Module hex.

Definition hextable : list byte :=
  list_byte_of_string "0123456789abcdef".

(** [reverseHexTable]: the value of a hexadecimal digit, [0xff] for any
    other byte. *)
Definition reverseHexTable (c : byte) : N :=
  let n := Byte.to_N c in
  if (48 <=? n)%N && (n <=? 57)%N then (n - 48)%N
  else if (97 <=? n)%N && (n <=? 102)%N then (n - 87)%N
  else if (65 <=? n)%N && (n <=? 70)%N then (n - 55)%N
  else 255%N.

Definition byte_of_N (n : N) : byte :=
  default x00 (Byte.of_N (n mod 256)).

Definition ErrLength : error :=
  errorString "encoding/hex: odd length hex string".

(** The rune of a byte under [%#U]: [U+00XX], followed by the quoted
    character when it is printable (UTF-8 encoded above [0x7f]). *)
Definition sharpU (c : byte) : string :=
  let n := Byte.to_N c in
  let upper := list_byte_of_string "0123456789ABCDEF" in
  let code := [nth (N.to_nat (N.shiftr n 4)) upper x00;
               nth (N.to_nat (N.land n 15)) upper x00] in
  let quoted (bs : list byte) : string :=
    " '" +:+ string_of_list_byte bs +:+ "'" in
  "U+00" +:+ string_of_list_byte code +:+
  (if (32 <=? n)%N && (n <=? 126)%N then quoted [c]
   else if (161 <=? n)%N && negb (n =? 173)%N
   then quoted [byte_of_N (N.lor 192 (N.shiftr n 6));
                byte_of_N (N.lor 128 (N.land n 63))]
   else "").

(** [InvalidByteError(c).Error()] *)
Definition InvalidByteError (c : byte) : error :=
  errorString ("encoding/hex: invalid byte: " +:+ sharpU c).

(** [Decode], as a function of the source bytes: the bytes written to
    [dst] before the loop stops, and the error, if any. *)
Fixpoint Decode (src : list byte) : list byte * option error :=
  match src with
  | [] => ([], None)
  | [p] =>
      if (15 <? reverseHexTable p)%N then ([], Some (InvalidByteError p))
      else ([], Some ErrLength)
  | p :: q :: rest =>
      let a := reverseHexTable p in
      let b := reverseHexTable q in
      if (15 <? a)%N then ([], Some (InvalidByteError p))
      else if (15 <? b)%N then ([], Some (InvalidByteError q))
      else
        let '(out, err) := Decode rest in
        (byte_of_N (N.lor (N.shiftl a 4) b) :: out, err)
  end.

Definition DecodeString (s : string) : list byte * option error :=
  Decode (list_byte_of_string s).

Definition hexdigit (n : N) : byte :=
  nth (N.to_nat n) hextable x00.

Fixpoint Encode (src : list byte) : list byte :=
  match src with
  | [] => []
  | v :: rest =>
      hexdigit (N.shiftr (Byte.to_N v) 4)
        :: hexdigit (N.land (Byte.to_N v) 15) :: Encode rest
  end.

Definition EncodeToString (src : list byte) : string :=
  string_of_list_byte (Encode src).

End hex.

(** ** Module [sha256]: Go's [crypto/sha256], on 32-bit words held in [N] *)

Module sha256.

Definition BlockSize : nat := 64.
Definition Size : nat := 32.

Definition mask32 : N := 4294967295.
Definition w32 (x : N) : N := N.land x mask32.
Definition add32 (x y : N) : N := w32 (x + y).

(** [bits.RotateLeft32(x, -k)] *)
Definition rotr (k x : N) : N :=
  N.lor (N.shiftr x k) (w32 (N.shiftl x (32 - k))).

Definition not32 (x : N) : N := N.lxor x mask32.

(** The round constants [_K] and the initial state are the first 32 bits
    of the fractional parts of the cube roots of the first 64 primes and of
    the square roots of the first 8 primes; they are computed that way here
    and are the numbers of the tables in [sha256.go]. *)
Definition is_prime (n : N) : bool :=
  (1 <? n)%N
  && forallb (fun d => negb (n mod d =? 0)%N || (n <? d * d)%N)
             (map N.of_nat (seq 2 (N.to_nat n - 2))).

Definition primes (count : nat) : list N :=
  take count (filter (fun n => is_prime n = true) (map N.of_nat (seq 2 310))).

(** The largest [r] below [2 ^ bits] with [r ^ k <= x]. *)
Fixpoint iroot (bits : nat) (k x acc : N) : N :=
  match bits with
  | O => acc
  | S bits' =>
      let acc' := N.lor acc (N.shiftl 1 (N.of_nat bits')) in
      iroot bits' k x (if (acc' ^ k <=? x)%N then acc' else acc)
  end.

Definition frac_root (k p : N) : N :=
  w32 (iroot 36 k (N.shiftl p (32 * k)) 0).

Definition _K : list N := Eval vm_compute in map (frac_root 3) (primes 64).

Definition init : list N := Eval vm_compute in map (frac_root 2) (primes 8).

(** Big-endian bytes <-> words. *)
Fixpoint be_words (p : list N) : list N :=
  match p with
  | b0 :: b1 :: b2 :: b3 :: rest =>
      N.lor (N.lor (N.lor (N.shiftl b0 24) (N.shiftl b1 16)) (N.shiftl b2 8)) b3
        :: be_words rest
  | _ => []
  end.

Definition be_bytes (k : nat) (x : N) : list N :=
  map (fun i => N.land (N.shiftr x (8 * N.of_nat i)) 255) (rev (seq 0 k)).

(** The message schedule: [w[16..63]] from [w[0..15]]. *)
Fixpoint schedule (n : nat) (w : list N) : list N :=
  match n with
  | O => w
  | S n' =>
      let i := length w in
      let v1 := nth (i - 2) w 0%N in
      let t1 := N.lxor (N.lxor (rotr 17 v1) (rotr 19 v1)) (N.shiftr v1 10) in
      let v2 := nth (i - 15) w 0%N in
      let t2 := N.lxor (N.lxor (rotr 7 v2) (rotr 18 v2)) (N.shiftr v2 3) in
      schedule n'
        (w ++ [add32 (add32 (add32 t1 (nth (i - 7) w 0%N)) t2)
                     (nth (i - 16) w 0%N)])
  end.

Record regs := Regs { ra : N; rb : N; rc : N; rd : N;
                      re : N; rf : N; rg : N; rh : N }.

Definition round (r : regs) (kw : N * N) : regs :=
  let '(k, w) := kw in
  let '(Regs a b c d e f g h) := r in
  let t1 :=
    add32 (add32 (add32 (add32 h
      (N.lxor (N.lxor (rotr 6 e) (rotr 11 e)) (rotr 25 e)))
      (N.lxor (N.land e f) (N.land (not32 e) g))) k) w in
  let t2 :=
    add32 (N.lxor (N.lxor (rotr 2 a) (rotr 13 a)) (rotr 22 a))
          (N.lxor (N.lxor (N.land a b) (N.land a c)) (N.land b c)) in
  Regs (add32 t1 t2) a b c (add32 d t1) e f g.

Definition regs_of (h : list N) : regs :=
  Regs (nth 0 h 0%N) (nth 1 h 0%N) (nth 2 h 0%N) (nth 3 h 0%N)
       (nth 4 h 0%N) (nth 5 h 0%N) (nth 6 h 0%N) (nth 7 h 0%N).

Definition list_of (r : regs) : list N :=
  let '(Regs a b c d e f g h) := r in [a; b; c; d; e; f; g; h].

(** One 64-byte chunk of [blockGeneric]. *)
Definition block (h : list N) (chunk : list N) : list N :=
  let w := schedule 48 (be_words chunk) in
  let r := fold_left round (combine _K w) (regs_of h) in
  map (fun xy : N * N => add32 xy.1 xy.2) (combine h (list_of r)).

Fixpoint blocks (fuel : nat) (h : list N) (p : list N) : list N :=
  match fuel with
  | O => h
  | S fuel' =>
      if decide (BlockSize <= length p)
      then blocks fuel' (block h (take BlockSize p)) (drop BlockSize p)
      else h
  end.

(** The padding appended by [checkSum]: [0x80], zeros up to 56 mod 64,
    and the bit length as a 64-bit big-endian number. *)
Definition padding (len : nat) : list N :=
  let zeros := (64 - (len + 9) mod 64) mod 64 in
  128%N :: repeat 0%N zeros ++ be_bytes 8 (N.land (8 * N.of_nat len) (2 ^ 64 - 1)).

Definition Sum256N (data : list N) : list N :=
  let p := data ++ padding (length data) in
  flat_map (be_bytes 4) (blocks (length p) init p).

Definition Sum256 (data : list byte) : list byte :=
  map hex.byte_of_N (Sum256N (map Byte.to_N data)).

End sha256.

(** ** Module [hmac]: Go's [crypto/hmac] with SHA-256, and [crypto/subtle] *)

Module hmac.

Definition xor_pad (pad : N) (key : list byte) : list byte :=
  map (fun b => hex.byte_of_N (N.lxor (Byte.to_N b) pad))
      (key ++ repeat x00 (sha256.BlockSize - length key)).

(** [hmac.New(sha256.New, key)]; [Write(message)]; [Sum(nil)]. *)
Definition Sum (key message : list byte) : list byte :=
  let key' :=
    if decide (sha256.BlockSize < length key) then sha256.Sum256 key else key in
  let inner := sha256.Sum256 (xor_pad 54 key' ++ message) in
  sha256.Sum256 (xor_pad 92 key' ++ inner).

(** [subtle.ConstantTimeByteEq] *)
Definition ConstantTimeByteEq (x y : N) : N :=
  N.shiftr (N.land (N.lxor x y + 4294967295) 4294967295) 31.

(** [subtle.ConstantTimeCompare] *)
Definition ConstantTimeCompare (x y : list byte) : N :=
  if decide (length x = length y) then
    let v :=
      fold_left (fun v xy => N.lor v (N.lxor (Byte.to_N xy.1) (Byte.to_N xy.2)))
                (combine x y) 0%N in
    ConstantTimeByteEq v 0
  else 0%N.

Definition Equal (mac1 mac2 : list byte) : bool :=
  (ConstantTimeCompare mac1 mac2 =? 1)%N.

End hmac.

(** ** [event-handler/cmd/main.go] *)

(** Go's slice expression [s[n:]] on a string: a run-time panic when [n]
    exceeds the length. *)
Definition string_from (s : string) (n : nat) : result string :=
  let bs := list_byte_of_string s in
  if decide (n <= length bs) then Ok (string_of_list_byte (drop n bs))
  else Panic ("runtime error: slice bounds out of range ["
              +:+ pretty n +:+ ":" +:+ pretty (length bs) +:+ "]").

(** [verifyGithubSignature256]; the global [envVars.githubWebhookSecret] is
    the explicit argument [secret]. *)
Definition verifyGithubSignature256 (secret : string)
    (signature : string) (body : list byte) : result bool :=
  let expectedMAC := hmac.Sum (list_byte_of_string secret) body in
  let signaturePrefix := "sha256=" in
  suffix ← string_from signature (String.length signaturePrefix);
  let '(signatureMAC, err) := hex.DecodeString suffix in
  match err with
  | Some _ => Ok false
  | None => Ok (hmac.Equal signatureMAC expectedMAC)
  end.

(** [strings.Contains] *)
Fixpoint strings_Contains (s substr : string) : bool :=
  String.prefix substr s
  || match s with
     | EmptyString => false
     | String _ s' => strings_Contains s' substr
     end.

(** [http.Header.Get] and [url.Values.Get] on a canonical key: the first
    value, or the empty string. *)
Definition Values_Get (h : gmap string (list string)) (key : string) : string :=
  match h !! key with
  | Some (v :: _) => v
  | _ => ""
  end.

Module EventHandler.

Record eventSource := {
  name : string;
  signature : string;
  verification : string -> list byte -> result bool;
}.

Definition authorizedSources (secret : string) : gmap string eventSource :=
  {[ "github" := {| name := "github";
                    signature := "X-Hub-Signature-256";
                    verification := verifyGithubSignature256 secret |} ]}.

Record Request := {
  Header : gmap string (list string);
  Query : gmap string (list string);
  Body : list byte * option error;
}.

Definition getSource (header : gmap string (list string)) : string :=
  if header !! "X-Gitlab-Event" is Some _ then "gitlab"
  else if (if header !! "Ce-Type" is Some _
           then strings_Contains (Values_Get header "Ce-Type") "tekton"
           else false)
  then "tekton"
  else if (if header !! "User-Agent" is Some _
           then strings_Contains (Values_Get header "User-Agent") "GitHub-Hookshot"
           else false)
  then "github"
  else if header !! "Circleci-Event-Type" is Some _ then "circleci"
  else if header !! "X-Pagerduty-Signature" is Some _ then "pagerduty"
  else Values_Get header "User-Agent".

Definition StatusNoContent : nat := 204.
Definition StatusBadRequest : nat := 400.
Definition StatusForbidden : nat := 403.

(** [indexPost] of the webhook receiver: the status codes passed to
    [WriteHeader], in order, and the panic that ends the handler, if any.
    [publishToPubsub] is the collaborator that republishes the delivery. *)
Definition indexPost (secret : string)
    (publishToPubsub :
       eventSource -> gmap string (list string) -> list byte -> option error)
    (r : Request) : list nat * option string :=
  let source := getSource (Header r) in
  match authorizedSources secret !! source with
  | None => ([StatusForbidden], None)
  | Some authSource =>
      let '(sig, written) :=
        let v := Values_Get (Query r) (signature authSource) in
        if negb (String.eqb v "") then (v, [])
        else
          let v := Values_Get (Header r) (signature authSource) in
          if negb (String.eqb v "") then (v, [])
          else ("", [StatusForbidden]) in
      let '(b, err) := Body r in
      if err is Some _ then (written ++ [StatusBadRequest], None)
      else
        match verification authSource sig b with
        | Panic msg => (written, Some msg)
        | Ok false => (written ++ [StatusForbidden], None)
        | Ok true =>
            let pubsubHeaders := delete "Authorization" (Header r) in
            if publishToPubsub authSource pubsubHeaders b is Some _
            then (written ++ [StatusNoContent], None)
            else (written ++ [StatusNoContent], None)
        end
  end.

End EventHandler.

(** ** Decoded JSON trees: Go's [interface{}] values *)

(** [float64] is IEEE 754 binary64, in the Standard Library's inductive
    specification of floating-point numbers. *)
Abbreviation float64 := spec_float.

Definition float64_of_Z (z : Z) : float64 := binary_normalize 53 1024 z 0 false.

Definition minInt64 : Z := - 2 ^ 63.
Definition maxInt64 : Z := 2 ^ 63 - 1.

(** The conversion [int(f)]: the fraction is discarded. For a value that
    does not fit, Go leaves the result to the implementation; this is what
    amd64 produces. *)
Definition float64_to_int (f : float64) : Z :=
  match f with
  | S754_zero _ => 0
  | S754_finite s m e =>
      let q := match e with
               | Z0 => Zpos m
               | Zpos k => Zpos m * 2 ^ Zpos k
               | Zneg k => Zpos m / 2 ^ Zpos k
               end in
      let v := if s then - q else q in
      if (minInt64 <=? v) && (v <=? maxInt64) then v else minInt64
  | S754_infinity _ | S754_nan => minInt64
  end%Z.

(** The dynamic values that an [interface{}] holds in this program:
    [encoding/json] produces [nil], [bool], [float64], [string],
    [[]interface{}] and [map[string]interface{}]; Go literals in the tests
    also hold [int]. *)
#[warnings="-register-all"]
Inductive value : Type :=
| VNil
| VBool (b : bool)
| VInt (n : Z)
| VFloat64 (f : float64)
| VString (s : string)
| VSlice (l : list value)
| VMap (m : gmap string value).

(** The type parameter [T any] of the navigators, with what the code asks of
    it: its zero value ([reflect.Zero]), the type assertion [val.(T)] and
    the name printed by [%T]. *)
Class GoType (T : Type) := {
  zero : T;
  assert : value -> option T;
  typeName : string;
}.

#[global] Instance GoType_string : GoType string := {|
  zero := "";
  assert v := match v with VString s => Some s | _ => None end;
  typeName := "string";
|}.

#[global] Instance GoType_float64 : GoType float64 := {|
  zero := S754_zero false;
  assert v := match v with VFloat64 f => Some f | _ => None end;
  typeName := "float64";
|}.

#[global] Instance GoType_int : GoType Z := {|
  zero := 0%Z;
  assert v := match v with VInt n => Some n | _ => None end;
  typeName := "int";
|}.

#[global] Instance GoType_bool : GoType bool := {|
  zero := false;
  assert v := match v with VBool b => Some b | _ => None end;
  typeName := "bool";
|}.

(** [strings.Join] *)
Fixpoint strings_Join (elems : list string) (sep : string) : string :=
  match elems with
  | [] => ""
  | [x] => x
  | x :: rest => x +:+ sep +:+ strings_Join rest sep
  end.

(** ** [packages/shared/map.go] *)

Section Lookup.

Context {T : Type} `{GoType T}.

(** The loop of [LookupMap] over the remaining keys, from the current
    [val]: [inl] is an early [return], [inr] the value reached when the
    keys are used up. *)
Fixpoint LookupMap_loop (val : value) (keys : list string) : (T * bool) + value :=
  match keys with
  | [] => inr val
  | key :: keys' =>
      match val with
      | VMap m =>
          match m !! key with
          | Some val' => LookupMap_loop val' keys'
          | None => inl (zero, false)
          end
      | _ => inl (zero, false)
      end
  end.

Definition LookupMap (m : gmap string value) (keys : list string) : T * bool :=
  match LookupMap_loop (VMap m) keys with
  | inl ret => ret
  | inr val =>
      match assert val with
      | Some result => (result, true)
      | None => (zero, false)
      end
  end.

(** [fmt]'s rendering of an [interface{}] under the verb [%v]. *)
Variable Sprint : value -> string.

Definition errNotMap (walkedKeys : list string) : error :=
  errorString ("key " +:+ strings_Join walkedKeys "." +:+ " is not a map: "
               +:+ Sprint (VMap ∅)).

Definition errNotFound (walkedKeys : list string) (m : gmap string value) : error :=
  errorString ("key " +:+ strings_Join walkedKeys "." +:+ " not found in "
               +:+ Sprint (VMap m)).

Definition errNotType (val : value) : error :=
  errorString ("value " +:+ Sprint val +:+ " is not of type " +:+ typeName (T := T)).

(** The loop of [LookupMapE]; [walkedKeys] grows by [append]. *)
Fixpoint LookupMapE_loop (walkedKeys : list string) (val : value)
    (keys : list string) : (T * option error) + value :=
  match keys with
  | [] => inr val
  | key :: keys' =>
      match val with
      | VMap m =>
          let walkedKeys := walkedKeys ++ [key] in
          match m !! key with
          | Some val' => LookupMapE_loop walkedKeys val' keys'
          | None => inl (zero, Some (errNotFound walkedKeys m))
          end
      | _ => inl (zero, Some (errNotMap walkedKeys))
      end
  end.

Definition LookupMapE (m : gmap string value) (keys : list string) : T * option error :=
  match LookupMapE_loop [] (VMap m) keys with
  | inl ret => ret
  | inr val =>
      match assert val with
      | Some result => (result, None)
      | None => (zero, Some (errNotType val))
      end
  end.

End Lookup.

(** ** [packages/github-parser/src/cmd/main.go] *)

(** An RFC 3339 instant as [time.Parse] returns it: the instant and the
    zone offset of the text. *)
Record Time := { unixNano : Z; zoneOffset : Z }.

Record pubsubRequest := {
  MessageId : string;
  PublishTime : Time;
  Data : string;
  Headers : string;
  Subscription : string;
}.

Record EventRecord := {
  EventType : string;
  Id : string;
  Metadata : string;
  TimeCreated : Time;
  Signature : string;
  MsgId : string;
  Source : string;
}.

Definition eventTypes : gmap string bool :=
  {[ "push" := true;
     "pull_request" := true;
     "pull_request_review" := true;
     "pull_request_review_comment" := true;
     "issues" := true;
     "issue_comment" := true;
     "check_run" := true;
     "check_suite" := true;
     "status" := true;
     "deployment_status" := true;
     "release" := true ]}.

Definition newline : string := String (ascii_of_nat 10) EmptyString.

(** [err.Error()] *)
Fixpoint Error (e : error) : string :=
  match e with
  | errorString msg => msg
  | joinError errs =>
      (fix join (l : list error) : string :=
         match l with
         | [] => ""
         | [x] => Error x
         | x :: rest => Error x +:+ newline +:+ join rest
         end) errs
  end.

(** [errors.Join]: every element of the list is a non-nil error. *)
Definition errors_Join (errs : list error) : option error :=
  match errs with
  | [] => None
  | _ => Some (joinError errs)
  end.

(** The index expression [s[0]] on a header's value list. *)
Definition index0 (s : list string) : result string :=
  match s with
  | x :: _ => Ok x
  | [] => Panic "runtime error: index out of range [0] with length 0"
  end.

(** The local variables that the [switch] of [processGithubEvent] assigns. *)
Record extraction := {
  maybeTimeCreated : string;
  id : string;
  tOk : bool;
  iOk : bool;
  tErr : option error;
  iErr : option error;
}.

(** [fmt.Sprintf("%d", int(number))] *)
Definition Sprintd (number : float64) : string := pretty (float64_to_int number).

Section Parser.

Variable Sprint : value -> string.
(** [time.Parse(time.RFC3339, s)] *)
Variable time_Parse : string -> Time * option error.

(** A timestamp read at [first], or else at [second]. *)
Definition firstOf (metadata : gmap string value) (first second : list string)
    : string * bool :=
  let '(t1, ok1) := LookupMap (T := string) metadata first in
  if ok1 then (t1, true)
  else
    let '(t2, ok2) := LookupMap (T := string) metadata second in
    if ok2 then (t2, true) else ("", false).

(** The identifier [<repository.name>/<number>]. *)
Definition repoNumber (metadata : gmap string value) (numberPath : list string)
    : string * bool :=
  let '(repoName, rOk) := LookupMap (T := string) metadata ["repository"; "name"] in
  let '(number, nOk) := LookupMap (T := float64) metadata numberPath in
  if rOk && nOk then (repoName +:+ "/" +:+ Sprintd number, true) else ("", false).

(** The [switch eventType] block; [None] is its [default] branch. *)
Definition dispatch (eventType : string) (metadata : gmap string value)
    : option extraction :=
  if String.eqb eventType "push" then
    let '(t, tok) := LookupMap (T := string) metadata ["head_commit"; "timestamp"] in
    let '(i, iok) := LookupMap (T := string) metadata ["head_commit"; "id"] in
    Some (Build_extraction t i tok iok None None)
  else if String.eqb eventType "pull_request" then
    let '(t, tok) := LookupMap (T := string) metadata ["pull_request"; "updated_at"] in
    let '(i, iok) := repoNumber metadata ["number"] in
    Some (Build_extraction t i tok iok None None)
  else if String.eqb eventType "pull_request_review" then
    let '(t, terr) := LookupMapE (T := string) Sprint metadata ["review"; "submitted_at"] in
    let tok := bool_decide (terr = None) in
    let '(idNum, nOk) := LookupMapE (T := float64) Sprint metadata ["review"; "id"] in
    match nOk with
    | None => Some (Build_extraction t (Sprintd idNum) tok true terr None)
    | Some e => Some (Build_extraction t "" tok false terr (Some e))
    end
  else if String.eqb eventType "pull_request_review_comment" then
    let '(t, tok) := LookupMap (T := string) metadata ["comment"; "updated_at"] in
    let '(idNum, nOk) := LookupMap (T := float64) metadata ["review"; "id"] in
    if nOk then Some (Build_extraction t (Sprintd idNum) tok true None None)
    else Some (Build_extraction t "" tok false None None)
  else if String.eqb eventType "issues" then
    let '(t, tok) := LookupMap (T := string) metadata ["issue"; "updated_at"] in
    let '(i, iok) := repoNumber metadata ["issue"; "number"] in
    Some (Build_extraction t i tok iok None None)
  else if String.eqb eventType "issue_comment" then
    let '(t, tok) := LookupMap (T := string) metadata ["comment"; "updated_at"] in
    let '(i, iok) := LookupMap (T := string) metadata ["comment"; "id"] in
    Some (Build_extraction t i tok iok None None)
  else if String.eqb eventType "check_run" then
    let '(t, tok) :=
      firstOf metadata ["check_run"; "completed_at"] ["check_run"; "started_at"] in
    let '(i, iok) := LookupMap (T := string) metadata ["check_run"; "id"] in
    Some (Build_extraction t i tok iok None None)
  else if String.eqb eventType "check_suite" then
    let '(t, tok) :=
      firstOf metadata ["check_suite"; "updated_at"] ["check_suite"; "created_at"] in
    let '(i, iok) := LookupMap (T := string) metadata ["check_suite"; "id"] in
    Some (Build_extraction t i tok iok None None)
  else if String.eqb eventType "deployment_status" then
    let '(t, tok) := LookupMap (T := string) metadata ["deployment_status"; "updated_at"] in
    let '(i, iok) := LookupMap (T := string) metadata ["deployment_status"; "id"] in
    Some (Build_extraction t i tok iok None None)
  else if String.eqb eventType "status" then
    let '(t, tok) := LookupMap (T := string) metadata ["updated_at"] in
    let '(i, iok) := LookupMap (T := string) metadata ["id"] in
    Some (Build_extraction t i tok iok None None)
  else if String.eqb eventType "release" then
    let '(t, tok) :=
      firstOf metadata ["release"; "published_at"] ["release"; "created_at"] in
    let '(i, iok) := LookupMap (T := string) metadata ["release"; "id"] in
    Some (Build_extraction t i tok iok None None)
  else None.

(** The errors collected when the timestamp or the identifier is missing. *)
Definition missing (x : extraction) : list error :=
  (if tOk x then []
   else [default (errorString "could not find time_created") (tErr x)])
  ++
  (if iOk x then []
   else [default (errorString "could not find id") (iErr x)]).

(** [processGithubEvent]; the package variable [eventTypes] is the explicit
    argument [types]. The result is the Go pair of the record pointer and the error. *)
Definition processGithubEventWith (types : gmap string bool)
    (reqMessage : pubsubRequest) (headers : gmap string (list string))
    (metadata : gmap string value) (rawMetadata : list byte)
    : result (option EventRecord * option error) :=
  eventType ← index0 (default [] (headers !! "X-Github-Event"));
  if negb (default false (types !! eventType)) then Ok (None, None)
  else
    signature ← index0 (default [] (headers !! "X-Hub-Signature-256"));
    let source := if headers !! "Mock" is Some _ then "github_mock" else "github" in
    match dispatch eventType metadata with
    | None =>
        Ok (None, Some (errorString
              ("event type " +:+ eventType +:+ " is not supported")))
    | Some x =>
        if negb (tOk x) || negb (iOk x) then Ok (None, errors_Join (missing x))
        else
          let '(timeCreated, err) := time_Parse (maybeTimeCreated x) in
          match err with
          | Some e =>
              Ok (None, Some (errorString
                    ("could not parse time_created: " +:+ Error e)))
          | None =>
              Ok (Some {| EventType := eventType;
                          Id := id x;
                          Metadata := string_of_list_byte rawMetadata;
                          TimeCreated := timeCreated;
                          Signature := signature;
                          MsgId := MessageId reqMessage;
                          Source := source |}, None)
          end
    end.

Definition processGithubEvent := processGithubEventWith eventTypes.

End Parser.

(** *** The consumer handler *)

Definition StatusOK : nat := 200.
Definition StatusNotFound : nat := 404.
Definition StatusInternalServerError : nat := 500.

(** What the handler sees of [*http.Request]: the method and the outcome of
    [io.ReadAll(r.Body)]. *)
Record Request := {
  Method : string;
  Body : list byte * option error;
}.

(** The collaborators of the handler: the decoders of [encoding/json] and
    [encoding/base64] at the types the handler uses them, and the BigQuery
    insertion. The logger only writes and is left out. *)
Record Collaborators := {
  json_Unmarshal_pubsubRequest : list byte -> pubsubRequest * option error;
  json_Unmarshal_headers : list byte -> gmap string (list string) * option error;
  base64_DecodeString : string -> list byte * option error;
  json_Unmarshal_metadata : list byte -> gmap string value * option error;
  json_Marshal_headers : gmap string (list string) -> list byte * option error;
  json_Marshal_metadata : gmap string value -> list byte * option error;
  insertIntoBigQuery : EventRecord -> option error;
}.

Section Consumer.

Variable Sprint : value -> string.
Variable time_Parse : string -> Time * option error.
Variable env : Collaborators.

(** The steps of [indexPost] up to the call of [processGithubEvent]:
    [inl] is the status written on an early [return]. *)
Definition decodeRequest (r : Request)
    : nat + (pubsubRequest * gmap string (list string) * gmap string value * list byte) :=
  let '(body, err) := Body r in
  if err is Some _ then inl StatusInternalServerError else
  let '(msg, err) := json_Unmarshal_pubsubRequest env body in
  if err is Some _ then inl StatusInternalServerError else
  let '(attrs, err) := json_Unmarshal_headers env (list_byte_of_string (Headers msg)) in
  if err is Some _ then inl StatusInternalServerError else
  let '(data, err) := base64_DecodeString env (Data msg) in
  if err is Some _ then inl StatusInternalServerError else
  let '(metadata, err) := json_Unmarshal_metadata env data in
  if err is Some _ then inl StatusInternalServerError else
  let '(attrsStr, err) := json_Marshal_headers env attrs in
  if err is Some _ then inl StatusInternalServerError else
  let '(metadataStr, err) := json_Marshal_metadata env metadata in
  if err is Some _ then inl StatusInternalServerError else
  inr (msg, attrs, metadata, data).

(** [indexPost]: the status code written, or the panic that escapes. *)
Definition indexPost (r : Request) : result nat :=
  match decodeRequest r with
  | inl status => Ok status
  | inr (msg, attrs, metadata, data) =>
      '(event, err) ← processGithubEvent Sprint time_Parse msg attrs metadata data;
      if err is Some _ then Ok StatusOK
      else
        match event with
        | Some ev =>
            if insertIntoBigQuery env ev is Some _ then Ok StatusOK
            else Ok StatusOK
        | None => Ok StatusOK
        end
  end.

Definition index (r : Request) : result nat :=
  if String.eqb (Method r) "POST" then indexPost r
  else if String.eqb (Method r) "GET" then indexPost r
  else Ok StatusNotFound.

End Consumer.

(** *** The earlier revision of the parser

    The repository also holds the previous revision of the same file. It
    asserts [int] for the numbers, reads every other identifier as a string,
    reports one fixed message when a field is missing, and answers 500 to
    every failure. *)

Section ConsumerRev0.

Variable time_Parse : string -> Time * option error.
Variable env : Collaborators.

Definition repoNumber_rev0 (metadata : gmap string value) (numberPath : list string)
    : string * bool :=
  let '(repoName, rOk) := LookupMap (T := string) metadata ["repository"; "name"] in
  let '(number, nOk) := LookupMap (T := Z) metadata numberPath in
  if rOk && nOk then (repoName +:+ "/" +:+ pretty number, true) else ("", false).

Definition dispatch_rev0 (eventType : string) (metadata : gmap string value)
    : option (string * bool * (string * bool)) :=
  let str := LookupMap (T := string) metadata in
  if String.eqb eventType "push" then
    Some (str ["head_commit"; "timestamp"], str ["head_commit"; "id"])
  else if String.eqb eventType "pull_request" then
    Some (str ["pull_request"; "updated_at"], repoNumber_rev0 metadata ["number"])
  else if String.eqb eventType "pull_request_review" then
    Some (str ["review"; "submitted_at"], str ["review"; "id"])
  else if String.eqb eventType "pull_request_review_comment" then
    Some (str ["comment"; "updated_at"], str ["review"; "id"])
  else if String.eqb eventType "issues" then
    Some (str ["issue"; "updated_at"], repoNumber_rev0 metadata ["issue"; "number"])
  else if String.eqb eventType "issue_comment" then
    Some (str ["comment"; "updated_at"], str ["comment"; "id"])
  else if String.eqb eventType "check_run" then
    Some (firstOf metadata ["check_run"; "completed_at"] ["check_run"; "started_at"],
          str ["check_run"; "id"])
  else if String.eqb eventType "check_suite" then
    Some (firstOf metadata ["check_suite"; "updated_at"] ["check_suite"; "created_at"],
          str ["check_suite"; "id"])
  else if String.eqb eventType "deployment_status" then
    Some (str ["deployment_status"; "updated_at"], str ["deployment_status"; "id"])
  else if String.eqb eventType "status" then
    Some (str ["updated_at"], str ["id"])
  else if String.eqb eventType "release" then
    Some (firstOf metadata ["release"; "published_at"] ["release"; "created_at"],
          str ["release"; "id"])
  else None.

Definition processGithubEvent_rev0
    (reqMessage : pubsubRequest) (headers : gmap string (list string))
    (metadata : gmap string value) (rawMetadata : list byte)
    : result (option EventRecord * option error) :=
  eventType ← index0 (default [] (headers !! "X-Github-Event"));
  if negb (default false (eventTypes !! eventType)) then Ok (None, None)
  else
    signature ← index0 (default [] (headers !! "X-Hub-Signature-256"));
    let source := if headers !! "Mock" is Some _ then "github_mock" else "github" in
    match dispatch_rev0 eventType metadata with
    | None =>
        Ok (None, Some (errorString
              ("event type " +:+ eventType +:+ " is not supported")))
    | Some (maybeTimeCreated, tOk, (id, iOk)) =>
        if negb tOk || negb iOk then
          Ok (None, Some (errorString "could not find time_created or id"))
        else
          let '(timeCreated, err) := time_Parse maybeTimeCreated in
          match err with
          | Some e =>
              Ok (None, Some (errorString
                    ("could not parse time_created: " +:+ Error e)))
          | None =>
              Ok (Some {| EventType := eventType;
                          Id := id;
                          Metadata := string_of_list_byte rawMetadata;
                          TimeCreated := timeCreated;
                          Signature := signature;
                          MsgId := MessageId reqMessage;
                          Source := source |}, None)
          end
    end.

Definition decodeRequest_rev0 (r : Request)
    : nat + (pubsubRequest * gmap string (list string) * gmap string value * list byte) :=
  let '(body, err) := Body r in
  if err is Some _ then inl StatusInternalServerError else
  let '(msg, err) := json_Unmarshal_pubsubRequest env body in
  if err is Some _ then inl StatusInternalServerError else
  let '(attrs, err) := json_Unmarshal_headers env (list_byte_of_string (Headers msg)) in
  if err is Some _ then inl StatusInternalServerError else
  let '(data, err) := base64_DecodeString env (Data msg) in
  if err is Some _ then inl StatusInternalServerError else
  let '(metadata, err) := json_Unmarshal_metadata env data in
  if err is Some _ then inl StatusInternalServerError else
  inr (msg, attrs, metadata, data).

Definition indexPost_rev0 (r : Request) : result nat :=
  match decodeRequest_rev0 r with
  | inl status => Ok status
  | inr (msg, attrs, metadata, data) =>
      '(event, err) ← processGithubEvent_rev0 msg attrs metadata data;
      if err is Some _ then Ok StatusInternalServerError
      else
        match event with
        | Some ev =>
            if insertIntoBigQuery env ev is Some _ then Ok StatusInternalServerError
            else Ok StatusOK
        | None => Ok StatusOK
        end
  end.

End ConsumerRev0.

(** ** The library functions the parser is parameterised by

    [fmt]'s verb [%v] and [time.Parse] are parameters of the model. The two
    definitions below are what they compute on the inputs this program
    meets; they are used to evaluate the model on concrete payloads. *)

Definition key_le (a b : string * string) : Prop := String.leb a.1 b.1 = true.

#[global] Instance key_le_dec a b : Decision (key_le a b).
Proof. unfold key_le. apply _. Defined.

(** [%v] on an [interface{}]: maps are printed with their keys in increasing
    order; [fl] is the rendering of a [float64] (Go's shortest [%g]). *)
Fixpoint Sprintv (fl : float64 -> string) (v : value) : string :=
  match v with
  | VNil => "<nil>"
  | VBool b => if b then "true" else "false"
  | VInt n => pretty n
  | VFloat64 f => fl f
  | VString s => s
  | VSlice l => "[" +:+ strings_Join (map (Sprintv fl) l) " " +:+ "]"
  | VMap m =>
      "map[" +:+ strings_Join
        (map (fun kv : string * string => kv.1 +:+ ":" +:+ kv.2)
             (merge_sort key_le (map_to_list (Sprintv fl <$> m)))) " " +:+ "]"
  end.

(** [%g] on a [float64] with an integral value below [10^6], where Go
    prints the decimal digits of the integer; other values are outside the
    payloads evaluated here and are rendered as [?]. *)
Definition Sprintg (f : float64) : string :=
  match f with
  | S754_zero false => "0"
  | S754_finite s m e =>
      let n := float64_to_int f in
      if bool_decide (SFeqb f (float64_of_Z n) = true /\ (Z.abs n < 10 ^ 6)%Z)
      then pretty n else "?"
  | _ => "?"
  end.

Module rfc3339.

Definition digit (c : ascii) : option Z :=
  let n := Z.of_N (N_of_ascii c) in
  if (48 <=? n)%Z && (n <=? 57)%Z then Some (n - 48)%Z else None.

(** Exactly [n] decimal digits. *)
Fixpoint digits (n : nat) (acc : Z) (cs : list ascii) : option (Z * list ascii) :=
  match n with
  | O => Some (acc, cs)
  | S n' =>
      match cs with
      | c :: cs' => d ← digit c; digits n' (10 * acc + d)%Z cs'
      | [] => None
      end
  end.

Definition expect (c : ascii) (cs : list ascii) : option (list ascii) :=
  match cs with
  | c' :: cs' => if Ascii.eqb c c' then Some cs' else None
  | [] => None
  end.

(** The digits of a fraction of a second, as nanoseconds: [scale] is the
    weight of the next digit; digits after the ninth are dropped. *)
Fixpoint fraction (cs : list ascii) (scale acc : Z) : Z * list ascii :=
  match cs with
  | c :: cs' =>
      match digit c with
      | Some d => fraction cs' (scale / 10)%Z (acc + d * scale)%Z
      | None => (acc, cs)
      end
  | [] => (acc, cs)
  end.

Definition leap (y : Z) : bool :=
  ((y mod 4 =? 0) && (negb (y mod 100 =? 0) || (y mod 400 =? 0)))%Z.

Definition daysIn (y m : Z) : Z :=
  (if m =? 2 then (if leap y then 29 else 28)
   else if (m =? 4) || (m =? 6) || (m =? 9) || (m =? 11) then 30
   else 31)%Z.

(** Days between 1970-01-01 and the given date of the proleptic Gregorian
    calendar. *)
Definition daysFromCivil (y m d : Z) : Z :=
  (let y' := if m <=? 2 then y - 1 else y in
   let era := y' / 400 in
   let yoe := y' - era * 400 in
   let doy := (153 * (if 2 <? m then m - 3 else m + 9) + 2) / 5 + d - 1 in
   let doe := yoe * 365 + yoe / 4 - yoe / 100 + doy in
   era * 146097 + doe - 719468)%Z.

Definition zone (cs : list ascii) : option (Z * list ascii) :=
  match cs with
  | c :: cs' =>
      if Ascii.eqb c "Z" then Some (0%Z, cs')
      else if Ascii.eqb c "+" || Ascii.eqb c "-" then
        '(hh, cs1) ← digits 2 0 cs';
        cs2 ← expect ":" cs1;
        '(mm, cs3) ← digits 2 0 cs2;
        if (hh <? 24)%Z && (mm <? 60)%Z then
          let off := (hh * 3600 + mm * 60)%Z in
          Some (if Ascii.eqb c "-" then (- off)%Z else off, cs3)
        else None
      else None
  | [] => None
  end.

Definition parse (s : string) : option Time :=
  let cs := list_ascii_of_string s in
  '(year, cs) ← digits 4 0 cs;
  cs ← expect "-" cs;
  '(month, cs) ← digits 2 0 cs;
  cs ← expect "-" cs;
  '(day, cs) ← digits 2 0 cs;
  cs ← expect "T" cs;
  '(hour, cs) ← digits 2 0 cs;
  cs ← expect ":" cs;
  '(min, cs) ← digits 2 0 cs;
  cs ← expect ":" cs;
  '(sec, cs) ← digits 2 0 cs;
  '(nsec, cs) ← match cs with
                 | c :: (d :: _) as cs' =>
                     if (Ascii.eqb c "." || Ascii.eqb c ",")
                        && bool_decide (is_Some (digit d))
                     then Some (fraction cs' 100000000 0)
                     else Some (0%Z, cs)
                 | _ => Some (0%Z, cs)
                 end;
  '(offset, cs) ← zone cs;
  if bool_decide (cs = [])
     && (1 <=? month)%Z && (month <=? 12)%Z
     && (1 <=? day)%Z && (day <=? daysIn year month)%Z
     && (hour <? 24)%Z && (min <? 60)%Z && (sec <? 60)%Z
  then
    let secs := (daysFromCivil year month day * 86400
                 + hour * 3600 + min * 60 + sec - offset)%Z in
    Some {| unixNano := (secs * 1000000000 + nsec)%Z; zoneOffset := offset |}
  else None.

(** [time.Parse(time.RFC3339, s)] *)
Definition time_Parse (s : string) : Time * option error :=
  match parse s with
  | Some t => (t, None)
  | None =>
      ({| unixNano := 0; zoneOffset := 0 |},
       Some (errorString ("parsing time " +:+ s +:+ ": cannot parse as RFC 3339")))
  end.

End rfc3339.

(** ** Vocabulary of the properties *)

(** The value reached from [val] by following [keys] through nested maps,
    when every key resolves. *)
Fixpoint descend (val : value) (keys : list string) : option value :=
  match keys with
  | [] => Some val
  | key :: keys' =>
      match val with
      | VMap m => m !! key ≫= fun val' => descend val' keys'
      | _ => None
      end
  end.

(** The tree [{"a":{"b":{"c":"d"}}}] of [sdx/main.go]. *)
Definition tree_abc : gmap string value :=
  {[ "a" := VMap {[ "b" := VMap {[ "c" := VString "d" ]} ]} ]}.

(** The eleven recognised event types, in the order of the [eventTypes]
    literal. *)
Definition recognized : list string :=
  [ "push"; "pull_request"; "pull_request_review"; "pull_request_review_comment";
    "issues"; "issue_comment"; "check_run"; "check_suite"; "status";
    "deployment_status"; "release" ].

(** The two headers [processGithubEvent] indexes. *)
Definition hEvent : string := "X-Github-Event".
Definition hSignature : string := "X-Hub-Signature-256".

(** A header is unusable for the index expression [headers[name][0]] when
    the name is absent or bound to an empty list of values. *)
Definition noValue (headers : gmap string (list string)) (name : string) : Prop :=
  headers !! name = None \/ headers !! name = Some [].

(** The pieces of the request as [indexPost] decodes them, one after the
    other. *)
Definition envelopeOf (env : Collaborators) (r : Request) : pubsubRequest :=
  (json_Unmarshal_pubsubRequest env (Body r).1).1.

Definition attrsOf (env : Collaborators) (r : Request) : gmap string (list string) :=
  (json_Unmarshal_headers env (list_byte_of_string (Headers (envelopeOf env r)))).1.

Definition dataOf (env : Collaborators) (r : Request) : list byte :=
  (base64_DecodeString env (Data (envelopeOf env r))).1.

Definition metadataOf (env : Collaborators) (r : Request) : gmap string value :=
  (json_Unmarshal_metadata env (dataOf env r)).1.

(** A transport or decoding failure: the body cannot be read, or the
    envelope, its headers attribute, the base64 data or the payload cannot be
    decoded, or the decoded headers or payload cannot be encoded again for the
    log. *)
Definition decodingFails (env : Collaborators) (r : Request) : Prop :=
  is_Some (Body r).2
  \/ is_Some (json_Unmarshal_pubsubRequest env (Body r).1).2
  \/ is_Some (json_Unmarshal_headers env
                (list_byte_of_string (Headers (envelopeOf env r)))).2
  \/ is_Some (base64_DecodeString env (Data (envelopeOf env r))).2
  \/ is_Some (json_Unmarshal_metadata env (dataOf env r)).2
  \/ is_Some (json_Marshal_headers env (attrsOf env r)).2
  \/ is_Some (json_Marshal_metadata env (metadataOf env r)).2.

(** The call of [processGithubEvent] that [indexPost] makes. *)
Definition normalize (Sprint : value -> string)
    (time_Parse : string -> Time * option error)
    (env : Collaborators) (r : Request)
    : result (option EventRecord * option error) :=
  processGithubEvent Sprint time_Parse (envelopeOf env r) (attrsOf env r)
    (metadataOf env r) (dataOf env r).

(** *** Concrete requests and payloads *)

Definition envelope1 : pubsubRequest :=
  {| MessageId := "1234567890";
     PublishTime := {| unixNano := 0; zoneOffset := 0 |};
     Data := "";
     Headers := "";
     Subscription := "projects/p/subscriptions/github" |}.

(** The replayed headers of a delivery of the given event type. *)
Definition headersOf (eventType : string) : gmap string (list string) :=
  {[ "X-Github-Event" := [eventType];
     "X-Hub-Signature-256" := ["sha256=00"];
     "User-Agent" := ["GitHub-Hookshot/abc"] ]}.

Definition payloadPush : gmap string value :=
  {[ "head_commit" :=
       VMap {[ "id" := VString "0123abc";
               "timestamp" := VString "2024-01-02T03:04:05+09:00" ]} ]}.

Definition payloadCheckRun : gmap string value :=
  {[ "check_run" :=
       VMap {[ "id" := VString "77";
               "completed_at" := VString "2024-01-02T03:04:05Z";
               "started_at" := VString "2024-01-01T00:00:00Z" ]} ]}.

Definition payloadCheckRunStarted : gmap string value :=
  {[ "check_run" :=
       VMap {[ "id" := VString "77";
               "started_at" := VString "2024-01-01T00:00:00Z" ]} ]}.

Definition payloadPullRequest : gmap string value :=
  {[ "repository" := VMap {[ "name" := VString "acme/widgets" ]};
     "number" := VFloat64 (float64_of_Z 42);
     "pull_request" := VMap {[ "updated_at" := VString "2024-01-02T03:04:05Z" ]} ]}.

(** Collaborators that decode every request to the given envelope, headers
    and payload, and whose insertion answers [insertErr]. *)
Definition decodingTo (msg : pubsubRequest) (attrs : gmap string (list string))
    (metadata : gmap string value) (insertErr : option error) : Collaborators :=
  {| json_Unmarshal_pubsubRequest := fun _ => (msg, None);
     json_Unmarshal_headers := fun _ => (attrs, None);
     base64_DecodeString := fun _ => ([], None);
     json_Unmarshal_metadata := fun _ => (metadata, None);
     json_Marshal_headers := fun _ => ([], None);
     json_Marshal_metadata := fun _ => ([], None);
     insertIntoBigQuery := fun _ => insertErr |}.

(** Collaborators for a body that is no JSON. *)
Definition undecodable : Collaborators :=
  {| json_Unmarshal_pubsubRequest := fun _ =>
       (envelope1,
        Some (errorString "invalid character 'x' looking for beginning of value"));
     json_Unmarshal_headers := fun _ => (∅, None);
     base64_DecodeString := fun _ => ([], None);
     json_Unmarshal_metadata := fun _ => (∅, None);
     json_Marshal_headers := fun _ => ([], None);
     json_Marshal_metadata := fun _ => ([], None);
     insertIntoBigQuery := fun _ => None |}.

(** A [push] delivery that decodes, with the sink refusing the insertion. *)
Definition sinkDown : Collaborators :=
  decodingTo envelope1 (headersOf "push") payloadPush
    (Some (errorString "bigquery: unavailable")).

Definition postRequest : Request :=
  {| Method := "POST"; Body := ([], None) |}.

(** ** [event-handler/cmd/main.go]: the SHA-1 verifier *)

(** Go's [crypto/sha1], on the words and the padding of [sha256]. *)
Module sha1.

Definition Size : nat := 20.

Definition init : list N :=
  [ 0x67452301; 0xEFCDAB89; 0x98BADCFE; 0x10325476; 0xC3D2E1F0 ]%N.

(** [bits.RotateLeft32(x, k)] *)
Definition rotl (k x : N) : N :=
  N.lor (sha256.w32 (N.shiftl x k)) (N.shiftr x (32 - k)).

(** The eighty words of a chunk; the code keeps the last sixteen in a ring. *)
Fixpoint schedule (n : nat) (w : list N) : list N :=
  match n with
  | O => w
  | S n' =>
      let i := length w in
      let tmp := N.lxor (N.lxor (N.lxor (nth (i - 3) w 0%N) (nth (i - 8) w 0%N))
                                (nth (i - 14) w 0%N)) (nth (i - 16) w 0%N) in
      schedule n' (w ++ [rotl 1 tmp])
  end.

Record regs := Regs { ra : N; rb : N; rc : N; rd : N; re : N }.

Definition round (r : regs) (iw : nat * N) : regs :=
  let '(i, w) := iw in
  let '(Regs a b c d e) := r in
  let '(f, k) :=
    if decide (i < 20)
    then (N.lor (N.land b c) (N.land (sha256.not32 b) d), 0x5A827999%N)
    else if decide (i < 40)
    then (N.lxor (N.lxor b c) d, 0x6ED9EBA1%N)
    else if decide (i < 60)
    then (N.lor (N.land (N.lor b c) d) (N.land b c), 0x8F1BBCDC%N)
    else (N.lxor (N.lxor b c) d, 0xCA62C1D6%N) in
  let t := sha256.add32 (sha256.add32 (sha256.add32 (sha256.add32
             (rotl 5 a) f) e) w) k in
  Regs t a (rotl 30 b) c d.

Definition block (h : list N) (chunk : list N) : list N :=
  let w := schedule 64 (sha256.be_words chunk) in
  let r := fold_left round (combine (seq 0 80) w)
             (Regs (nth 0 h 0%N) (nth 1 h 0%N) (nth 2 h 0%N) (nth 3 h 0%N)
                   (nth 4 h 0%N)) in
  let '(Regs a b c d e) := r in
  map (fun xy : N * N => sha256.add32 xy.1 xy.2) (combine h [a; b; c; d; e]).

Fixpoint blocks (fuel : nat) (h : list N) (p : list N) : list N :=
  match fuel with
  | O => h
  | S fuel' =>
      if decide (sha256.BlockSize <= length p)
      then blocks fuel' (block h (take sha256.BlockSize p)) (drop sha256.BlockSize p)
      else h
  end.

Definition Sum (data : list byte) : list byte :=
  let p := map Byte.to_N data ++ sha256.padding (length data) in
  map hex.byte_of_N (flat_map (sha256.be_bytes 4) (blocks (length p) init p)).

(** [hmac.New(sha1.New, key)]; [Write(message)]; [Sum(nil)]. *)
Definition hmacSum (key message : list byte) : list byte :=
  let key' := if decide (sha256.BlockSize < length key) then Sum key else key in
  let inner := Sum (hmac.xor_pad 54 key' ++ message) in
  Sum (hmac.xor_pad 92 key' ++ inner).

End sha1.

(** [hex.Decode(dst, src)] on a caller's buffer: the buffer after the call,
    the number of bytes written and the error; writing past the end of the
    buffer panics. [i] is the index of the next byte. *)
Fixpoint hex_DecodeInto (dst : list byte) (i : nat) (src : list byte)
    : result (list byte * nat * option error) :=
  match src with
  | [] => Ok (dst, i, None)
  | [p] =>
      if (15 <? hex.reverseHexTable p)%N
      then Ok (dst, i, Some (hex.InvalidByteError p))
      else Ok (dst, i, Some hex.ErrLength)
  | p :: q :: rest =>
      let a := hex.reverseHexTable p in
      let b := hex.reverseHexTable q in
      if (15 <? a)%N then Ok (dst, i, Some (hex.InvalidByteError p))
      else if (15 <? b)%N then Ok (dst, i, Some (hex.InvalidByteError q))
      else if decide (i < length dst)
      then hex_DecodeInto (<[i := hex.byte_of_N (N.lor (N.shiftl a 4) b)]> dst)
             (S i) rest
      else Panic ("runtime error: index out of range [" +:+ pretty i
                  +:+ "] with length " +:+ pretty (length dst))
  end.

(** [verifyGithubSignature], the verifier for the [X-Hub-Signature] header:
    the result of [hex.Decode] is not looked at. *)
Definition verifyGithubSignature (secret : string)
    (signature : string) (body : list byte) : result bool :=
  let expectedMAC := sha1.hmacSum (list_byte_of_string secret) body in
  let receivedMAC := replicate 20 x00 in
  suffix ← string_from signature 5;
  '(receivedMAC, _, _) ← hex_DecodeInto receivedMAC 0 (list_byte_of_string suffix);
  Ok (hmac.Equal receivedMAC expectedMAC).

(** ** [event-handler/cmd/main.go]: republishing *)

Module Republish.

(** [pubsub.Message], as far as the handler fills it. *)
Record Message := {
  Data : list byte;
  Attributes : gmap string string;
}.

(** The collaborators of [publishToPubsub]: [pubsub.NewClient] on a project
    id, [json.Unmarshal] of the body into [any] (only its error is used),
    [json.Marshal] of the headers, and [Topic(name).Publish(msg).Get], which
    returns the server's message id. *)
Record Pubsub := {
  NewClient : string -> option error;
  json_Unmarshal : list byte -> option error;
  json_Marshal : gmap string (list string) -> list byte * option error;
  Publish : string -> Message -> string * option error;
}.

(** [pubsub.DetectProjectID] *)
Definition DetectProjectID : string := "*detect-project-id*".

(** [publishToPubsub]: the messages handed to [Publish], with their topic,
    and the error returned. [projectID] is [envVars.projectID]. *)
Definition publishToPubsub (ps : Pubsub) (projectID : string)
    (source : EventHandler.eventSource) (header : gmap string (list string))
    (body : list byte) : list (string * Message) * option error :=
  let projectID := if String.eqb projectID "" then DetectProjectID else projectID in
  match NewClient ps projectID with
  | Some err => ([], Some err)
  | None =>
      match json_Unmarshal ps body with
      | Some err => ([], Some err)
      | None =>
          let '(headersAttr, err) := json_Marshal ps header in
          match err with
          | Some err => ([], Some err)
          | None =>
              let msg := {| Data := body;
                            Attributes :=
                              {[ "headers" := string_of_list_byte headersAttr ]} |} in
              let '(res, err) := Publish ps (EventHandler.name source) msg in
              ([(EventHandler.name source, msg)], err)
          end
      end
  end.

(** What the receiver does to the outside: the status codes it writes and
    the messages it hands to [Publish]. *)
Inductive effect : Type :=
| WriteHeader (status : nat)
| Published (topic : string) (msg : Message).

(** [indexPost] of the receiver with [publishToPubsub] in place: its effects
    in order, and the panic that ends it, if any. *)
Definition indexPost (secret : string) (ps : Pubsub) (projectID : string)
    (r : EventHandler.Request) : list effect * option string :=
  let source := EventHandler.getSource (EventHandler.Header r) in
  match EventHandler.authorizedSources secret !! source with
  | None => ([WriteHeader EventHandler.StatusForbidden], None)
  | Some authSource =>
      let '(sig, written) :=
        let v := Values_Get (EventHandler.Query r) (EventHandler.signature authSource) in
        if negb (String.eqb v "") then (v, [])
        else
          let v := Values_Get (EventHandler.Header r)
                     (EventHandler.signature authSource) in
          if negb (String.eqb v "") then (v, [])
          else ("", [WriteHeader EventHandler.StatusForbidden]) in
      let '(b, err) := EventHandler.Body r in
      if err is Some _
      then (written ++ [WriteHeader EventHandler.StatusBadRequest], None)
      else
        match EventHandler.verification authSource sig b with
        | Panic msg => (written, Some msg)
        | Ok false => (written ++ [WriteHeader EventHandler.StatusForbidden], None)
        | Ok true =>
            let pubsubHeaders := delete "Authorization" (EventHandler.Header r) in
            let '(sent, err) := publishToPubsub ps projectID authSource pubsubHeaders b in
            (written ++ map (fun tm => Published tm.1 tm.2) sent
               ++ [WriteHeader EventHandler.StatusNoContent], None)
        end
  end.

Definition statuses (effects : list effect) : list nat :=
  omap (fun e => if e is WriteHeader n then Some n else None) effects.

End Republish.

(** The signature the receiver verifies: the query parameter when it is
    present and not empty, the header otherwise. *)
Definition deliveredSignature (r : EventHandler.Request) : string :=
  let v := Values_Get (EventHandler.Query r) "X-Hub-Signature-256" in
  if String.eqb v "" then Values_Get (EventHandler.Header r) "X-Hub-Signature-256"
  else v.

(** A header names the Tekton or the GitHub provider by its content. *)
Definition saysTekton (header : gmap string (list string)) : Prop :=
  is_Some (header !! "Ce-Type")
  /\ strings_Contains (Values_Get header "Ce-Type") "tekton" = true.

Definition saysHookshot (header : gmap string (list string)) : Prop :=
  is_Some (header !! "User-Agent")
  /\ strings_Contains (Values_Get header "User-Agent") "GitHub-Hookshot" = true.

(** *** A concrete delivery to the receiver *)

Definition pubsubUp : Republish.Pubsub :=
  {| Republish.NewClient := fun _ => None;
     Republish.json_Unmarshal := fun _ => None;
     Republish.json_Marshal := fun _ => (list_byte_of_string "{}", None);
     Republish.Publish := fun _ _ => ("1", None) |}.

Definition bodyPush : list byte :=
  list_byte_of_string "{}".

(** A delivery signed under the secret [key]. *)
Definition deliveryPush : EventHandler.Request :=
  {| EventHandler.Header :=
       {[ "User-Agent" := ["GitHub-Hookshot/abc"];
          "X-Github-Event" := ["push"];
          "Authorization" := ["Bearer token"];
          "X-Hub-Signature-256" :=
            ["sha256=" +:+ hex.EncodeToString
                             (hmac.Sum (list_byte_of_string "key") bodyPush)] ]};
     EventHandler.Query := ∅;
     EventHandler.Body := (bodyPush, None) |}.

(** Text after the digits at which [hex.Decode] stops without writing: the
    empty text, a single character, or a pair with a character that is no
    hexadecimal digit. *)
Definition stopsDecoding (junk : list byte) : Prop :=
  match junk with
  | p :: q :: _ =>
      (15 <? hex.reverseHexTable p)%N = true \/ (15 <? hex.reverseHexTable q)%N = true
  | _ => True
  end.

(** ** [packages/shared/logger.go] and the middleware of the parser *)

Module shared.

(** The keys of a [context.Context]: the package's own [loggerKey], and the
    keys of other packages. *)
Inductive key : Type :=
| loggerKey
| foreignKey (name : string).

#[global] Instance key_eq_dec : EqDecision key.
Proof. solve_decision. Defined.

(** A [*slog.Logger], as far as the program tells loggers apart: the
    attributes added with [With]. *)
Record Logger := { attrs : list (string * string) }.

Inductive ctxValue : Type :=
| loggerValue (l : Logger)
| foreignValue (v : string).

(** A context is the chain of its [WithValue] bindings, the innermost
    first. *)
Definition Context : Type := list (key * ctxValue).

Definition Value (ctx : Context) (k : key) : option ctxValue :=
  snd <$> find (fun kv => bool_decide (kv.1 = k)) ctx.

Definition WithValue (ctx : Context) (k : key) (v : ctxValue) : Context :=
  (k, v) :: ctx.

(** [slog.New(slog.NewJSONHandler(os.Stdout, ...))] *)
Definition newLogger : Logger := {| attrs := [] |}.

(** [logger.With(args...)] *)
Definition With (l : Logger) (args : list (string * string)) : Logger :=
  {| attrs := attrs l ++ args |}.

Definition WithLogger (ctx : Context) : Context :=
  WithValue ctx loggerKey (loggerValue newLogger).

Definition SetLogger (ctx : Context) (logger : Logger) : Context :=
  WithValue ctx loggerKey (loggerValue logger).

Definition LoggerFromContext (ctx : Context) : result Logger :=
  match Value ctx loggerKey with
  | Some (loggerValue logger) => Ok logger
  | _ => Panic "logger not found in context"
  end.

End shared.

(** *** [extractTraceID]

    The matches of the regular expression [([a-f\d]+)/([a-f\d]+)]: a match
    is a maximal run of the class, a slash and a maximal run of the class;
    [FindAllSubmatch] returns the successive matches that do not overlap,
    each with its two groups. *)

Definition traceChar (c : byte) : bool :=
  let n := Byte.to_N c in
  ((48 <=? n)%N && (n <=? 57)%N) || ((97 <=? n)%N && (n <=? 102)%N).

(** The longest prefix in the class, and what follows it. *)
Fixpoint traceRun (s : list byte) : list byte * list byte :=
  match s with
  | c :: s' =>
      if traceChar c then let '(run, rest) := traceRun s' in (c :: run, rest)
      else ([], s)
  | [] => ([], [])
  end.

Definition slash : byte := "/"%byte.

Fixpoint FindAllSubmatch (fuel : nat) (s : list byte) : list (list (list byte)) :=
  match fuel with
  | O => []
  | S fuel' =>
      match s with
      | [] => []
      | c :: s' =>
          let '(g1, rest1) := traceRun s in
          match g1 with
          | [] => FindAllSubmatch fuel' s'
          | _ =>
              match rest1 with
              | c1 :: rest2 =>
                  if Byte.eqb c1 slash then
                    let '(g2, rest3) := traceRun rest2 in
                    match g2 with
                    | [] => FindAllSubmatch fuel' rest1
                    | _ =>
                        [g1 ++ slash :: g2; g1; g2] :: FindAllSubmatch fuel' rest3
                    end
                  else FindAllSubmatch fuel' rest1
              | [] => []
              end
          end
      end
  end.

Definition extractTraceID (raw : list byte) : string * bool :=
  if decide (length raw = 0) then ("", false)
  else
    match FindAllSubmatch (length raw) raw with
    | [sub] =>
        if decide (length sub = 3) then (string_of_list_byte (nth 1 sub []), true)
        else ("", false)
    | _ => ("", false)
    end.

(** The text that may follow a run of the class: nothing, or a byte outside
    the class. *)
Definition endsRun (rest : list byte) : Prop :=
  match rest with
  | c :: _ => traceChar c = false
  | [] => True
  end.

(** A match of the expression in a text, with its two groups: two runs of
    the class, neither empty, around a slash. *)
Definition isMatchIn (s : list byte) (sub : list (list byte)) : Prop :=
  exists g1 g2 pre post,
    sub = [g1 ++ slash :: g2; g1; g2]
    /\ s = pre ++ g1 ++ slash :: g2 ++ post
    /\ g1 <> [] /\ g2 <> []
    /\ Forall (fun c => traceChar c = true) g1
    /\ Forall (fun c => traceChar c = true) g2.

(** *** The middleware *)

(** What the middleware sees of [*http.Request]. *)
Record HttpRequest := {
  Ctx : shared.Context;
  ReqHeader : gmap string (list string);
  Path : string;
  Inner : Request;
}.

Definition WithContext (r : HttpRequest) (ctx : shared.Context) : HttpRequest :=
  {| Ctx := ctx; ReqHeader := ReqHeader r; Path := Path r; Inner := Inner r |}.

Definition withLogger {A} (next : HttpRequest -> result A) (r : HttpRequest)
    : result A :=
  let ctx := shared.WithLogger (Ctx r) in
  next (WithContext r ctx).

(** [withTraceId]: the context returned by [shared.SetLogger] is not kept.
    [projectID] is [envVars.projectID]. *)
Definition withTraceId {A} (projectID : string) (next : HttpRequest -> result A)
    (r : HttpRequest) : result A :=
  let ctx := Ctx r in
  logger ← shared.LoggerFromContext ctx;
  let '(traceID, _) :=
    extractTraceID
      (list_byte_of_string (Values_Get (ReqHeader r) "X-Cloud-Trace-Context")) in
  let nextLogger :=
    shared.With logger
      [ ("logging.googleapis.com/trace",
         "projects/" +:+ projectID +:+ "/traces/" +:+ traceID);
        ("path", Path r) ] in
  let _ := shared.SetLogger ctx nextLogger in
  next (WithContext r ctx).

(** [indexPost] and [index] of the parser on a request with its context:
    [indexPost] fetches its logger first, and panics without one. *)
Definition indexPost_ctx (Sprint : value -> string)
    (time_Parse : string -> Time * option error) (env : Collaborators)
    (r : HttpRequest) : result nat :=
  logger ← shared.LoggerFromContext (Ctx r);
  indexPost Sprint time_Parse env (Inner r).

Definition index_ctx (Sprint : value -> string)
    (time_Parse : string -> Time * option error) (env : Collaborators)
    (r : HttpRequest) : result nat :=
  if String.eqb (Method (Inner r)) "POST" then indexPost_ctx Sprint time_Parse env r
  else if String.eqb (Method (Inner r)) "GET" then indexPost_ctx Sprint time_Parse env r
  else Ok StatusNotFound.

(** The handler registered by [main]: [withLogger(withTraceId(index))]. *)
Definition mainHandler (Sprint : value -> string)
    (time_Parse : string -> Time * option error) (env : Collaborators)
    (projectID : string) : HttpRequest -> result nat :=
  withLogger (withTraceId projectID (index_ctx Sprint time_Parse env)).

(** The call of [processGithubEvent_rev0] that [indexPost_rev0] makes. *)
Definition normalize_rev0 (time_Parse : string -> Time * option error)
    (env : Collaborators) (r : Request)
    : result (option EventRecord * option error) :=
  processGithubEvent_rev0 time_Parse (envelopeOf env r) (attrsOf env r)
    (metadataOf env r) (dataOf env r).

(** *** The extraction rules, as a table

    What the [switch] of [processGithubEvent] reads for each event type: the
    paths tried in order for the timestamp, and where the identifier comes
    from. *)

Inductive idRule : Type :=
| idString (path : list string)
| idNumber (path : list string)
| idRepoNumber (numberPath : list string).

Record rule := {
  timestamps : list (list string);
  identifier : idRule;
}.

Definition rules : list (string * rule) :=
  [ ("push",
     {| timestamps := [["head_commit"; "timestamp"]];
        identifier := idString ["head_commit"; "id"] |});
    ("pull_request",
     {| timestamps := [["pull_request"; "updated_at"]];
        identifier := idRepoNumber ["number"] |});
    ("pull_request_review",
     {| timestamps := [["review"; "submitted_at"]];
        identifier := idNumber ["review"; "id"] |});
    ("pull_request_review_comment",
     {| timestamps := [["comment"; "updated_at"]];
        identifier := idNumber ["review"; "id"] |});
    ("issues",
     {| timestamps := [["issue"; "updated_at"]];
        identifier := idRepoNumber ["issue"; "number"] |});
    ("issue_comment",
     {| timestamps := [["comment"; "updated_at"]];
        identifier := idString ["comment"; "id"] |});
    ("check_run",
     {| timestamps := [["check_run"; "completed_at"]; ["check_run"; "started_at"]];
        identifier := idString ["check_run"; "id"] |});
    ("check_suite",
     {| timestamps := [["check_suite"; "updated_at"]; ["check_suite"; "created_at"]];
        identifier := idString ["check_suite"; "id"] |});
    ("deployment_status",
     {| timestamps := [["deployment_status"; "updated_at"]];
        identifier := idString ["deployment_status"; "id"] |});
    ("status",
     {| timestamps := [["updated_at"]];
        identifier := idString ["id"] |});
    ("release",
     {| timestamps := [["release"; "published_at"]; ["release"; "created_at"]];
        identifier := idString ["release"; "id"] |}) ].

Fixpoint ruleOf_in (table : list (string * rule)) (eventType : string) : option rule :=
  match table with
  | [] => None
  | (name, r) :: table' =>
      if String.eqb eventType name then Some r else ruleOf_in table' eventType
  end.

Definition ruleOf : string -> option rule := ruleOf_in rules.

(** The first of the paths that holds a string. *)
Fixpoint firstString (metadata : gmap string value) (paths : list (list string))
    : string * bool :=
  match paths with
  | [] => ("", false)
  | path :: paths' =>
      let '(t, ok) := LookupMap (T := string) metadata path in
      if ok then (t, true) else firstString metadata paths'
  end.

Definition identify (metadata : gmap string value) (r : idRule) : string * bool :=
  match r with
  | idString path => LookupMap (T := string) metadata path
  | idNumber path =>
      let '(number, ok) := LookupMap (T := float64) metadata path in
      if ok then (Sprintd number, true) else ("", false)
  | idRepoNumber path => repoNumber metadata path
  end.

(** The record [processGithubEvent] builds from the request, an extraction
    and a parsed instant. *)
Definition recordOf (reqMessage : pubsubRequest) (headers : gmap string (list string))
    (rawMetadata : list byte) (eventType signature : string) (x : extraction)
    (timeCreated : Time) : EventRecord :=
  {| EventType := eventType;
     Id := id x;
     Metadata := string_of_list_byte rawMetadata;
     TimeCreated := timeCreated;
     Signature := signature;
     MsgId := MessageId reqMessage;
     Source := if headers !! "Mock" is Some _ then "github_mock" else "github" |}.

(** The collaborators with another insertion. *)
Definition withInsert (env : Collaborators) (insert : EventRecord -> option error)
    : Collaborators :=
  {| json_Unmarshal_pubsubRequest := json_Unmarshal_pubsubRequest env;
     json_Unmarshal_headers := json_Unmarshal_headers env;
     base64_DecodeString := base64_DecodeString env;
     json_Unmarshal_metadata := json_Unmarshal_metadata env;
     json_Marshal_headers := json_Marshal_headers env;
     json_Marshal_metadata := json_Marshal_metadata env;
     insertIntoBigQuery := insert |}.

(** A transport or decoding failure of the earlier revision, which does not
    encode the decoded values again. *)
Definition decodingFails_rev0 (env : Collaborators) (r : Request) : Prop :=
  is_Some (Body r).2
  \/ is_Some (json_Unmarshal_pubsubRequest env (Body r).1).2
  \/ is_Some (json_Unmarshal_headers env
                (list_byte_of_string (Headers (envelopeOf env r)))).2
  \/ is_Some (base64_DecodeString env (Data (envelopeOf env r))).2
  \/ is_Some (json_Unmarshal_metadata env (dataOf env r)).2.

(** * Properties *)

(** ** Test vectors for the hash and the MAC *)

Example hex_errors :
  hex.DecodeString "7a7" = ([Byte.x7a], Some hex.ErrLength)
  /\ hex.DecodeString "7azz"
     = ([Byte.x7a], Some (errorString "encoding/hex: invalid byte: U+007A 'z'"))
  /\ hex.DecodeString "7A7a" = ([Byte.x7a; Byte.x7a], None).
Proof. by vm_compute. Qed.

Example sha256_constants :
  length sha256._K = 64
  /\ nth 0 sha256._K 0%N = 0x428a2f98%N /\ nth 63 sha256._K 0%N = 0xc67178f2%N
  /\ length sha256.init = 8
  /\ nth 0 sha256.init 0%N = 0x6a09e667%N /\ nth 7 sha256.init 0%N = 0x5be0cd19%N.
Proof. by vm_compute. Qed.

Example sha256_abc :
  hex.EncodeToString (sha256.Sum256 (list_byte_of_string "abc"))
  = "ba7816bf8f01cfea414140de5dae2223b00361a396177a9cb410ff61f20015ad".
Proof. vm_compute. reflexivity. Qed.

Example sha256_empty :
  hex.EncodeToString (sha256.Sum256 [])
  = "e3b0c44298fc1c149afbf4c8996fb92427ae41e4649b934ca495991b7852b855".
Proof. vm_compute. reflexivity. Qed.

Example sha256_two_blocks :
  hex.EncodeToString (sha256.Sum256 (list_byte_of_string
    "abcdbcdecdefdefgefghfghighijhijkijkljklmklmnlmnomnopnopq"))
  = "248d6a61d20638b8e5c026930c3e6039a33ce45964ff2167f6ecedd419db06c1".
Proof. vm_compute. reflexivity. Qed.

Example hmac_sha256_fox :
  hex.EncodeToString (hmac.Sum (list_byte_of_string "key")
    (list_byte_of_string "The quick brown fox jumps over the lazy dog"))
  = "f7bc83f430538424b13298e6aa6fb143ef4d59a14946175997479dbc2d1a3cd8".
Proof. vm_compute. reflexivity. Qed.

(** ** Strings and bytes *)

Lemma list_byte_of_string_app (a b : string) :
  list_byte_of_string (a +:+ b) = list_byte_of_string a ++ list_byte_of_string b.
Proof.
  induction a as [|c a IH]; [reflexivity|].
  change (list_byte_of_string (String c (a +:+ b))
          = byte_of_ascii c :: (list_byte_of_string a ++ list_byte_of_string b)).
  rewrite <- IH. reflexivity.
Qed.

Lemma length_list_byte_of_string (s : string) :
  length (list_byte_of_string s) = String.length s.
Proof.
  induction s as [|c s IH]; [reflexivity|].
  change (S (length (list_byte_of_string s)) = S (String.length s)).
  by rewrite IH.
Qed.

Lemma string_from_app (a b : string) :
  string_from (a +:+ b) (String.length a) = Ok b.
Proof.
  unfold string_from.
  rewrite list_byte_of_string_app, <- length_list_byte_of_string.
  rewrite decide_True by (rewrite length_app; lia).
  by rewrite drop_app_length, string_of_list_byte_of_string.
Qed.

Lemma string_from_short (s : string) (n : nat) :
  String.length s < n ->
  string_from s n
  = Panic ("runtime error: slice bounds out of range ["
           +:+ pretty n +:+ ":" +:+ pretty (String.length s) +:+ "]").
Proof.
  intros Hlt. unfold string_from. rewrite length_list_byte_of_string.
  rewrite decide_False; [done|lia].
Qed.

Lemma string_from_long (s : string) (n : nat) :
  n <= String.length s -> returns (string_from s n).
Proof.
  intros Hle. unfold string_from.
  rewrite decide_True by (rewrite length_list_byte_of_string; lia).
  by eexists.
Qed.

(** ** The hexadecimal codec *)

Lemma hex_digits_byte (v : byte) :
  let a := hex.reverseHexTable (hex.hexdigit (N.shiftr (Byte.to_N v) 4)) in
  let b := hex.reverseHexTable (hex.hexdigit (N.land (Byte.to_N v) 15)) in
  (15 <? a)%N = false /\ (15 <? b)%N = false
  /\ hex.byte_of_N (N.lor (N.shiftl a 4) b) = v.
Proof. destruct v; vm_compute; auto. Qed.

Lemma hex_Decode_Encode (src : list byte) :
  hex.Decode (hex.Encode src) = (src, None).
Proof.
  induction src as [|v src IH]; [reflexivity|].
  destruct (hex_digits_byte v) as (Ha & Hb & Hv).
  cbn [hex.Encode hex.Decode]. cbv zeta in Ha, Hb, Hv.
  rewrite Ha, Hb, IH, Hv. reflexivity.
Qed.

Lemma hex_DecodeString_EncodeToString (src : list byte) :
  hex.DecodeString (hex.EncodeToString src) = (src, None).
Proof.
  unfold hex.DecodeString, hex.EncodeToString.
  by rewrite list_byte_of_string_of_list_byte, hex_Decode_Encode.
Qed.

(** Decoding never produces more than one byte for two characters. *)
Lemma hex_Decode_length (src : list byte) :
  2 * length (hex.Decode src).1 <= length src.
Proof.
  induction src as [src IH] using (induction_ltof1 _ (@length byte)).
  unfold ltof in IH.
  destruct src as [|p [|q rest]]; cbn [hex.Decode]; [simpl; lia| |].
  - destruct (15 <? _)%N; simpl; lia.
  - repeat (destruct (15 <? _)%N; [simpl; lia|]).
    specialize (IH rest ltac:(simpl; lia)).
    destruct (hex.Decode rest) as [out err]. simpl in *. lia.
Qed.

(** An odd number of characters is always an error. *)
Lemma hex_Decode_odd (src : list byte) :
  Nat.Odd (length src) -> is_Some (hex.Decode src).2.
Proof.
  induction src as [src IH] using (induction_ltof1 _ (@length byte)).
  unfold ltof in IH. intros Hodd.
  destruct src as [|p [|q rest]]; cbn [hex.Decode].
  - destruct Hodd as [k Hk]. simpl in Hk. lia.
  - destruct (15 <? _)%N; by eexists.
  - repeat (destruct (15 <? _)%N; [by eexists|]).
    assert (Nat.Odd (length rest)) as Hrest.
    { destruct Hodd as [k Hk]. simpl in Hk. exists (k - 1). lia. }
    specialize (IH rest ltac:(simpl; lia) Hrest).
    destruct (hex.Decode rest) as [out err]. exact IH.
Qed.

(** A character that is no hexadecimal digit is always an error. *)
Lemma hex_Decode_invalid (src : list byte) (c : byte) :
  c ∈ src -> hex.reverseHexTable c = 255%N -> is_Some (hex.Decode src).2.
Proof.
  induction src as [src IH] using (induction_ltof1 _ (@length byte)).
  unfold ltof in IH. intros Hin Hc.
  destruct src as [|p [|q rest]]; cbn [hex.Decode].
  - by apply elem_of_nil in Hin.
  - destruct (15 <? _)%N; by eexists.
  - destruct (15 <? hex.reverseHexTable p)%N eqn:Hp; [by eexists|].
    destruct (15 <? hex.reverseHexTable q)%N eqn:Hq; [by eexists|].
    assert (c ∈ rest) as Hrest.
    { apply elem_of_cons in Hin as [->|Hin]; [rewrite Hc in Hp; done|].
      apply elem_of_cons in Hin as [->|Hin]; [rewrite Hc in Hq; done|done]. }
    specialize (IH rest ltac:(simpl; lia) Hrest Hc).
    destruct (hex.Decode rest) as [out err]. exact IH.
Qed.

(** ** The constant-time comparison *)

Lemma byte_to_N_lt (b : byte) : (Byte.to_N b < 256)%N.
Proof. destruct b; vm_compute; reflexivity. Qed.

Lemma byte_to_N_inj (a b : byte) : Byte.to_N a = Byte.to_N b -> a = b.
Proof.
  intros Hab. apply (f_equal Byte.of_N) in Hab.
  rewrite !Byte.of_to_N in Hab. congruence.
Qed.

Lemma ConstantTimeByteEq_zero (v : N) :
  (v < 256)%N -> hmac.ConstantTimeByteEq v 0 = 1%N <-> v = 0%N.
Proof.
  intros Hv. unfold hmac.ConstantTimeByteEq.
  rewrite N.lxor_0_r.
  change 4294967295%N with (N.ones 32) at 2.
  rewrite N.land_ones, N.shiftr_div_pow2.
  split.
  - intros Heq. destruct (decide (v = 0%N)) as [|Hne]; [done|exfalso].
    assert ((v + 4294967295) mod 2 ^ 32 = v - 1)%N as Hmod.
    { replace (v + 4294967295)%N with ((v - 1) + 1 * 2 ^ 32)%N by lia.
      rewrite N.Div0.mod_add. apply N.mod_small. lia. }
    rewrite Hmod in Heq.
    rewrite N.div_small in Heq; [done|]. change (2 ^ 31)%N with 2147483648%N. lia.
  - intros ->. reflexivity.
Qed.

Lemma N_lt_pow2_bits (a k : N) :
  (a < 2 ^ k)%N <-> forall i, (k <= i)%N -> N.testbit a i = false.
Proof.
  split.
  - intros Ha i Hi. destruct (decide (a = 0%N)) as [->|Hne]; [apply N.bits_0|].
    apply N.bits_above_log2. apply N.log2_lt_pow2 in Ha; lia.
  - intros Hbits. destruct (decide (a < 2 ^ k)%N) as [|Hge]; [done|exfalso].
    assert (a <> 0%N) as Hne.
    { intros ->. apply Hge. apply N.neq_0_lt_0, N.pow_nonzero. done. }
    assert (k <= N.log2 a)%N as Hk by (apply N.log2_le_pow2; lia).
    specialize (Hbits _ Hk). rewrite N.bit_log2 in Hbits; done.
Qed.

Lemma xor_fold_lt (l : list (byte * byte)) (v : N) :
  (v < 256)%N ->
  (fold_left (fun v xy => N.lor v (N.lxor (Byte.to_N xy.1) (Byte.to_N xy.2))) l v
   < 256)%N.
Proof.
  revert v. induction l as [|[x y] l IH]; intros v Hv; [done|].
  cbn [fold_left]. apply IH. cbn [fst snd].
  pose proof (byte_to_N_lt x) as Hx. pose proof (byte_to_N_lt y) as Hy.
  change 256%N with (2 ^ 8)%N in *.
  rewrite N_lt_pow2_bits in Hv, Hx, Hy |- *.
  intros i Hi. rewrite N.lor_spec, N.lxor_spec, Hv, Hx, Hy; done.
Qed.

Lemma xor_fold_zero (l : list (byte * byte)) (v : N) :
  fold_left (fun v xy => N.lor v (N.lxor (Byte.to_N xy.1) (Byte.to_N xy.2))) l v = 0%N
  <-> v = 0%N /\ Forall (fun xy => xy.1 = xy.2) l.
Proof.
  revert v. induction l as [|[x y] l IH]; intros v; cbn [fold_left].
  - split; [intros ->; by split|by intros [-> _]].
  - rewrite IH, N.lor_eq_0_iff, N.lxor_eq_0_iff, Forall_cons. cbn [fst snd].
    split.
    + intros [[-> Hxy] Hl]. by apply byte_to_N_inj in Hxy.
    + intros [-> [-> Hl]]. done.
Qed.

Lemma Forall_combine_eq {A} (x y : list A) :
  length x = length y -> Forall (fun xy => xy.1 = xy.2) (combine x y) -> x = y.
Proof.
  revert y. induction x as [|a x IH]; intros [|b y] Hlen Hall; simplify_eq/=; [done|].
  apply Forall_cons in Hall as [Hab Hall]. simpl in Hab. subst b.
  f_equal. by apply IH.
Qed.

Lemma Forall_combine_diag {A} (x : list A) :
  Forall (fun xy => xy.1 = xy.2) (combine x x).
Proof. induction x; simpl; by constructor. Qed.

(** [hmac.Equal] decides equality of the two byte strings. *)
Lemma hmac_Equal_iff (mac1 mac2 : list byte) :
  hmac.Equal mac1 mac2 = true <-> mac1 = mac2.
Proof.
  unfold hmac.Equal, hmac.ConstantTimeCompare. rewrite N.eqb_eq.
  destruct (decide (length mac1 = length mac2)) as [Hlen|Hlen].
  - rewrite ConstantTimeByteEq_zero by (by apply xor_fold_lt).
    rewrite xor_fold_zero. split.
    + intros [_ Hall]. by apply Forall_combine_eq.
    + intros ->. split; [done|apply Forall_combine_diag].
  - split; [done|]. intros ->. done.
Qed.

Lemma hmac_Equal_refl (mac : list byte) : hmac.Equal mac mac = true.
Proof. by apply hmac_Equal_iff. Qed.

(** ** [verifyGithubSignature256] *)

(** With at least the seven characters of the prefix, the verifier returns:
    the result says whether the rest decodes to the expected MAC. *)
Lemma verifyGithubSignature256_long (secret signature : string) (body : list byte) :
  7 <= String.length signature ->
  exists suffix b,
    string_from signature 7 = Ok suffix
    /\ verifyGithubSignature256 secret signature body = Ok b
    /\ (b = true <-> hex.DecodeString suffix
                      = (hmac.Sum (list_byte_of_string secret) body, None)).
Proof.
  intros Hlen. destruct (string_from_long signature 7 Hlen) as [suffix Hs].
  exists suffix. unfold verifyGithubSignature256.
  change (String.length "sha256=") with 7.
  rewrite Hs. cbn [mbind result_bind].
  destruct (hex.DecodeString suffix) as [mac [e|]].
  - exists false. repeat split; [done|intros [=]].
  - eexists. repeat split.
    + rewrite hmac_Equal_iff. by intros ->.
    + intros [=]. by apply hmac_Equal_iff.
Qed.

Lemma verifyGithubSignature256_short (secret signature : string) (body : list byte) :
  String.length signature < 7 ->
  verifyGithubSignature256 secret signature body
  = Panic ("runtime error: slice bounds out of range [7:"
           +:+ pretty (String.length signature) +:+ "]").
Proof.
  intros Hlen. unfold verifyGithubSignature256.
  change (String.length "sha256=") with 7.
  by rewrite (string_from_short _ _ Hlen).
Qed.

(** A suffix that holds a character outside the hexadecimal digits, or an
    odd number of characters, is answered with [false]. *)
Lemma verifyGithubSignature256_malformed
    (secret prefix suffix : string) (body : list byte) :
  String.length prefix = 7 ->
  (Nat.Odd (String.length suffix)
   \/ exists c, c ∈ list_byte_of_string suffix /\ hex.reverseHexTable c = 255%N) ->
  verifyGithubSignature256 secret (prefix +:+ suffix) body = Ok false.
Proof.
  intros Hp Hbad. unfold verifyGithubSignature256.
  change (String.length "sha256=") with 7. rewrite <- Hp, string_from_app.
  cbn [mbind result_bind]. unfold hex.DecodeString.
  assert (is_Some (hex.Decode (list_byte_of_string suffix)).2) as [e He].
  { destruct Hbad as [Hodd|(c & Hin & Hc)].
    - apply hex_Decode_odd. by rewrite length_list_byte_of_string.
    - by eapply hex_Decode_invalid. }
  destruct (hex.Decode _) as [mac err]. simpl in He. by rewrite He.
Qed.

(** A well-formed suffix of the wrong length (not 64 digits) is answered
    with [false] as well. *)
Lemma verifyGithubSignature256_wrong_length
    (secret prefix suffix : string) (body : list byte) :
  String.length prefix = 7 ->
  String.length suffix < 2 * length (hmac.Sum (list_byte_of_string secret) body) ->
  verifyGithubSignature256 secret (prefix +:+ suffix) body = Ok false.
Proof.
  intros Hp Hlen. unfold verifyGithubSignature256.
  change (String.length "sha256=") with 7. rewrite <- Hp, string_from_app.
  cbn [mbind result_bind]. unfold hex.DecodeString.
  pose proof (hex_Decode_length (list_byte_of_string suffix)) as Hdec.
  rewrite length_list_byte_of_string in Hdec.
  destruct (hex.Decode _) as [mac [e|]]; [done|]. simpl in Hdec.
  f_equal. apply not_true_is_false. rewrite hmac_Equal_iff. intros ->. lia.
Qed.

(** The receiver reaches the verifier with the empty signature: when a
    GitHub delivery carries the signature neither in the query nor in the
    headers, the handler writes 403 and carries on, and the verifier
    panics. *)
Lemma EventHandler_indexPost_missing_signature (secret : string)
    (publish : EventHandler.eventSource -> gmap string (list string) -> list byte
               -> option error)
    (r : EventHandler.Request) (b : list byte) :
  EventHandler.getSource (EventHandler.Header r) = "github" ->
  EventHandler.Query r !! "X-Hub-Signature-256" = None ->
  EventHandler.Header r !! "X-Hub-Signature-256" = None ->
  EventHandler.Body r = (b, None) ->
  EventHandler.indexPost secret publish r
  = ([EventHandler.StatusForbidden],
     Some "runtime error: slice bounds out of range [7:0]").
Proof.
  intros Hsrc Hq Hh Hb. unfold EventHandler.indexPost.
  rewrite Hsrc. unfold EventHandler.authorizedSources.
  rewrite lookup_singleton_eq. cbn [EventHandler.signature EventHandler.verification].
  unfold Values_Get. rewrite Hq, Hh, Hb. cbn [String.eqb negb].
  by rewrite verifyGithubSignature256_short by (simpl; lia).
Qed.

Example EventHandler_indexPost_no_signature :
  EventHandler.indexPost "key" (fun _ _ _ => None)
    {| EventHandler.Header := {[ "User-Agent" := ["GitHub-Hookshot/abc"] ]};
       EventHandler.Query := ∅;
       EventHandler.Body := ([], None) |}
  = ([403], Some "runtime error: slice bounds out of range [7:0]").
Proof. by vm_compute. Qed.

(** C1 (not met by the code): a signature header shorter than the seven
    characters of the scheme prefix does not make the verifier return
    [false]; the slice expression panics, for every secret and body.
    Shown at the empty header, which the handler passes on when the header is
    absent, and at the five characters of the legacy scheme. *)
Theorem verifyGithubSignature256_panics_on_short_header
    (secret : string) (body : list byte) :
  verifyGithubSignature256 secret "" body
  = Panic "runtime error: slice bounds out of range [7:0]"
  /\ verifyGithubSignature256 secret "sha1=" body
     = Panic "runtime error: slice bounds out of range [7:5]"
  /\ ~ returns (verifyGithubSignature256 secret "" body).
Proof.
  split; [|split].
  - by rewrite verifyGithubSignature256_short by (simpl; lia).
  - by rewrite verifyGithubSignature256_short by (simpl; lia).
  - intros [b Hb]. rewrite verifyGithubSignature256_short in Hb by (simpl; lia).
    discriminate.
Qed.

(** C10: the seven characters in front of the digits are dropped unread:
    whatever they are, a header that continues with the hexadecimal digits of
    the HMAC-SHA256 of the body under the secret is accepted. *)
Theorem verifyGithubSignature256_ignores_prefix
    (secret prefix : string) (body : list byte) :
  String.length prefix = 7 ->
  verifyGithubSignature256 secret
    (prefix +:+ hex.EncodeToString (hmac.Sum (list_byte_of_string secret) body)) body
  = Ok true.
Proof.
  intros Hp. unfold verifyGithubSignature256.
  change (String.length "sha256=") with 7. rewrite <- Hp, string_from_app.
  cbn [mbind result_bind].
  by rewrite hex_DecodeString_EncodeToString, hmac_Equal_refl.
Qed.

Lemma verifyGithubSignature256_ignores_prefix_witness :
  String.length "md5~~~:" = 7
  /\ verifyGithubSignature256 "key"
       ("md5~~~:" +:+ hex.EncodeToString
          (hmac.Sum (list_byte_of_string "key")
             (list_byte_of_string "The quick brown fox jumps over the lazy dog")))
       (list_byte_of_string "The quick brown fox jumps over the lazy dog")
     = Ok true.
Proof.
  split; [reflexivity|].
  apply (verifyGithubSignature256_ignores_prefix "key" "md5~~~:"). reflexivity.
Defined.

Example verifyGithubSignature256_fox :
  verifyGithubSignature256 "key"
    "sha256=f7bc83f430538424b13298e6aa6fb143ef4d59a14946175997479dbc2d1a3cd8"
    (list_byte_of_string "The quick brown fox jumps over the lazy dog") = Ok true
  /\ verifyGithubSignature256 "key"
    "SHA-256F7BC83F430538424B13298E6AA6FB143EF4D59A14946175997479DBC2D1A3CD8"
    (list_byte_of_string "The quick brown fox jumps over the lazy dog") = Ok true
  /\ verifyGithubSignature256 "key"
    "sha256=f7bc83f430538424b13298e6aa6fb143ef4d59a14946175997479dbc2d1a3cd8"
    (list_byte_of_string "The quick brown fox jumps over the lazy cog") = Ok false
  /\ verifyGithubSignature256 "key"
    "sha256=zz"
    (list_byte_of_string "The quick brown fox jumps over the lazy dog") = Ok false.
Proof. vm_compute. auto. Qed.

(** ** The navigators *)

Section LookupFacts.

Context {T : Type} `{GoType T}.
Variable Sprint : value -> string.

Lemma LookupMap_loop_descend (val : value) (keys : list string) :
  LookupMap_loop (T := T) val keys
  = match descend val keys with
    | Some v => inr v
    | None => inl (zero, false)
    end.
Proof.
  revert val. induction keys as [|key keys IH]; intros val; [done|].
  destruct val; try done. cbn [LookupMap_loop descend].
  destruct (m !! key) as [val'|]; [apply IH|done].
Qed.

(** [LookupMap] in one equation: the flag is set exactly when the path
    resolves and the assertion holds, and then the stored value is
    returned; otherwise the zero value with [false]. *)
Lemma LookupMap_descend (m : gmap string value) (keys : list string) :
  LookupMap (T := T) m keys
  = match descend (VMap m) keys ≫= assert with
    | Some result => (result, true)
    | None => (zero, false)
    end.
Proof.
  unfold LookupMap. rewrite LookupMap_loop_descend.
  destruct (descend (VMap m) keys) as [val|]; [|done].
  cbn [mbind option_bind]. by destruct (assert val).
Qed.

Lemma LookupMapE_loop_resolved (walked : list string) (val v : value)
    (keys : list string) :
  descend val keys = Some v ->
  LookupMapE_loop (T := T) Sprint walked val keys = inr v.
Proof.
  revert walked val. induction keys as [|key keys IH]; intros walked val Hd.
  - by simplify_eq/=.
  - destruct val; try done. cbn [LookupMapE_loop descend] in *.
    destruct (m !! key) as [val'|]; [by apply IH|done].
Qed.

(** The error of the diagnostic variant for an absent key: the path walked
    so far, ending in the absent key, and the map that lacks it. *)
Lemma LookupMapE_loop_missing (walked : list string) (val : value)
    (pre : list string) (m' : gmap string value) (key : string)
    (post : list string) :
  descend val pre = Some (VMap m') -> m' !! key = None ->
  LookupMapE_loop (T := T) Sprint walked val (pre ++ key :: post)
  = inl (zero, Some (errNotFound Sprint (walked ++ pre ++ [key]) m')).
Proof.
  revert walked val. induction pre as [|k pre IH]; intros walked val Hd Hk.
  - simplify_eq/=. by rewrite Hk.
  - destruct val; try done. cbn [LookupMapE_loop descend app] in *.
    destruct (m !! k) as [val'|]; [|done].
    rewrite (IH _ _ Hd Hk). by rewrite <- (assoc_L _ walked [k]).
Qed.

(** Every failure of the walk is reported as a [key ...] error. *)
Lemma LookupMapE_loop_unresolved (walked : list string) (val : value)
    (keys : list string) :
  descend val keys = None ->
  exists text,
    LookupMapE_loop (T := T) Sprint walked val keys
    = inl (zero, Some (errorString ("key " +:+ text))).
Proof.
  revert walked val. induction keys as [|key keys IH]; intros walked val Hd.
  - done.
  - destruct val; try (by eexists). cbn [LookupMapE_loop descend] in *.
    destruct (m !! key) as [val'|]; [by apply IH|by eexists].
Qed.

Lemma LookupMapE_resolved (m : gmap string value) (keys : list string) (v : value) :
  descend (VMap m) keys = Some v ->
  LookupMapE (T := T) Sprint m keys
  = match assert v with
    | Some result => (result, None)
    | None => (zero, Some (errNotType (T := T) Sprint v))
    end.
Proof.
  intros Hd. unfold LookupMapE. by rewrite (LookupMapE_loop_resolved _ _ _ _ Hd).
Qed.

Lemma LookupMapE_unresolved (m : gmap string value) (keys : list string) :
  descend (VMap m) keys = None ->
  exists text,
    LookupMapE (T := T) Sprint m keys = (zero, Some (errorString ("key " +:+ text))).
Proof.
  intros Hd. unfold LookupMapE.
  destruct (LookupMapE_loop_unresolved [] _ _ Hd) as [text ->]. by exists text.
Qed.

Lemma LookupMapE_missing (m : gmap string value) (pre : list string)
    (m' : gmap string value) (key : string) (post : list string) :
  descend (VMap m) pre = Some (VMap m') -> m' !! key = None ->
  LookupMapE (T := T) Sprint m (pre ++ key :: post)
  = (zero, Some (errNotFound Sprint (pre ++ [key]) m')).
Proof.
  intros Hd Hk. unfold LookupMapE.
  by rewrite (LookupMapE_loop_missing [] _ _ _ _ _ Hd Hk).
Qed.

Lemma descend_missing (val : value) (pre : list string)
    (m' : gmap string value) (key : string) (post : list string) :
  descend val pre = Some (VMap m') -> m' !! key = None ->
  descend val (pre ++ key :: post) = None.
Proof.
  revert val. induction pre as [|k pre IH]; intros val Hd Hk.
  - simplify_eq/=. by rewrite Hk.
  - destruct val; try done. cbn [descend app] in *.
    destruct (m !! k) as [val'|]; [by apply IH|done].
Qed.

(** The two variants agree on success and on the value. *)
Lemma LookupMapE_LookupMap (m : gmap string value) (keys : list string) :
  LookupMap (T := T) m keys
  = ((LookupMapE (T := T) Sprint m keys).1,
     bool_decide ((LookupMapE (T := T) Sprint m keys).2 = None)).
Proof.
  rewrite LookupMap_descend.
  destruct (descend (VMap m) keys) as [v|] eqn:Hd.
  - rewrite (LookupMapE_resolved _ _ _ Hd). cbn [mbind option_bind].
    by destruct (assert v).
  - destruct (LookupMapE_unresolved _ _ Hd) as [text ->]. done.
Qed.

End LookupFacts.

Example LookupMap_tree_abc :
  LookupMap (T := string) tree_abc ["a"; "b"; "c"] = ("d", true)
  /\ LookupMap (T := Z) tree_abc ["a"; "b"; "c"] = (0%Z, false)
  /\ LookupMap (T := string) tree_abc ["a"; "missed"; "c"] = ("", false).
Proof. vm_compute. auto. Qed.

Example rfc3339_instants :
  (rfc3339.time_Parse "1970-01-01T00:00:00Z").1 = {| unixNano := 0; zoneOffset := 0 |}
  /\ unixNano <$> rfc3339.parse "2024-02-29T12:30:45Z"
     = Some 1709209845000000000%Z
  /\ rfc3339.parse "2024-02-29T21:30:45.5+09:00"
     = Some {| unixNano := 1709209845500000000; zoneOffset := 32400 |}
  /\ rfc3339.parse "2023-02-29T12:30:45Z" = None
  /\ rfc3339.parse "2024-02-29 12:30:45" = None.
Proof. vm_compute. auto 10. Qed.

(** C3: on the tree [{"a":{"b":{"c":"d"}}}] the silent navigator finds
    [("d", true)] along [a, b, c]. When a key of the path is absent from the
    map reached so far, the silent navigator returns the zero value and
    [false], and the diagnostic one returns the zero value and an error that
    names the path walked so far, ending in the absent key, joined by dots.
    Neither variant fills in a default: success is reported only when every
    key resolves and the assertion holds, with the stored value, and every
    failure carries the zero value with [false] or an error. *)
Theorem LookupMap_all_or_nothing :
  LookupMap (T := string) tree_abc ["a"; "b"; "c"] = ("d", true)
  /\ (forall (T : Type) (GT : GoType T) (Sprint : value -> string)
        (m : gmap string value) (pre : list string) (m' : gmap string value)
        (key : string) (post : list string),
        descend (VMap m) pre = Some (VMap m') -> m' !! key = None ->
        LookupMap (T := T) m (pre ++ key :: post) = (zero, false)
        /\ LookupMapE (T := T) Sprint m (pre ++ key :: post)
           = (zero, Some (errorString
                ("key " +:+ strings_Join (pre ++ [key]) "." +:+ " not found in "
                 +:+ Sprint (VMap m')))))
  /\ (forall (T : Type) (GT : GoType T) (Sprint : value -> string)
        (m : gmap string value) (keys : list string) (r : T),
        (LookupMap (T := T) m keys = (r, true) <->
           exists v, descend (VMap m) keys = Some v /\ assert v = Some r)
        /\ (LookupMap (T := T) m keys = (r, false) -> r = zero)
        /\ (LookupMapE (T := T) Sprint m keys = (r, None) <->
           exists v, descend (VMap m) keys = Some v /\ assert v = Some r)
        /\ (forall e, LookupMapE (T := T) Sprint m keys = (r, Some e) -> r = zero)).
Proof.
  split; [by vm_compute|]. split.
  - intros T GT Sprint m pre m' key post Hd Hk. split.
    + rewrite LookupMap_descend. by rewrite (descend_missing _ _ _ _ post Hd Hk).
    + by rewrite (LookupMapE_missing Sprint _ _ _ _ post Hd Hk).
  - intros T GT Sprint m keys r.
    rewrite LookupMap_descend.
    destruct (descend (VMap m) keys) as [v|] eqn:Hd.
    + rewrite (LookupMapE_resolved Sprint _ _ _ Hd). cbn [mbind option_bind].
      assert ((exists v', Some v = Some v' /\ assert v' = Some r) <-> assert v = Some r)
        as Hex.
      { split; [intros (v' & [= <-] & Hr); done|intros Hr; by exists v]. }
      rewrite Hex. destruct (assert v) as [r'|]; split_and!.
      * split; [by intros [= ->]|by intros [= ->]].
      * intros [=].
      * split; [by intros [= ->]|by intros [= ->]].
      * intros e [=].
      * split; intros [=].
      * by intros [= <-].
      * split; intros [=].
      * by intros e [= <-].
    + destruct (LookupMapE_unresolved (T := T) Sprint _ _ Hd) as [text ->].
      cbn [mbind option_bind].
      assert ((exists v', None = Some v' /\ assert v' = Some r) <-> False) as Hex.
      { split; [intros (v' & [=] & _)|done]. }
      rewrite Hex. split_and!.
      * split; [intros [=]|done].
      * by intros [= <-].
      * split; [intros [=]|done].
      * by intros e [= <-].
Qed.

Lemma LookupMap_all_or_nothing_witness :
  descend (VMap tree_abc) ["a"]
  = Some (VMap {[ "b" := VMap {[ "c" := VString "d" ]} ]})
  /\ ({[ "b" := VMap {[ "c" := VString "d" ]} ]} : gmap string value) !! "missed" = None
  /\ LookupMap (T := string) tree_abc ["a"; "missed"; "c"] = ("", false)
  /\ LookupMapE (T := string) (Sprintv Sprintg) tree_abc ["a"; "missed"; "c"]
     = ("", Some (errorString "key a.missed not found in map[b:map[c:d]]")).
Proof.
  destruct LookupMap_all_or_nothing as (_ & Hmissing & _).
  assert (descend (VMap tree_abc) ["a"]
          = Some (VMap {[ "b" := VMap {[ "c" := VString "d" ]} ]})) as Hd
    by reflexivity.
  assert (({[ "b" := VMap {[ "c" := VString "d" ]} ]} : gmap string value)
            !! "missed" = None) as Hk by reflexivity.
  destruct (Hmissing string _ (Sprintv Sprintg) tree_abc ["a"] _ "missed" ["c"] Hd Hk)
    as [Hsilent Hdiag].
  split; [exact Hd|]. split; [exact Hk|]. split; [exact Hsilent|].
  etrans; [exact Hdiag|]. by vm_compute.
Defined.

(** C4, the counterexample: asked for an [int], the silent navigator answers
    a stored [float64] exactly as it answers an absent key. *)
Lemma LookupMap_conflates_mismatch_and_absence :
  descend (VMap {[ "number" := VFloat64 (float64_of_Z 42) ]}) ["number"]
  = Some (VFloat64 (float64_of_Z 42))
  /\ assert (T := Z) (VFloat64 (float64_of_Z 42)) = None
  /\ descend (VMap ∅) ["number"] = None
  /\ LookupMap (T := Z) {[ "number" := VFloat64 (float64_of_Z 42) ]} ["number"]
     = LookupMap (T := Z) ∅ ["number"].
Proof. by vm_compute. Qed.

(** C4, as the code has it: when every key resolves and the final value has
    the wrong type, the diagnostic navigator returns an error that differs
    from the one it returns when the path does not resolve; the silent
    navigator returns the zero value and [false] in both cases. *)
Theorem LookupMapE_separates_mismatch_from_absence
    (T : Type) (GT : GoType T) (Sprint : value -> string)
    (m1 : gmap string value) (keys1 : list string) (v : value)
    (m2 : gmap string value) (keys2 : list string) :
  descend (VMap m1) keys1 = Some v -> assert (T := T) v = None ->
  descend (VMap m2) keys2 = None ->
  (LookupMapE (T := T) Sprint m1 keys1).2 <> (LookupMapE (T := T) Sprint m2 keys2).2
  /\ (LookupMapE (T := T) Sprint m1 keys1).2
     = Some (errorString ("value " +:+ Sprint v +:+ " is not of type "
                          +:+ typeName (T := T)))
  /\ LookupMap (T := T) m1 keys1 = (zero, false)
  /\ LookupMap (T := T) m2 keys2 = (zero, false).
Proof.
  intros Hd1 Ha Hd2.
  rewrite !LookupMap_descend, Hd1, Hd2. cbn [mbind option_bind]. rewrite Ha.
  rewrite (LookupMapE_resolved Sprint _ _ _ Hd1), Ha.
  destruct (LookupMapE_unresolved (T := T) Sprint _ _ Hd2) as [text ->].
  repeat split. cbn. intros [=].
Qed.

Lemma LookupMapE_separates_mismatch_from_absence_witness :
  descend (VMap {[ "number" := VFloat64 (float64_of_Z 42) ]}) ["number"]
  = Some (VFloat64 (float64_of_Z 42))
  /\ assert (T := Z) (VFloat64 (float64_of_Z 42)) = None
  /\ descend (VMap ∅) ["number"] = None
  /\ (LookupMapE (T := Z) (Sprintv Sprintg)
        {[ "number" := VFloat64 (float64_of_Z 42) ]} ["number"]).2
     = Some (errorString "value 42 is not of type int")
  /\ (LookupMapE (T := Z) (Sprintv Sprintg) ∅ ["number"]).2
     = Some (errorString "key number not found in map[]").
Proof.
  assert (descend (VMap {[ "number" := VFloat64 (float64_of_Z 42) ]}) ["number"]
          = Some (VFloat64 (float64_of_Z 42))) as Hd1 by reflexivity.
  assert (assert (T := Z) (VFloat64 (float64_of_Z 42)) = None) as Ha by reflexivity.
  assert (descend (VMap ∅) ["number"] = None) as Hd2 by reflexivity.
  destruct (LookupMapE_separates_mismatch_from_absence Z _ (Sprintv Sprintg)
              _ _ _ _ _ Hd1 Ha Hd2) as (_ & Herr & _).
  split; [exact Hd1|]. split; [exact Ha|]. split; [exact Hd2|].
  split; [etrans; [exact Herr|by vm_compute]|by vm_compute].
Defined.

(** ** [processGithubEvent] *)

Lemma eventTypes_lookup (et : string) :
  eventTypes !! et = if bool_decide (et ∈ recognized) then Some true else None.
Proof.
  unfold eventTypes, recognized.
  repeat (rewrite lookup_insert; case_decide; [subst et; by vm_compute|]).
  rewrite lookup_singleton. case_decide; [subst et; by vm_compute|].
  rewrite bool_decide_eq_false_2; [done|].
  rewrite !elem_of_cons, elem_of_nil. intuition congruence.
Qed.

Lemma eventTypes_recognized (et : string) :
  eventTypes !! et = Some true <-> et ∈ recognized.
Proof. rewrite eventTypes_lookup. case_bool_decide; intuition congruence. Qed.

Lemma eventTypes_unrecognized (et : string) :
  eventTypes !! et = None <-> et ∉ recognized.
Proof. rewrite eventTypes_lookup. case_bool_decide; intuition congruence. Qed.

Lemma eventTypes_check_run : eventTypes !! "check_run" = Some true.
Proof. by vm_compute. Qed.

Lemma eventTypes_pull_request : eventTypes !! "pull_request" = Some true.
Proof. by vm_compute. Qed.

Lemma eventTypes_size : size eventTypes = 11.
Proof. by vm_compute. Qed.

Lemma noValue_index0 (headers : gmap string (list string)) (name : string) :
  noValue headers name ->
  index0 (default [] (headers !! name))
  = Panic "runtime error: index out of range [0] with length 0".
Proof. by intros [-> | ->]. Qed.

(** One step of the statements at the head of [processGithubEvent]. *)
Ltac go_step :=
  cbn [default from_option Datatypes.id index0 mbind result_bind negb].

Section ParserFacts.

Variable Sprint : value -> string.
Variable time_Parse : string -> Time * option error.
Variable reqMessage : pubsubRequest.
Variable headers : gmap string (list string).
Variable metadata : gmap string value.
Variable rawMetadata : list byte.

Local Abbreviation process :=
  (processGithubEvent Sprint time_Parse reqMessage headers metadata rawMetadata).
Local Abbreviation processWith types :=
  (processGithubEventWith Sprint time_Parse types reqMessage headers metadata
     rawMetadata).

(** The [switch] has a branch for each recognised type. *)
Lemma dispatch_recognized (et : string) :
  et ∈ recognized -> is_Some (dispatch Sprint et metadata).
Proof.
  unfold recognized. rewrite !elem_of_cons, elem_of_nil.
  intros Hin. unfold dispatch, firstOf, repoNumber.
  repeat (destruct Hin as [-> | Hin]; [cbn [String.eqb Ascii.eqb Bool.eqb];
    repeat (match goal with
            | |- context [LookupMap ?m ?k] => destruct (LookupMap m k) as [? []]
            | |- context [LookupMapE ?s ?m ?k] => destruct (LookupMapE s m k) as [? []]
            end); by eexists|]).
  done.
Qed.

Lemma dispatch_unknown (et : string) :
  et ∉ recognized -> dispatch Sprint et metadata = None.
Proof.
  unfold recognized. rewrite !elem_of_cons, elem_of_nil. intros Hnot.
  unfold dispatch.
  repeat match goal with
         | |- context [String.eqb et ?s] =>
             destruct (String.eqb_spec et s) as [->|_];
               [exfalso; apply Hnot; auto 15|]
         end.
  done.
Qed.

(** [processGithubEvent] once the two headers are read and the type has
    passed the filter. *)
Lemma processGithubEventWith_dispatched (types : gmap string bool)
    (et : string) (rest : list string) (sg : string) (rest' : list string) :
  headers !! hEvent = Some (et :: rest) ->
  types !! et = Some true ->
  headers !! hSignature = Some (sg :: rest') ->
  processWith types
  = match dispatch Sprint et metadata with
    | None =>
        Ok (None, Some (errorString ("event type " +:+ et +:+ " is not supported")))
    | Some x =>
        if negb (tOk x) || negb (iOk x) then Ok (None, errors_Join (missing x))
        else
          match time_Parse (maybeTimeCreated x) with
          | (_, Some e) =>
              Ok (None, Some (errorString
                    ("could not parse time_created: " +:+ Error e)))
          | (timeCreated, None) =>
              Ok (Some {| EventType := et;
                          Id := id x;
                          Metadata := string_of_list_byte rawMetadata;
                          TimeCreated := timeCreated;
                          Signature := sg;
                          MsgId := MessageId reqMessage;
                          Source := if headers !! "Mock" is Some _
                                    then "github_mock" else "github" |}, None)
          end
    end.
Proof.
  unfold hEvent, hSignature. intros He Ht Hs.
  unfold processGithubEventWith. rewrite He, Hs. go_step.
  rewrite Ht. go_step.
  destruct (dispatch Sprint et metadata) as [x|]; [|done].
  destruct (negb (tOk x) || negb (iOk x)); [done|].
  by destruct (time_Parse (maybeTimeCreated x)) as [t [e|]].
Qed.

(** C5: an event type outside the eleven recognised ones is skipped: no
    record and no error. The [default] branch of the [switch], which a type
    reaches only if the table admits it although no [case] handles it,
    returns an error instead; with the table of the program every admitted
    type has its [case], and no admitted type is ever answered with the
    skip outcome. *)
Theorem processGithubEvent_skip_is_not_error (et : string) (rest : list string) :
  headers !! hEvent = Some (et :: rest) ->
  (et ∉ recognized -> process = Ok (None, None))
  /\ (forall (types : gmap string bool) (sg : string) (rest' : list string),
        types !! et = Some true -> dispatch Sprint et metadata = None ->
        headers !! hSignature = Some (sg :: rest') ->
        processWith types
        = Ok (None, Some (errorString ("event type " +:+ et +:+ " is not supported")))
        /\ processWith types <> Ok (None, None))
  /\ (et ∈ recognized ->
        is_Some (dispatch Sprint et metadata) /\ process <> Ok (None, None)).
Proof.
  intros He. split; [|split].
  - intros Hnot. apply eventTypes_unrecognized in Hnot.
    unfold processGithubEvent, processGithubEventWith, hEvent in *.
    rewrite He. go_step. by rewrite Hnot.
  - intros types sg rest' Ht Hd Hs.
    rewrite (processGithubEventWith_dispatched _ _ _ _ _ He Ht Hs), Hd.
    split; [done|]. intros [=].
  - intros Hin. pose proof (dispatch_recognized _ Hin) as [x Hx].
    split; [by eexists|].
    apply eventTypes_recognized in Hin.
    unfold processGithubEvent, processGithubEventWith, hEvent in *.
    rewrite He. go_step. rewrite Hin. go_step.
    destruct (index0 (default [] (headers !! "X-Hub-Signature-256"))) as [sg|msg];
      [|done].
    go_step. rewrite Hx. unfold missing.
    destruct (tOk x), (iOk x); cbn [negb orb app errors_Join];
      try (by intros [=]).
    destruct (time_Parse (maybeTimeCreated x)) as [t [e|]]; by intros [=].
Qed.

(** C9: [processGithubEvent] panics on the index expression when the
    [X-Github-Event] header is absent or has no value, whatever the payload,
    and, for every recognised event type, when the [X-Hub-Signature-256]
    header is absent or has no value. *)
Theorem processGithubEvent_panics_without_header :
  (noValue headers hEvent ->
     process = Panic "runtime error: index out of range [0] with length 0")
  /\ (forall (et : string) (rest : list string),
        headers !! hEvent = Some (et :: rest) -> et ∈ recognized ->
        noValue headers hSignature ->
        process = Panic "runtime error: index out of range [0] with length 0").
Proof.
  split.
  - intros Hno. apply noValue_index0 in Hno.
    unfold processGithubEvent, processGithubEventWith, hEvent in *.
    by rewrite Hno.
  - intros et rest He Hin Hno. apply eventTypes_recognized in Hin.
    apply noValue_index0 in Hno.
    unfold processGithubEvent, processGithubEventWith, hEvent, hSignature in *.
    rewrite He. go_step. rewrite Hin. go_step. by rewrite Hno.
Qed.

(** Reading a field of the payload, or of an object of the payload. *)
Lemma LookupMap_field {T : Type} `{GoType T} (key : string) (v : value) (r : T) :
  metadata !! key = Some v -> assert v = Some r ->
  LookupMap (T := T) metadata [key] = (r, true).
Proof.
  intros Hk Ha. rewrite LookupMap_descend. cbn [descend]. rewrite Hk.
  cbn [mbind option_bind]. by rewrite Ha.
Qed.

Lemma LookupMap_nested {T : Type} `{GoType T} (obj key : string)
    (m : gmap string value) (v : value) (r : T) :
  metadata !! obj = Some (VMap m) -> m !! key = Some v -> assert v = Some r ->
  LookupMap (T := T) metadata [obj; key] = (r, true).
Proof.
  intros Ho Hk Ha. rewrite LookupMap_descend. cbn [descend]. rewrite Ho.
  cbn [mbind option_bind]. rewrite Hk. cbn [mbind option_bind]. by rewrite Ha.
Qed.

Lemma LookupMap_nested_absent {T : Type} `{GoType T} (obj key : string)
    (m : gmap string value) :
  metadata !! obj = Some (VMap m) -> m !! key = None ->
  LookupMap (T := T) metadata [obj; key] = (zero, false).
Proof.
  intros Ho Hk. rewrite LookupMap_descend. cbn [descend]. rewrite Ho.
  cbn [mbind option_bind]. by rewrite Hk.
Qed.

Lemma LookupMap_nested_string (obj key : string) (m : gmap string value) (s : string) :
  metadata !! obj = Some (VMap m) -> m !! key = Some (VString s) ->
  LookupMap (T := string) metadata [obj; key] = (s, true).
Proof. intros Ho Hk. by apply (LookupMap_nested obj key m (VString s)). Qed.

Lemma LookupMap_field_float64 (key : string) (f : float64) :
  metadata !! key = Some (VFloat64 f) ->
  LookupMap (T := float64) metadata [key] = (f, true).
Proof. intros Hk. by apply (LookupMap_field key (VFloat64 f)). Qed.

(** C6: for a [check_run] event whose payload holds both
    [check_run.completed_at] and [check_run.started_at] as strings, the
    timestamp the [switch] selects, and that [time.Parse] is then given, is
    the one of [completed_at]; when [completed_at] is absent it is the one of
    [started_at]. The record produced carries the instant parsed from it. *)
Theorem check_run_timestamp_priority (rest : list string) (sg : string)
    (rest' : list string) (cr : gmap string value) (started : string) :
  headers !! hEvent = Some ("check_run" :: rest) ->
  headers !! hSignature = Some (sg :: rest') ->
  metadata !! "check_run" = Some (VMap cr) ->
  cr !! "started_at" = Some (VString started) ->
  (forall completed : string,
     cr !! "completed_at" = Some (VString completed) ->
     (exists x, dispatch Sprint "check_run" metadata = Some x
                /\ maybeTimeCreated x = completed /\ tOk x = true)
     /\ (forall (i : string) (t : Time),
           cr !! "id" = Some (VString i) -> time_Parse completed = (t, None) ->
           exists ev, process = Ok (Some ev, None) /\ TimeCreated ev = t))
  /\ (cr !! "completed_at" = None ->
      (exists x, dispatch Sprint "check_run" metadata = Some x
                 /\ maybeTimeCreated x = started /\ tOk x = true)
      /\ (forall (i : string) (t : Time),
            cr !! "id" = Some (VString i) -> time_Parse started = (t, None) ->
            exists ev, process = Ok (Some ev, None) /\ TimeCreated ev = t)).
Proof.
  intros He Hs Hcr Hstarted.
  assert (forall ts,
    firstOf metadata ["check_run"; "completed_at"] ["check_run"; "started_at"]
      = (ts, true) ->
    (exists x, dispatch Sprint "check_run" metadata = Some x
               /\ maybeTimeCreated x = ts /\ tOk x = true)
    /\ (forall (i : string) (t : Time),
          cr !! "id" = Some (VString i) -> time_Parse ts = (t, None) ->
          exists ev, process = Ok (Some ev, None) /\ TimeCreated ev = t)) as Hfirst.
  { intros ts Hts.
    assert (dispatch Sprint "check_run" metadata
              = Some (Build_extraction ts
                        (LookupMap (T := string) metadata ["check_run"; "id"]).1
                        true
                        (LookupMap (T := string) metadata ["check_run"; "id"]).2
                        None None)) as Hd.
    { unfold dispatch. cbn [String.eqb Ascii.eqb Bool.eqb]. rewrite Hts.
      by destruct (LookupMap metadata ["check_run"; "id"]). }
    split; [eexists; split; [exact Hd|done]|].
    intros i t Hi Ht.
    unfold processGithubEvent.
    rewrite (processGithubEventWith_dispatched _ _ _ _ _ He eventTypes_check_run Hs).
    rewrite Hd.
    rewrite (LookupMap_nested_string _ _ _ _ Hcr Hi).
    cbn [tOk iOk maybeTimeCreated negb orb fst snd]. rewrite Ht.
    eexists. split; [reflexivity|done]. }
  split.
  - intros completed Hc. apply Hfirst. unfold firstOf.
    by rewrite (LookupMap_nested_string _ _ _ _ Hcr Hc).
  - intros Hc. apply Hfirst. unfold firstOf.
    rewrite (LookupMap_nested_absent (T := string) _ _ _ Hcr Hc).
    by rewrite (LookupMap_nested_string _ _ _ _ Hcr Hstarted).
Qed.

(** The identifier of a [pull_request] event, for any repository name and
    any number. *)
Lemma pull_request_id_general (rest : list string) (sg : string)
    (rest' : list string) (repo pr : gmap string value) (name : string)
    (number : float64) (ts : string) (t : Time) :
  headers !! hEvent = Some ("pull_request" :: rest) ->
  headers !! hSignature = Some (sg :: rest') ->
  metadata !! "repository" = Some (VMap repo) ->
  repo !! "name" = Some (VString name) ->
  metadata !! "number" = Some (VFloat64 number) ->
  metadata !! "pull_request" = Some (VMap pr) ->
  pr !! "updated_at" = Some (VString ts) ->
  time_Parse ts = (t, None) ->
  exists ev, process = Ok (Some ev, None)
    /\ Id ev = name +:+ "/" +:+ pretty (float64_to_int number)
    /\ EventType ev = "pull_request" /\ TimeCreated ev = t.
Proof.
  intros He Hs Hrepo Hname Hnum Hpr Hts Ht.
  unfold processGithubEvent.
  rewrite (processGithubEventWith_dispatched _ _ _ _ _ He eventTypes_pull_request Hs).
  unfold dispatch, repoNumber. cbn [String.eqb Ascii.eqb Bool.eqb].
  rewrite (LookupMap_nested_string _ _ _ _ Hpr Hts).
  rewrite (LookupMap_nested_string _ _ _ _ Hrepo Hname).
  rewrite (LookupMap_field_float64 _ _ Hnum).
  cbn [andb tOk iOk maybeTimeCreated negb orb]. rewrite Ht.
  eexists. split; [reflexivity|done].
Qed.

(** C7: for a [pull_request] event whose payload holds [repository.name]
    ["acme/widgets"], the JSON number 42 as top-level [number] and a
    [pull_request.updated_at] that parses, the record produced has the
    identifier ["acme/widgets/42"]. *)
Theorem pull_request_id_acme (rest : list string) (sg : string)
    (rest' : list string) (repo pr : gmap string value) (ts : string) (t : Time) :
  headers !! hEvent = Some ("pull_request" :: rest) ->
  headers !! hSignature = Some (sg :: rest') ->
  metadata !! "repository" = Some (VMap repo) ->
  repo !! "name" = Some (VString "acme/widgets") ->
  metadata !! "number" = Some (VFloat64 (float64_of_Z 42)) ->
  metadata !! "pull_request" = Some (VMap pr) ->
  pr !! "updated_at" = Some (VString ts) ->
  time_Parse ts = (t, None) ->
  exists ev, process = Ok (Some ev, None) /\ Id ev = "acme/widgets/42".
Proof.
  intros He Hs Hrepo Hname Hnum Hpr Hts Ht.
  destruct (pull_request_id_general _ _ _ _ _ _ _ _ _ He Hs Hrepo Hname Hnum Hpr Hts Ht)
    as (ev & Hev & Hid & _).
  exists ev. split; [done|]. rewrite Hid. by vm_compute.
Qed.

(** C8: for a recognised event type, when both the timestamp and the
    identifier are missing, the single error returned joins the two causes,
    timestamp first, and its message is the two messages on two lines; when
    exactly one is missing, the error holds that cause alone. *)
Theorem processGithubEvent_reports_every_missing_field (et : string)
    (rest : list string) (sg : string) (rest' : list string) :
  headers !! hEvent = Some (et :: rest) ->
  et ∈ recognized ->
  headers !! hSignature = Some (sg :: rest') ->
  exists x, dispatch Sprint et metadata = Some x /\
    let tCause := default (errorString "could not find time_created") (tErr x) in
    let iCause := default (errorString "could not find id") (iErr x) in
    (tOk x = false -> iOk x = false ->
       process = Ok (None, Some (joinError [tCause; iCause]))
       /\ Error (joinError [tCause; iCause])
          = Error tCause +:+ newline +:+ Error iCause)
    /\ (tOk x = false -> iOk x = true ->
         process = Ok (None, Some (joinError [tCause]))
         /\ Error (joinError [tCause]) = Error tCause)
    /\ (tOk x = true -> iOk x = false ->
         process = Ok (None, Some (joinError [iCause]))
         /\ Error (joinError [iCause]) = Error iCause).
Proof.
  intros He Hin Hs. destruct (dispatch_recognized _ Hin) as [x Hx].
  exists x. split; [done|]. cbv zeta.
  unfold processGithubEvent.
  rewrite (processGithubEventWith_dispatched _ _ _ _ _ He
             (proj2 (eventTypes_recognized _) Hin) Hs), Hx.
  unfold missing.
  split; [|split]; intros -> ->; by split.
Qed.

End ParserFacts.

(** *** The theorems at concrete deliveries *)

Lemma processGithubEvent_skip_is_not_error_witness :
  headersOf "star" !! hEvent = Some ["star"]
  /\ ("star" ∉ recognized)
  /\ processGithubEvent (Sprintv Sprintg) rfc3339.time_Parse envelope1
       (headersOf "star") ∅ [] = Ok (None, None)
  /\ ({[ "star" := true ]} : gmap string bool) !! "star" = Some true
  /\ dispatch (Sprintv Sprintg) "star" ∅ = None
  /\ headersOf "star" !! hSignature = Some ["sha256=00"]
  /\ processGithubEventWith (Sprintv Sprintg) rfc3339.time_Parse {[ "star" := true ]}
       envelope1 (headersOf "star") ∅ []
     = Ok (None, Some (errorString "event type star is not supported")).
Proof.
  assert (headersOf "star" !! hEvent = Some ["star"]) as He by reflexivity.
  assert ("star" ∉ recognized) as Hnot
    by (apply (bool_decide_unpack _); vm_compute; exact I).
  assert (({[ "star" := true ]} : gmap string bool) !! "star" = Some true) as Ht
    by reflexivity.
  assert (dispatch (Sprintv Sprintg) "star" ∅ = None) as Hd by reflexivity.
  assert (headersOf "star" !! hSignature = Some ["sha256=00"]) as Hs by reflexivity.
  destruct (processGithubEvent_skip_is_not_error (Sprintv Sprintg)
              rfc3339.time_Parse envelope1 (headersOf "star") ∅ [] "star" [] He)
    as (Hskip & Hdefault & _).
  split; [exact He|]. split; [exact Hnot|]. split; [exact (Hskip Hnot)|].
  split; [exact Ht|]. split; [exact Hd|]. split; [exact Hs|].
  exact (proj1 (Hdefault _ _ _ Ht Hd Hs)).
Defined.

Lemma processGithubEvent_panics_without_header_witness :
  noValue ∅ hEvent
  /\ processGithubEvent (Sprintv Sprintg) rfc3339.time_Parse envelope1 ∅ payloadPush []
     = Panic "runtime error: index out of range [0] with length 0"
  /\ ({[ "X-Github-Event" := ["push"] ]} : gmap string (list string)) !! hEvent
     = Some ["push"]
  /\ "push" ∈ recognized
  /\ noValue {[ "X-Github-Event" := ["push"] ]} hSignature
  /\ processGithubEvent (Sprintv Sprintg) rfc3339.time_Parse envelope1
       {[ "X-Github-Event" := ["push"] ]} payloadPush []
     = Panic "runtime error: index out of range [0] with length 0".
Proof.
  assert (noValue ∅ hEvent) as Hno1 by (left; reflexivity).
  assert (({[ "X-Github-Event" := ["push"] ]} : gmap string (list string)) !! hEvent
          = Some ["push"]) as He by reflexivity.
  assert ("push" ∈ recognized) as Hin
    by (apply (bool_decide_unpack _); vm_compute; exact I).
  assert (noValue {[ "X-Github-Event" := ["push"] ]} hSignature) as Hno2
    by (left; reflexivity).
  split; [exact Hno1|].
  split; [exact (proj1 (processGithubEvent_panics_without_header (Sprintv Sprintg)
                   rfc3339.time_Parse envelope1 ∅ payloadPush []) Hno1)|].
  split; [exact He|]. split; [exact Hin|]. split; [exact Hno2|].
  exact (proj2 (processGithubEvent_panics_without_header (Sprintv Sprintg)
                  rfc3339.time_Parse envelope1 _ payloadPush []) "push" [] He Hin Hno2).
Defined.

Lemma check_run_timestamp_priority_witness :
  headersOf "check_run" !! hEvent = Some ["check_run"]
  /\ headersOf "check_run" !! hSignature = Some ["sha256=00"]
  /\ (exists ev,
        processGithubEvent (Sprintv Sprintg) rfc3339.time_Parse envelope1
          (headersOf "check_run") payloadCheckRun [] = Ok (Some ev, None)
        /\ TimeCreated ev = {| unixNano := 1704164645000000000; zoneOffset := 0 |})
  /\ (exists ev,
        processGithubEvent (Sprintv Sprintg) rfc3339.time_Parse envelope1
          (headersOf "check_run") payloadCheckRunStarted [] = Ok (Some ev, None)
        /\ TimeCreated ev = {| unixNano := 1704067200000000000; zoneOffset := 0 |}).
Proof.
  assert (headersOf "check_run" !! hEvent = Some ["check_run"]) as He by reflexivity.
  assert (headersOf "check_run" !! hSignature = Some ["sha256=00"]) as Hs
    by reflexivity.
  split; [exact He|]. split; [exact Hs|]. split.
  - refine (proj2 (proj1 (check_run_timestamp_priority (Sprintv Sprintg)
        rfc3339.time_Parse envelope1 (headersOf "check_run") payloadCheckRun []
        [] "sha256=00" []
        {[ "id" := VString "77";
           "completed_at" := VString "2024-01-02T03:04:05Z";
           "started_at" := VString "2024-01-01T00:00:00Z" ]}
        "2024-01-01T00:00:00Z" He Hs _ _) "2024-01-02T03:04:05Z" _) "77" _ _ _);
      reflexivity.
  - refine (proj2 (proj2 (check_run_timestamp_priority (Sprintv Sprintg)
        rfc3339.time_Parse envelope1 (headersOf "check_run") payloadCheckRunStarted []
        [] "sha256=00" []
        {[ "id" := VString "77";
           "started_at" := VString "2024-01-01T00:00:00Z" ]}
        "2024-01-01T00:00:00Z" He Hs _ _) _) "77" _ _ _);
      reflexivity.
Defined.

Lemma pull_request_id_acme_witness :
  headersOf "pull_request" !! hEvent = Some ["pull_request"]
  /\ headersOf "pull_request" !! hSignature = Some ["sha256=00"]
  /\ rfc3339.time_Parse "2024-01-02T03:04:05Z"
     = ({| unixNano := 1704164645000000000; zoneOffset := 0 |}, None)
  /\ exists ev,
       processGithubEvent (Sprintv Sprintg) rfc3339.time_Parse envelope1
         (headersOf "pull_request") payloadPullRequest [] = Ok (Some ev, None)
       /\ Id ev = "acme/widgets/42".
Proof.
  assert (headersOf "pull_request" !! hEvent = Some ["pull_request"]) as He
    by reflexivity.
  assert (headersOf "pull_request" !! hSignature = Some ["sha256=00"]) as Hs
    by reflexivity.
  assert (rfc3339.time_Parse "2024-01-02T03:04:05Z"
          = ({| unixNano := 1704164645000000000; zoneOffset := 0 |}, None)) as Ht
    by (vm_compute; reflexivity).
  split; [exact He|]. split; [exact Hs|]. split; [exact Ht|].
  refine (pull_request_id_acme (Sprintv Sprintg) rfc3339.time_Parse envelope1
            (headersOf "pull_request") payloadPullRequest []
            [] "sha256=00" [] {[ "name" := VString "acme/widgets" ]}
            {[ "updated_at" := VString "2024-01-02T03:04:05Z" ]}
            "2024-01-02T03:04:05Z" _ He Hs _ _ _ _ _ Ht); reflexivity.
Defined.

Lemma processGithubEvent_reports_every_missing_field_witness :
  headersOf "push" !! hEvent = Some ["push"]
  /\ "push" ∈ recognized
  /\ headersOf "push" !! hSignature = Some ["sha256=00"]
  /\ processGithubEvent (Sprintv Sprintg) rfc3339.time_Parse envelope1
       (headersOf "push") ∅ []
     = Ok (None, Some (joinError [errorString "could not find time_created";
                                  errorString "could not find id"]))
  /\ Error (joinError [errorString "could not find time_created";
                       errorString "could not find id"])
     = "could not find time_created" +:+ newline +:+ "could not find id".
Proof.
  assert (headersOf "push" !! hEvent = Some ["push"]) as He by reflexivity.
  assert ("push" ∈ recognized) as Hin
    by (apply (bool_decide_unpack _); vm_compute; exact I).
  assert (headersOf "push" !! hSignature = Some ["sha256=00"]) as Hs by reflexivity.
  split; [exact He|]. split; [exact Hin|]. split; [exact Hs|].
  destruct (processGithubEvent_reports_every_missing_field (Sprintv Sprintg)
              rfc3339.time_Parse envelope1 (headersOf "push") ∅ []
              "push" [] "sha256=00" [] He Hin Hs) as (x & Hx & Hboth & _).
  assert (x = Build_extraction "" "" false false None None) as ->
    by (vm_compute in Hx; congruence).
  exact (Hboth eq_refl eq_refl).
Defined.

(** ** The consumer handler *)

Section ConsumerFacts.

Variable Sprint : value -> string.
Variable time_Parse : string -> Time * option error.
Variable env : Collaborators.
Variable r : Request.

Lemma decodeRequest_fails :
  decodingFails env r -> decodeRequest env r = inl StatusInternalServerError.
Proof.
  unfold decodingFails, decodeRequest, metadataOf, attrsOf, dataOf, envelopeOf.
  destruct (Body r) as [body [e|]]; cbn [fst snd]; [done|].
  destruct (json_Unmarshal_pubsubRequest env body) as [msg [e|]];
    cbn [fst snd]; [done|].
  destruct (json_Unmarshal_headers env _) as [attrs [e|]]; cbn [fst snd]; [done|].
  destruct (base64_DecodeString env _) as [data [e|]]; cbn [fst snd]; [done|].
  destruct (json_Unmarshal_metadata env _) as [metadata [e|]];
    cbn [fst snd]; [done|].
  destruct (json_Marshal_headers env _) as [attrsStr [e|]]; cbn [fst snd]; [done|].
  destruct (json_Marshal_metadata env _) as [metadataStr [e|]];
    cbn [fst snd]; [done|].
  intros H. repeat (destruct H as [[? [=]] | H]). by destruct H as [? [=]].
Qed.

Lemma decodeRequest_succeeds :
  ~ decodingFails env r ->
  decodeRequest env r
  = inr (envelopeOf env r, attrsOf env r, metadataOf env r, dataOf env r).
Proof.
  unfold decodingFails, decodeRequest, metadataOf, attrsOf, dataOf, envelopeOf.
  destruct (Body r) as [body [e|]]; cbn [fst snd];
    [intros []; left; by eexists|].
  destruct (json_Unmarshal_pubsubRequest env body) as [msg [e|]]; cbn [fst snd];
    [intros []; right; left; by eexists|].
  destruct (json_Unmarshal_headers env _) as [attrs [e|]]; cbn [fst snd];
    [intros []; do 2 right; left; by eexists|].
  destruct (base64_DecodeString env _) as [data [e|]]; cbn [fst snd];
    [intros []; do 3 right; left; by eexists|].
  destruct (json_Unmarshal_metadata env _) as [metadata [e|]]; cbn [fst snd];
    [intros []; do 4 right; left; by eexists|].
  destruct (json_Marshal_headers env _) as [attrsStr [e|]]; cbn [fst snd];
    [intros []; do 5 right; left; by eexists|].
  destruct (json_Marshal_metadata env _) as [metadataStr [e|]]; cbn [fst snd];
    [intros []; do 6 right; by eexists|].
  done.
Qed.

Lemma decodingFails_dec : decodingFails env r \/ ~ decodingFails env r.
Proof.
  assert (Decision (decodingFails env r)) as [Hfail|Hok]
    by (unfold decodingFails; apply _); [by left|by right].
Qed.

(** After a successful decoding the status is 200 whenever
    [processGithubEvent] returns, and its panic escapes otherwise. *)
Lemma indexPost_decoded :
  ~ decodingFails env r ->
  indexPost Sprint time_Parse env r
  = match normalize Sprint time_Parse env r with
    | Ok _ => Ok StatusOK
    | Panic msg => Panic msg
    end.
Proof.
  intros Hok. unfold indexPost, normalize. rewrite (decodeRequest_succeeds Hok).
  destruct (processGithubEvent _ _ _ _ _ _) as [[event err]|msg]; [|done].
  cbn [mbind result_bind]. destruct err; [done|].
  destruct event as [ev|]; [|done]. by destruct (insertIntoBigQuery env ev).
Qed.

(** C2, as the code has it: [indexPost] answers 500 exactly on a transport
    or decoding failure. After a successful decoding it answers 200 whenever
    [processGithubEvent] returns: on a skip, on a normalisation error, when
    the record is inserted, and also when the insertion into the sink
    fails. *)
Theorem indexPost_status :
  (indexPost Sprint time_Parse env r = Ok StatusInternalServerError
   <-> decodingFails env r)
  /\ (~ decodingFails env r ->
      forall (event : option EventRecord) (err : option error),
        normalize Sprint time_Parse env r = Ok (event, err) ->
        indexPost Sprint time_Parse env r = Ok StatusOK)
  /\ (~ decodingFails env r ->
      forall (ev : EventRecord) (e : error),
        normalize Sprint time_Parse env r = Ok (Some ev, None) ->
        insertIntoBigQuery env ev = Some e ->
        indexPost Sprint time_Parse env r = Ok StatusOK).
Proof.
  split; [split|split].
  - intros H500. destruct decodingFails_dec as [|Hok]; [done|exfalso].
    rewrite (indexPost_decoded Hok) in H500.
    by destruct (normalize Sprint time_Parse env r).
  - intros Hfail. unfold indexPost. by rewrite (decodeRequest_fails Hfail).
  - intros Hok event err Hn. by rewrite (indexPost_decoded Hok), Hn.
  - intros Hok ev e Hn _. by rewrite (indexPost_decoded Hok), Hn.
Qed.

End ConsumerFacts.

(** C2, the counterexample: a delivery of a [push] event that decodes and
    normalises to a record, while the insertion into the sink fails, is
    answered with 200 and not with 500. *)
Lemma indexPost_sink_failure_is_200 :
  ~ decodingFails sinkDown postRequest
  /\ (exists ev,
        normalize (Sprintv Sprintg) rfc3339.time_Parse sinkDown postRequest
        = Ok (Some ev, None)
        /\ insertIntoBigQuery sinkDown ev
           = Some (errorString "bigquery: unavailable"))
  /\ indexPost (Sprintv Sprintg) rfc3339.time_Parse sinkDown postRequest
     = Ok StatusOK
  /\ indexPost (Sprintv Sprintg) rfc3339.time_Parse sinkDown postRequest
     <> Ok StatusInternalServerError.
Proof.
  split; [|split; [|split]].
  - unfold decodingFails. cbn. intros H.
    repeat (destruct H as [[? [=]] | H]). by destruct H as [? [=]].
  - eexists. split; [by vm_compute|reflexivity].
  - by vm_compute.
  - by vm_compute.
Qed.

Lemma indexPost_status_witness :
  is_Some (json_Unmarshal_pubsubRequest undecodable []).2
  /\ decodingFails undecodable postRequest
  /\ indexPost (Sprintv Sprintg) rfc3339.time_Parse undecodable postRequest
     = Ok StatusInternalServerError.
Proof.
  assert (is_Some (json_Unmarshal_pubsubRequest undecodable []).2) as He
    by (by eexists).
  assert (decodingFails undecodable postRequest) as Hfail by (right; left; exact He).
  split; [exact He|]. split; [exact Hfail|].
  exact (proj2 (proj1 (indexPost_status (Sprintv Sprintg) rfc3339.time_Parse
                         undecodable postRequest)) Hfail).
Defined.

(** ** The earlier revision *)

(** The earlier revision asserts [int] for [number], so the number of a
    decoded JSON payload, a [float64], is never found. *)
Example processGithubEvent_rev0_json_number :
  processGithubEvent_rev0 rfc3339.time_Parse envelope1
    (headersOf "pull_request") payloadPullRequest []
  = Ok (None, Some (errorString "could not find time_created or id")).
Proof. by vm_compute. Qed.

(** It reports one fixed message, whichever field is missing. *)
Example processGithubEvent_rev0_one_message :
  processGithubEvent_rev0 rfc3339.time_Parse envelope1 (headersOf "push") ∅ []
  = Ok (None, Some (errorString "could not find time_created or id")).
Proof. by vm_compute. Qed.

(** It answers 500 both to a normalisation error and to a failed insertion. *)
Example indexPost_rev0_failures :
  indexPost_rev0 rfc3339.time_Parse
    (decodingTo envelope1 (headersOf "push") ∅ None) postRequest
  = Ok StatusInternalServerError
  /\ indexPost_rev0 rfc3339.time_Parse
       (decodingTo envelope1 (headersOf "push") payloadPush
          (Some (errorString "bigquery: unavailable"))) postRequest
     = Ok StatusInternalServerError
  /\ indexPost_rev0 rfc3339.time_Parse
       (decodingTo envelope1 (headersOf "push") payloadPush None) postRequest
     = Ok StatusOK.
Proof. by vm_compute. Qed.

(** The present revision on the same deliveries. *)
Example indexPost_deliveries :
  indexPost (Sprintv Sprintg) rfc3339.time_Parse
    (decodingTo envelope1 (headersOf "push") ∅ None) postRequest
  = Ok StatusOK
  /\ indexPost (Sprintv Sprintg) rfc3339.time_Parse
       (decodingTo envelope1 (headersOf "star") ∅ None) postRequest
     = Ok StatusOK
  /\ indexPost (Sprintv Sprintg) rfc3339.time_Parse
       (decodingTo envelope1 (headersOf "push") payloadPush None) postRequest
     = Ok StatusOK
  /\ indexPost (Sprintv Sprintg) rfc3339.time_Parse
       (decodingTo envelope1 ∅ payloadPush None) postRequest
     = Panic "runtime error: index out of range [0] with length 0".
Proof. by vm_compute. Qed.

Example processGithubEvent_push :
  processGithubEvent (Sprintv Sprintg) rfc3339.time_Parse envelope1
    (headersOf "push") payloadPush (list_byte_of_string "{}")
  = Ok (Some {| EventType := "push";
                Id := "0123abc";
                Metadata := "{}";
                TimeCreated := {| unixNano := 1704132245000000000;
                                  zoneOffset := 32400 |};
                Signature := "sha256=00";
                MsgId := "1234567890";
                Source := "github" |}, None).
Proof. by vm_compute. Qed.

(** * Further properties of the sources *)

(** ** The navigators *)

Lemma descend_app (val : value) (pre post : list string) :
  descend val (pre ++ post) = descend val pre ≫= fun val' => descend val' post.
Proof.
  revert val. induction pre as [|k pre IH]; intros val; [done|].
  destruct val; try done. cbn [descend app].
  destruct (m !! k) as [val'|]; [apply IH|done].
Qed.

(** X1: the silent navigator composes along a path: once a prefix of the
    keys leads to an object, looking up the whole path from the root is
    looking up the rest of the path in that object. *)
Theorem LookupMap_app (T : Type) (GT : GoType T) (m m' : gmap string value)
    (pre post : list string) :
  descend (VMap m) pre = Some (VMap m') ->
  LookupMap (T := T) m (pre ++ post) = LookupMap (T := T) m' post.
Proof.
  intros Hpre. rewrite !LookupMap_descend, descend_app, Hpre. done.
Qed.

Lemma LookupMap_app_witness :
  descend (VMap payloadPullRequest) ["repository"]
  = Some (VMap {[ "name" := VString "acme/widgets" ]})
  /\ LookupMap (T := string) payloadPullRequest (["repository"] ++ ["name"])
     = LookupMap (T := string) {[ "name" := VString "acme/widgets" ]} ["name"].
Proof.
  assert (descend (VMap payloadPullRequest) ["repository"]
          = Some (VMap {[ "name" := VString "acme/widgets" ]})) as Hd
    by reflexivity.
  split; [exact Hd|].
  exact (LookupMap_app string _ _ _ ["repository"] ["name"] Hd).
Defined.

Lemma LookupMapE_loop_not_map (T : Type) (GT : GoType T) (Sprint : value -> string)
    (walked : list string) (val v : value) (pre : list string) (key : string)
    (post : list string) :
  descend val pre = Some v -> (forall m', v <> VMap m') ->
  LookupMapE_loop (T := T) Sprint walked val (pre ++ key :: post)
  = inl (zero, Some (errNotMap Sprint (walked ++ pre))).
Proof.
  revert walked val. induction pre as [|k pre IH]; intros walked val Hd Hv.
  - simplify_eq/=. rewrite app_nil_r. destruct v; try done. by destruct (Hv m).
  - destruct val; try done. cbn [LookupMapE_loop descend app] in *.
    destruct (m !! k) as [val'|]; [|done].
    rewrite (IH _ _ Hd Hv). by rewrite <- (assoc_L _ walked [k]).
Qed.

(** X2: when the path runs into a value that is no object, the diagnostic
    navigator reports the keys walked up to that value, and not the key it
    could not look up nor the value found: the message ends with the
    rendering of an empty map, whatever the value is. *)
Theorem LookupMapE_not_a_map (T : Type) (GT : GoType T) (Sprint : value -> string)
    (m : gmap string value) (v : value) (pre : list string) (key : string)
    (post : list string) :
  descend (VMap m) pre = Some v -> (forall m', v <> VMap m') ->
  LookupMapE (T := T) Sprint m (pre ++ key :: post)
  = (zero, Some (errorString ("key " +:+ strings_Join pre "." +:+ " is not a map: "
                              +:+ Sprint (VMap ∅)))).
Proof.
  intros Hd Hv. unfold LookupMapE.
  by rewrite (LookupMapE_loop_not_map T GT Sprint [] _ _ _ key post Hd Hv).
Qed.

Lemma LookupMapE_not_a_map_witness :
  descend (VMap payloadPullRequest) ["repository"; "name"]
  = Some (VString "acme/widgets")
  /\ (forall m', VString "acme/widgets" <> VMap m')
  /\ LookupMapE (T := string) (Sprintv Sprintg) payloadPullRequest
       ["repository"; "name"; "owner"; "login"]
     = ("", Some (errorString "key repository.name is not a map: map[]")).
Proof.
  assert (descend (VMap payloadPullRequest) ["repository"; "name"]
          = Some (VString "acme/widgets")) as Hd by reflexivity.
  assert (forall m', VString "acme/widgets" <> VMap m') as Hv by (intros m' [=]).
  split; [exact Hd|]. split; [exact Hv|].
  etrans; [exact (LookupMapE_not_a_map string _ (Sprintv Sprintg) _ _
                    ["repository"; "name"] "owner" ["login"] Hd Hv)|].
  by vm_compute.
Defined.

(** X3: the two navigators agree: for every formatter, the diagnostic
    variant returns the value the silent variant returns, and its error is
    nil exactly when the silent variant's flag is set. *)
Theorem LookupMapE_agrees_with_LookupMap (T : Type) (GT : GoType T)
    (Sprint : value -> string) (m : gmap string value) (keys : list string) :
  (LookupMapE (T := T) Sprint m keys).1 = (LookupMap (T := T) m keys).1
  /\ ((LookupMapE (T := T) Sprint m keys).2 = None
      <-> (LookupMap (T := T) m keys).2 = true).
Proof.
  rewrite (LookupMapE_LookupMap Sprint m keys). cbn [fst snd].
  split; [done|]. by rewrite bool_decide_eq_true.
Qed.

(** X4: the navigators read only along the path: binding another top-level
    key does not change the result of a lookup, and a lookup of the key just
    bound finds the bound value. *)
Theorem LookupMap_insert (T : Type) (GT : GoType T) (m : gmap string value)
    (k : string) (v : value) :
  (forall (k' : string) (rest : list string), k <> k' ->
     LookupMap (T := T) (<[k := v]> m) (k' :: rest) = LookupMap (T := T) m (k' :: rest))
  /\ LookupMap (T := T) (<[k := v]> m) [k]
     = match assert v with Some r => (r, true) | None => (zero, false) end.
Proof.
  split.
  - intros k' rest Hne. rewrite !LookupMap_descend. cbn [descend].
    by rewrite lookup_insert_ne.
  - rewrite LookupMap_descend. cbn [descend]. by rewrite lookup_insert_eq.
Qed.

(** ** The SHA-256 verifier *)

Lemma sha256_block_length (h chunk : list N) :
  length h = 8 -> length (sha256.block h chunk) = 8.
Proof.
  intros Hh. unfold sha256.block. rewrite length_map, length_combine, Hh.
  by destruct (fold_left _ _ _).
Qed.

Lemma sha256_blocks_length (fuel : nat) (h p : list N) :
  length h = 8 -> length (sha256.blocks fuel h p) = 8.
Proof.
  revert h p. induction fuel as [|fuel IH]; intros h p Hh; [done|].
  cbn [sha256.blocks]. case_decide; [|done].
  apply IH. by apply sha256_block_length.
Qed.

Lemma flat_map_be_bytes_length (k : nat) (l : list N) :
  length (flat_map (sha256.be_bytes k) l) = k * length l.
Proof.
  induction l as [|x l IH]; cbn [flat_map length]; [lia|].
  rewrite length_app, IH. unfold sha256.be_bytes.
  rewrite length_map, length_rev, length_seq. lia.
Qed.

(** A SHA-256 digest, and so the MAC, has 32 bytes. *)
Lemma sha256_Sum256_length (data : list byte) :
  length (sha256.Sum256 data) = sha256.Size.
Proof.
  unfold sha256.Sum256, sha256.Sum256N.
  rewrite length_map, flat_map_be_bytes_length, sha256_blocks_length; done.
Qed.

Lemma hmac_Sum_length (key message : list byte) :
  length (hmac.Sum key message) = sha256.Size.
Proof. unfold hmac.Sum. apply sha256_Sum256_length. Qed.

Lemma hex_Decode_ok_length (src out : list byte) :
  hex.Decode src = (out, None) -> length src = 2 * length out.
Proof.
  revert out. induction src as [src IH] using (induction_ltof1 _ (@length byte)).
  unfold ltof in IH. intros out.
  destruct src as [|p [|q rest]]; cbn [hex.Decode].
  - by intros [= <-].
  - by destruct (15 <? _)%N.
  - repeat (destruct (15 <? _)%N; [done|]).
    specialize (IH rest ltac:(simpl; lia)).
    destruct (hex.Decode rest) as [out' err]. intros [= <- ->].
    cbn [length]. rewrite (IH out' eq_refl). lia.
Qed.

(** X5: the verifier answers [true] exactly for the headers of at least
    seven characters whose remainder hex-decodes, without error, to the
    HMAC-SHA256 of the body under the secret; such a header has 71
    characters. Digits in upper case decode as well. *)
Theorem verifyGithubSignature256_true_iff (secret signature : string)
    (body : list byte) :
  (verifyGithubSignature256 secret signature body = Ok true
   <-> 7 <= String.length signature
       /\ hex.Decode (drop 7 (list_byte_of_string signature))
          = (hmac.Sum (list_byte_of_string secret) body, None))
  /\ (verifyGithubSignature256 secret signature body = Ok true ->
      String.length signature = 71).
Proof.
  assert (verifyGithubSignature256 secret signature body = Ok true
   <-> 7 <= String.length signature
       /\ hex.Decode (drop 7 (list_byte_of_string signature))
          = (hmac.Sum (list_byte_of_string secret) body, None)) as Hiff.
  { destruct (decide (7 <= String.length signature)) as [Hlen|Hlen].
    - destruct (verifyGithubSignature256_long secret signature body Hlen)
        as (suffix & b & Hs & Hv & Hb).
      unfold string_from in Hs. rewrite length_list_byte_of_string in Hs.
      rewrite decide_True in Hs by done. injection Hs as <-.
      unfold hex.DecodeString in Hb.
      rewrite list_byte_of_string_of_list_byte in Hb.
      rewrite Hv. split.
      + intros [= ->]. split; [done|]. by apply Hb.
      + intros [_ Hd]. f_equal. by apply Hb.
    - rewrite verifyGithubSignature256_short by lia. split; [done|].
      by intros [? _]. }
  split; [exact Hiff|].
  intros Htrue. apply Hiff in Htrue as [Hlen Hd].
  apply hex_Decode_ok_length in Hd.
  rewrite length_drop, length_list_byte_of_string, hmac_Sum_length in Hd.
  unfold sha256.Size in Hd. lia.
Qed.

(** X6: the verifier panics exactly on the headers shorter than seven
    characters; on every other header it returns a boolean. *)
Theorem verifyGithubSignature256_panics_iff (secret signature : string)
    (body : list byte) :
  ((exists msg, verifyGithubSignature256 secret signature body = Panic msg)
   <-> String.length signature < 7)
  /\ (returns (verifyGithubSignature256 secret signature body)
      <-> 7 <= String.length signature).
Proof.
  destruct (decide (7 <= String.length signature)) as [Hlen|Hlen].
  - destruct (verifyGithubSignature256_long secret signature body Hlen)
      as (suffix & b & _ & Hv & _).
    rewrite Hv. split; split; try done; try lia.
    + by intros [msg [=]].
    + intros _. by exists b.
  - rewrite verifyGithubSignature256_short by lia. split; split; try lia.
    + intros _. by eexists.
    + by intros [b [=]].
Qed.

(** ** The receiver *)

(** X7: the requests classified as GitHub deliveries, the only authorised
    source: no [X-Gitlab-Event] header, no Tekton [Ce-Type], and either a
    user agent containing [GitHub-Hookshot] or, through the fallback that
    returns the user agent verbatim, a user agent that is exactly [github]
    with neither a CircleCI nor a PagerDuty header. *)
Theorem getSource_github_iff (header : gmap string (list string)) :
  EventHandler.getSource header = "github"
  <-> header !! "X-Gitlab-Event" = None
      /\ ~ saysTekton header
      /\ (saysHookshot header
          \/ (header !! "Circleci-Event-Type" = None
              /\ header !! "X-Pagerduty-Signature" = None
              /\ Values_Get header "User-Agent" = "github")).
Proof.
  unfold EventHandler.getSource, saysTekton, saysHookshot.
  destruct (header !! "X-Gitlab-Event") as [g|]; [split; [done|by intros [? _]]|].
  destruct (header !! "Ce-Type") as [c|] eqn:Hc.
  - destruct (strings_Contains (Values_Get header "Ce-Type") "tekton") eqn:Ht.
    + split; [done|]. intros (_ & Hno & _). destruct Hno. by split; [eexists|].
    + assert (~ (is_Some (Some c)
                 /\ false = true)) as Hno by (by intros [_ ?]).
      destruct (header !! "User-Agent") as [u|] eqn:Hu.
      * destruct (strings_Contains (Values_Get header "User-Agent") "GitHub-Hookshot")
          eqn:Hh.
        -- split; [intros _|done]. split; [done|]. split; [done|]. left.
           by split; [eexists|].
        -- destruct (header !! "Circleci-Event-Type");
             [split; [done|]; intros (_ & _ & [[_ ?] | (? & _)]); done|].
           destruct (header !! "X-Pagerduty-Signature");
             [split; [done|]; intros (_ & _ & [[_ ?] | (_ & ? & _)]); done|].
           split; [intros Hg; split; [done|]; split; [done|]; by right|].
           intros (_ & _ & [[_ ?] | (_ & _ & ?)]); done.
      * destruct (header !! "Circleci-Event-Type");
          [split; [done|]; intros (_ & _ & [[[? ?] _] | (? & _)]); done|].
        destruct (header !! "X-Pagerduty-Signature");
          [split; [done|]; intros (_ & _ & [[[? ?] _] | (_ & ? & _)]); done|].
        split; [intros Hg; split; [done|]; split; [done|]; by right|].
        intros (_ & _ & [[[? ?] _] | (_ & _ & ?)]); done.
  - assert (~ (is_Some (@None (list string))
               /\ strings_Contains (Values_Get header "Ce-Type") "tekton" = true))
      as Hno by (by intros [[? ?] _]).
    destruct (header !! "User-Agent") as [u|] eqn:Hu.
    + destruct (strings_Contains (Values_Get header "User-Agent") "GitHub-Hookshot")
        eqn:Hh.
      * split; [intros _|done]. split; [done|]. split; [done|]. left.
        by split; [eexists|].
      * destruct (header !! "Circleci-Event-Type");
          [split; [done|]; intros (_ & _ & [[_ ?] | (? & _)]); done|].
        destruct (header !! "X-Pagerduty-Signature");
          [split; [done|]; intros (_ & _ & [[_ ?] | (_ & ? & _)]); done|].
        split; [intros Hg; split; [done|]; split; [done|]; by right|].
        intros (_ & _ & [[_ ?] | (_ & _ & ?)]); done.
    + destruct (header !! "Circleci-Event-Type");
        [split; [done|]; intros (_ & _ & [[[? ?] _] | (? & _)]); done|].
      destruct (header !! "X-Pagerduty-Signature");
        [split; [done|]; intros (_ & _ & [[[? ?] _] | (_ & ? & _)]); done|].
      split; [intros Hg; split; [done|]; split; [done|]; by right|].
      intros (_ & _ & [[[? ?] _] | (_ & _ & ?)]); done.
Qed.

Section ReceiverFacts.

Variable secret : string.
Variable ps : Republish.Pubsub.
Variable projectID : string.
Variable r : EventHandler.Request.

Lemma authorizedSources_lookup (source : string) :
  EventHandler.authorizedSources secret !! source
  = if decide (source = "github")
    then Some {| EventHandler.name := "github";
                 EventHandler.signature := "X-Hub-Signature-256";
                 EventHandler.verification := verifyGithubSignature256 secret |}
    else None.
Proof.
  unfold EventHandler.authorizedSources. rewrite lookup_singleton.
  repeat case_decide; congruence.
Qed.

(** The receiver once the source is authorised and the body is read. *)
Lemma Republish_indexPost_github (b : list byte) :
  EventHandler.getSource (EventHandler.Header r) = "github" ->
  EventHandler.Body r = (b, None) ->
  Republish.indexPost secret ps projectID r
  = let written :=
      if String.eqb (deliveredSignature r) ""
      then [Republish.WriteHeader EventHandler.StatusForbidden] else [] in
    match verifyGithubSignature256 secret (deliveredSignature r) b with
    | Panic msg => (written, Some msg)
    | Ok false =>
        (written ++ [Republish.WriteHeader EventHandler.StatusForbidden], None)
    | Ok true =>
        (written
           ++ map (fun tm => Republish.Published tm.1 tm.2)
                  (Republish.publishToPubsub ps projectID
                     {| EventHandler.name := "github";
                        EventHandler.signature := "X-Hub-Signature-256";
                        EventHandler.verification := verifyGithubSignature256 secret |}
                     (delete "Authorization" (EventHandler.Header r)) b).1
           ++ [Republish.WriteHeader EventHandler.StatusNoContent], None)
    end.
Proof.
  intros Hsrc Hb. unfold Republish.indexPost, deliveredSignature.
  rewrite Hsrc, authorizedSources_lookup, decide_True by done.
  cbn [EventHandler.signature EventHandler.verification]. rewrite Hb. cbv zeta.
  destruct (String.eqb (Values_Get (EventHandler.Query r) _) "") eqn:Hq; cbn [negb].
  - destruct (String.eqb (Values_Get (EventHandler.Header r) _) "") eqn:Hh; cbn [negb].
    + apply String.eqb_eq in Hh. rewrite Hh. cbn [String.eqb].
      destruct (verifyGithubSignature256 secret "" b) as [[]|]; try done.
      by destruct (Republish.publishToPubsub _ _ _ _ _).
    + rewrite ?Hh. destruct (verifyGithubSignature256 secret _ b) as [[]|]; try done.
      by destruct (Republish.publishToPubsub _ _ _ _ _).
  - rewrite ?Hq. destruct (verifyGithubSignature256 secret _ b) as [[]|]; try done.
    by destruct (Republish.publishToPubsub _ _ _ _ _).
Qed.

(** What [publishToPubsub] hands to [Publish]: nothing, or one message. *)
Lemma publishToPubsub_cases (source : EventHandler.eventSource)
    (header : gmap string (list string)) (body : list byte) :
  ((Republish.publishToPubsub ps projectID source header body).1 = []
   /\ (Republish.publishToPubsub ps projectID source header body).2 <> None
   /\ ~ (Republish.NewClient ps
           (if String.eqb projectID "" then Republish.DetectProjectID
            else projectID) = None
         /\ Republish.json_Unmarshal ps body = None
         /\ (Republish.json_Marshal ps header).2 = None))
  \/ ((Republish.publishToPubsub ps projectID source header body).1
      = [(EventHandler.name source,
          {| Republish.Data := body;
             Republish.Attributes :=
               {[ "headers" :=
                    string_of_list_byte (Republish.json_Marshal ps header).1 ]} |})]
      /\ Republish.NewClient ps
           (if String.eqb projectID "" then Republish.DetectProjectID
            else projectID) = None
      /\ Republish.json_Unmarshal ps body = None
      /\ (Republish.json_Marshal ps header).2 = None).
Proof.
  unfold Republish.publishToPubsub.
  destruct (Republish.NewClient ps _) as [e|].
  { left. split; [done|]. split; [done|]. by intros [? _]. }
  destruct (Republish.json_Unmarshal ps body) as [e|].
  { left. split; [done|]. split; [done|]. by intros (_ & ? & _). }
  destruct (Republish.json_Marshal ps header) as [attr [e|]].
  { left. split; [done|]. split; [done|]. by intros (_ & _ & ?). }
  right. by destruct (Republish.Publish ps _ _) as [res err].
Qed.

(** X8: [publishToPubsub] hands at most one message to [Publish]. It does so
    exactly when the client is created, the body is valid JSON and the
    headers can be encoded; the message then goes to the topic named after
    the source, carries the body unchanged as data and the encoded headers as
    its only attribute. A nil error means a message was handed over. *)
Theorem publishToPubsub_message (source : EventHandler.eventSource)
    (header : gmap string (list string)) (body : list byte) :
  let pid := if String.eqb projectID "" then Republish.DetectProjectID
             else projectID in
  let sent := (Republish.publishToPubsub ps projectID source header body).1 in
  let err := (Republish.publishToPubsub ps projectID source header body).2 in
  (sent <> []
   <-> Republish.NewClient ps pid = None
       /\ Republish.json_Unmarshal ps body = None
       /\ (Republish.json_Marshal ps header).2 = None)
  /\ (sent = []
      \/ sent = [(EventHandler.name source,
                  {| Republish.Data := body;
                     Republish.Attributes :=
                       {[ "headers" :=
                            string_of_list_byte (Republish.json_Marshal ps header).1 ]} |})])
  /\ (err = None -> sent <> []).
Proof.
  cbv zeta.
  destruct (publishToPubsub_cases source header body)
    as [(-> & Herr & Hnot)|(-> & Hall)].
  - split; [split; [done|by intros ?]|]. split; [by left|done].
  - split; [split; [done|intros _; done]|]. split; [by right|done].
Qed.

(** X9: the receiver hands a message to [Publish] only for a delivery
    classified as GitHub whose body was read and whose signature, taken from
    the query or else from the header, was verified. The message goes to the
    topic [github], its data is the body, which is valid JSON, and its
    [headers] attribute encodes the request headers without
    [Authorization]. *)
Theorem indexPost_publishes_only_verified (topic : string)
    (msg : Republish.Message) :
  Republish.Published topic msg ∈ (Republish.indexPost secret ps projectID r).1 ->
  EventHandler.getSource (EventHandler.Header r) = "github"
  /\ topic = "github"
  /\ EventHandler.Body r = (Republish.Data msg, None)
  /\ verifyGithubSignature256 secret (deliveredSignature r) (Republish.Data msg)
     = Ok true
  /\ Republish.json_Unmarshal ps (Republish.Data msg) = None
  /\ Republish.Attributes msg
     = {[ "headers" :=
            string_of_list_byte
              (Republish.json_Marshal ps
                 (delete "Authorization" (EventHandler.Header r))).1 ]}.
Proof.
  intros Hin.
  destruct (decide (EventHandler.getSource (EventHandler.Header r) = "github"))
    as [Hsrc|Hsrc]; cycle 1.
  { unfold Republish.indexPost in Hin.
    rewrite authorizedSources_lookup, decide_False in Hin by done.
    cbn in Hin. by apply list_elem_of_singleton in Hin. }
  destruct (EventHandler.Body r) as [b [e|]] eqn:Hb.
  { unfold Republish.indexPost in Hin.
    rewrite Hsrc, authorizedSources_lookup, decide_True, Hb in Hin by done.
    cbn [EventHandler.signature] in Hin.
    repeat (destruct (negb _) in Hin); cbn in Hin;
      repeat (apply elem_of_cons in Hin as [[=]|Hin]); by apply elem_of_nil in Hin. }
  rewrite (Republish_indexPost_github b Hsrc Hb) in Hin. cbv zeta in Hin.
  destruct (verifyGithubSignature256 secret (deliveredSignature r) b)
    as [[]|] eqn:Hv; cbn [fst] in Hin.
  - destruct (publishToPubsub_cases
                {| EventHandler.name := "github";
                   EventHandler.signature := "X-Hub-Signature-256";
                   EventHandler.verification := verifyGithubSignature256 secret |}
                (delete "Authorization" (EventHandler.Header r)) b)
      as [(Hnil & _)|(Hone & _ & Hjson & _)].
    + rewrite Hnil in Hin. cbn in Hin.
      destruct (String.eqb _ _) in Hin; cbn in Hin;
        repeat (apply elem_of_cons in Hin as [[=]|Hin]); by apply elem_of_nil in Hin.
    + rewrite Hone in Hin. cbn [map fst snd EventHandler.name] in Hin.
      destruct (String.eqb _ _) in Hin; cbn in Hin;
        repeat (apply elem_of_cons in Hin as [Heq|Hin]);
        try (by apply elem_of_nil in Hin); try discriminate;
        injection Heq as -> ->; done.
  - destruct (String.eqb _ _) in Hin; cbn in Hin;
      repeat (apply elem_of_cons in Hin as [[=]|Hin]); by apply elem_of_nil in Hin.
  - destruct (String.eqb _ _) in Hin; cbn in Hin;
      repeat (apply elem_of_cons in Hin as [[=]|Hin]); by apply elem_of_nil in Hin.
Qed.

(** X10: the receiver writes 204 exactly when the delivery is classified as
    GitHub, its body is read and its signature verifies; whether the
    republishing succeeded does not show. *)
Theorem indexPost_no_content_iff :
  Republish.WriteHeader EventHandler.StatusNoContent
    ∈ (Republish.indexPost secret ps projectID r).1
  <-> EventHandler.getSource (EventHandler.Header r) = "github"
      /\ exists b, EventHandler.Body r = (b, None)
           /\ verifyGithubSignature256 secret (deliveredSignature r) b = Ok true.
Proof.
  destruct (decide (EventHandler.getSource (EventHandler.Header r) = "github"))
    as [Hsrc|Hsrc]; cycle 1.
  { unfold Republish.indexPost.
    rewrite authorizedSources_lookup, decide_False by done. cbn.
    rewrite list_elem_of_singleton. split; [intros [=]|by intros [? _]]. }
  destruct (EventHandler.Body r) as [b [e|]] eqn:Hb.
  { unfold Republish.indexPost.
    rewrite Hsrc, authorizedSources_lookup, decide_True, Hb by done.
    cbn [EventHandler.signature]. split; [|by intros (_ & b' & [=] & _)].
    intros Hin. repeat (destruct (negb _) in Hin); cbn in Hin;
      repeat (apply elem_of_cons in Hin as [[=]|Hin]); by apply elem_of_nil in Hin. }
  rewrite (Republish_indexPost_github b Hsrc Hb). cbv zeta.
  destruct (verifyGithubSignature256 secret (deliveredSignature r) b)
    as [[]|] eqn:Hv; cbn [fst].
  - split; [intros _; split; [done|]; by exists b|intros _].
    rewrite !elem_of_app. right. right. by apply list_elem_of_singleton.
  - split; [|intros (_ & b' & [= <-] & Hv'); congruence].
    intros Hin. destruct (String.eqb _ _) in Hin; cbn in Hin;
      repeat (apply elem_of_cons in Hin as [[=]|Hin]); by apply elem_of_nil in Hin.
  - split; [|intros (_ & b' & [= <-] & Hv'); congruence].
    intros Hin. destruct (String.eqb _ _) in Hin; cbn in Hin;
      repeat (apply elem_of_cons in Hin as [[=]|Hin]); by apply elem_of_nil in Hin.
Qed.

End ReceiverFacts.

(** The receiver with the publication as an opaque collaborator is the
    projection of the receiver with [publishToPubsub] in place. *)
Lemma Republish_indexPost_statuses (secret : string) (ps : Republish.Pubsub)
    (projectID : string) (r : EventHandler.Request) :
  EventHandler.indexPost secret
    (fun source header b =>
       (Republish.publishToPubsub ps projectID source header b).2) r
  = (Republish.statuses (Republish.indexPost secret ps projectID r).1,
     (Republish.indexPost secret ps projectID r).2).
Proof.
  unfold EventHandler.indexPost, Republish.indexPost.
  destruct (EventHandler.authorizedSources secret !! _) as [authSource|]; [|done].
  destruct (negb _); [|destruct (negb _)];
    destruct (EventHandler.Body r) as [b [e|]]; try done;
    destruct (EventHandler.verification authSource _ b) as [[]|]; try done;
    destruct (Republish.publishToPubsub _ _ _ _ _) as [sent [e|]];
    cbn [fst snd]; f_equal; unfold Republish.statuses;
    rewrite ?omap_app; cbn [omap];
    (assert (omap (fun e => if e is Republish.WriteHeader n then Some n else None)
               (map (fun tm : string * Republish.Message =>
                       Republish.Published tm.1 tm.2) sent) = []) as ->
       by (induction sent; done)); done.
Qed.

Lemma indexPost_publishes_only_verified_witness :
  Republish.Published "github"
    {| Republish.Data := bodyPush;
       Republish.Attributes := {[ "headers" := "{}" ]} |}
    ∈ (Republish.indexPost "key" pubsubUp "" deliveryPush).1
  /\ verifyGithubSignature256 "key" (deliveredSignature deliveryPush) bodyPush
     = Ok true
  /\ Republish.indexPost "key" pubsubUp "" deliveryPush
     = ([Republish.Published "github"
           {| Republish.Data := bodyPush;
              Republish.Attributes := {[ "headers" := "{}" ]} |};
         Republish.WriteHeader 204], None).
Proof.
  assert (Republish.indexPost "key" pubsubUp "" deliveryPush
     = ([Republish.Published "github"
           {| Republish.Data := bodyPush;
              Republish.Attributes := {[ "headers" := "{}" ]} |};
         Republish.WriteHeader 204], None)) as Hrun by (by vm_compute).
  assert (Republish.Published "github"
    {| Republish.Data := bodyPush;
       Republish.Attributes := {[ "headers" := "{}" ]} |}
    ∈ (Republish.indexPost "key" pubsubUp "" deliveryPush).1) as Hin
    by (rewrite Hrun; apply elem_of_cons; by left).
  split; [exact Hin|]. split; [|exact Hrun].
  exact (proj1 (proj2 (proj2 (proj2
    (indexPost_publishes_only_verified "key" pubsubUp "" deliveryPush _ _ Hin))))).
Defined.

(** ** The SHA-1 verifier *)

Example sha1_vectors :
  hex.EncodeToString (sha1.Sum (list_byte_of_string "abc"))
  = "a9993e364706816aba3e25717850c26c9cd0d89d"
  /\ hex.EncodeToString (sha1.Sum [])
     = "da39a3ee5e6b4b0d3255bfef95601890afd80709"
  /\ hex.EncodeToString (sha1.Sum (list_byte_of_string
       "abcdbcdecdefdefgefghfghighijhijkijkljklmklmnlmnomnopnopq"))
     = "84983e441c3bd26ebaae4aa1f95129e5e54670f1"
  /\ hex.EncodeToString (sha1.hmacSum (list_byte_of_string "key")
       (list_byte_of_string "The quick brown fox jumps over the lazy dog"))
     = "de7c9b85b8b78aa6bc8a7a36f70a90701c9db4d9".
Proof. by vm_compute. Qed.

Lemma sha1_block_length (h chunk : list N) :
  length h = 5 -> length (sha1.block h chunk) = 5.
Proof.
  intros Hh. unfold sha1.block. destruct (fold_left _ _ _).
  by rewrite length_map, length_combine, Hh.
Qed.

Lemma sha1_blocks_length (fuel : nat) (h p : list N) :
  length h = 5 -> length (sha1.blocks fuel h p) = 5.
Proof.
  revert h p. induction fuel as [|fuel IH]; intros h p Hh; [done|].
  cbn [sha1.blocks]. case_decide; [|done].
  apply IH. by apply sha1_block_length.
Qed.

Lemma sha1_hmacSum_length (key message : list byte) :
  length (sha1.hmacSum key message) = sha1.Size.
Proof.
  unfold sha1.hmacSum, sha1.Sum.
  rewrite length_map, flat_map_be_bytes_length, sha1_blocks_length; done.
Qed.

Lemma hex_DecodeInto_Encode (done todo m junk : list byte) :
  length todo = length m -> stopsDecoding junk ->
  exists err,
    hex_DecodeInto (done ++ todo) (length done) (hex.Encode m ++ junk)
    = Ok (done ++ m, length (done ++ m), err).
Proof.
  revert done todo. induction m as [|v m IH]; intros done todo Hlen Hjunk.
  - destruct todo; [|done]. rewrite app_nil_r. cbn [hex.Encode app].
    destruct junk as [|p [|q rest]]; cbn [hex_DecodeInto].
    + by eexists.
    + destruct (15 <? _)%N; by eexists.
    + destruct Hjunk as [Hp|Hq].
      * rewrite Hp. by eexists.
      * rewrite Hq. destruct (15 <? hex.reverseHexTable p)%N; by eexists.
  - destruct todo as [|t todo]; [done|].
    destruct (hex_digits_byte v) as (Ha & Hb & Hv). cbv zeta in Ha, Hb, Hv.
    cbn [hex.Encode app hex_DecodeInto]. rewrite Ha, Hb, Hv.
    rewrite decide_True by (rewrite length_app; simpl; lia).
    rewrite insert_app_r_alt by lia. rewrite Nat.sub_diag. cbn [insert list_insert].
    destruct (IH (done ++ [v]) todo ltac:(simpl in Hlen; lia) Hjunk) as [err Herr].
    rewrite <- !(assoc_L _ done [v]) in Herr. cbn [app] in Herr.
    replace (length (done ++ [v])) with (S (length done)) in Herr
      by (rewrite length_app; simpl; lia).
    by exists err.
Qed.

Lemma hex_DecodeInto_overflow (dst : list byte) (i : nat) (m rest : list byte) :
  i <= length dst -> length dst - i < length m ->
  hex_DecodeInto dst i (hex.Encode m ++ rest)
  = Panic ("runtime error: index out of range [" +:+ pretty (length dst)
           +:+ "] with length " +:+ pretty (length dst)).
Proof.
  revert dst i. induction m as [|v m IH]; intros dst i Hi Hlt; [simpl in Hlt; lia|].
  destruct (hex_digits_byte v) as (Ha & Hb & Hv). cbv zeta in Ha, Hb, Hv.
  cbn [hex.Encode app hex_DecodeInto]. rewrite Ha, Hb.
  case_decide as Hin.
  - rewrite IH; rewrite ?length_insert; [done|lia|simpl in Hlt; lia].
  - by replace i with (length dst) by lia.
Qed.

(** X11: the SHA-1 verifier accepts a header made of any five characters and
    the forty hexadecimal digits of the HMAC-SHA1 of the body, and it still
    accepts it when the digits are followed by text at which the decoder
    stops (a lone character, or a pair with a character that is no digit):
    the decoder's error is discarded. *)
Theorem verifyGithubSignature_accepts (secret prefix junk : string)
    (body : list byte) :
  String.length prefix = 5 ->
  stopsDecoding (list_byte_of_string junk) ->
  verifyGithubSignature secret
    (prefix +:+ hex.EncodeToString (sha1.hmacSum (list_byte_of_string secret) body)
       +:+ junk) body
  = Ok true.
Proof.
  intros Hp Hjunk. unfold verifyGithubSignature.
  pose proof (string_from_app prefix
                (hex.EncodeToString (sha1.hmacSum (list_byte_of_string secret) body)
                 +:+ junk)) as Hs.
  rewrite Hp in Hs. rewrite Hs. cbn [mbind result_bind].
  rewrite list_byte_of_string_app. unfold hex.EncodeToString.
  rewrite list_byte_of_string_of_list_byte.
  destruct (hex_DecodeInto_Encode [] (replicate 20 x00)
              (sha1.hmacSum (list_byte_of_string secret) body)
              (list_byte_of_string junk)) as [err Herr]; [|done|].
  { by rewrite length_replicate, sha1_hmacSum_length. }
  cbn [app length] in Herr. rewrite Herr. cbn [mbind result_bind].
  by rewrite hmac_Equal_refl.
Qed.

Lemma verifyGithubSignature_accepts_witness :
  String.length "sha1=" = 5
  /\ stopsDecoding (list_byte_of_string "zz")
  /\ verifyGithubSignature "key"
       ("sha1=" +:+ hex.EncodeToString
          (sha1.hmacSum (list_byte_of_string "key") bodyPush) +:+ "zz") bodyPush
     = Ok true.
Proof.
  assert (stopsDecoding (list_byte_of_string "zz")) as Hjunk by (by left).
  split; [reflexivity|]. split; [exact Hjunk|].
  exact (verifyGithubSignature_accepts "key" "sha1=" "zz" bodyPush eq_refl Hjunk).
Defined.

(** X12: the SHA-1 verifier panics on a header shorter than five characters,
    and on every header whose sixth and following characters start with
    forty-two hexadecimal digits: the twenty-first byte is written past the
    end of the buffer. *)
Theorem verifyGithubSignature_panics (secret : string) (body : list byte) :
  (forall signature : string,
     String.length signature < 5 ->
     verifyGithubSignature secret signature body
     = Panic ("runtime error: slice bounds out of range [5:"
              +:+ pretty (String.length signature) +:+ "]"))
  /\ (forall (prefix rest : string) (m : list byte),
        String.length prefix = 5 -> length m = 21 ->
        verifyGithubSignature secret (prefix +:+ hex.EncodeToString m +:+ rest) body
        = Panic "runtime error: index out of range [20] with length 20").
Proof.
  split.
  - intros signature Hlen. unfold verifyGithubSignature.
    by rewrite (string_from_short _ _ Hlen).
  - intros prefix rest m Hp Hm. unfold verifyGithubSignature.
    pose proof (string_from_app prefix (hex.EncodeToString m +:+ rest)) as Hs.
    rewrite Hp in Hs. rewrite Hs. cbn [mbind result_bind].
    rewrite list_byte_of_string_app. unfold hex.EncodeToString.
    rewrite list_byte_of_string_of_list_byte.
    rewrite hex_DecodeInto_overflow; rewrite ?length_replicate; try lia.
    done.
Qed.

Example verifyGithubSignature_runs :
  verifyGithubSignature "key"
    "sha1=de7c9b85b8b78aa6bc8a7a36f70a90701c9db4d9"
    (list_byte_of_string "The quick brown fox jumps over the lazy dog") = Ok true
  /\ verifyGithubSignature "key"
       "sha1=de7c9b85b8b78aa6bc8a7a36f70a90701c9db4d9X"
       (list_byte_of_string "The quick brown fox jumps over the lazy dog") = Ok true
  /\ verifyGithubSignature "key"
       "sha1=de7c9b85b8b78aa6bc8a7a36f70a90701c9db4d900"
       (list_byte_of_string "The quick brown fox jumps over the lazy dog")
     = Panic "runtime error: index out of range [20] with length 20"
  /\ verifyGithubSignature "key" "sha1="
       (list_byte_of_string "The quick brown fox jumps over the lazy dog") = Ok false
  /\ verifyGithubSignature "key" "sha1"
       (list_byte_of_string "The quick brown fox jumps over the lazy dog")
     = Panic "runtime error: slice bounds out of range [5:4]".
Proof. by vm_compute. Qed.

(** ** The parser *)

Ltac solve_rule :=
  cbn [timestamps identifier firstString identify];
  unfold firstOf, repoNumber;
  rewrite ?LookupMap_descend;
  repeat match goal with
         | |- context [descend ?v ?k ≫= ?f] => destruct (descend v k ≫= f)
         end;
  by eexists.

(** X13: the [switch] of [processGithubEvent] follows the table of rules:
    for each of the eleven event types the timestamp is the first string
    found along the type's timestamp paths, and the identifier is the string
    at the type's path, the number at the type's path printed as an integer,
    or the repository name and a number joined by a slash; a type without a
    rule reaches the [default] branch. In particular
    [pull_request_review_comment] takes its identifier from [review.id]. *)
Theorem dispatch_follows_rules (Sprint : value -> string) (eventType : string)
    (metadata : gmap string value) :
  match ruleOf eventType with
  | Some r =>
      exists x, dispatch Sprint eventType metadata = Some x
        /\ (maybeTimeCreated x, tOk x) = firstString metadata (timestamps r)
        /\ (id x, iOk x) = identify metadata (identifier r)
  | None => dispatch Sprint eventType metadata = None
  end.
Proof.
  unfold ruleOf, rules, dispatch. cbn [ruleOf_in].
  destruct (String.eqb eventType "push"); [solve_rule|].
  destruct (String.eqb eventType "pull_request"); [solve_rule|].
  destruct (String.eqb eventType "pull_request_review").
  { cbn [timestamps identifier firstString identify].
    pose proof (LookupMapE_LookupMap (T := string) Sprint metadata
                  ["review"; "submitted_at"]) as Ht.
    pose proof (LookupMapE_LookupMap (T := float64) Sprint metadata
                  ["review"; "id"]) as Hi.
    rewrite !LookupMap_descend in *.
    destruct (LookupMapE (T := string) Sprint metadata _) as [t [terr|]];
      destruct (LookupMapE (T := float64) Sprint metadata _) as [n [nerr|]];
      cbn [fst snd] in Ht, Hi;
      destruct (descend _ ["review"; "submitted_at"] ≫= _);
      destruct (descend _ ["review"; "id"] ≫= _);
      simplify_eq; by eexists. }
  repeat match goal with
         | |- context [String.eqb eventType ?s] =>
             destruct (String.eqb eventType s); [solve_rule|]
         end.
  done.
Qed.

Section ParserMore.

Variable Sprint : value -> string.
Variable time_Parse : string -> Time * option error.
Variable reqMessage : pubsubRequest.
Variable headers : gmap string (list string).
Variable metadata : gmap string value.
Variable rawMetadata : list byte.

Local Abbreviation process :=
  (processGithubEvent Sprint time_Parse reqMessage headers metadata rawMetadata).

(** The outcomes of [processGithubEvent], by cases on the two headers. *)
Lemma processGithubEvent_cases :
  (noValue headers hEvent
   /\ process = Panic "runtime error: index out of range [0] with length 0")
  \/ (exists et rest, headers !! hEvent = Some (et :: rest)
        /\ (et ∉ recognized) /\ process = Ok (None, None))
  \/ (exists et rest, headers !! hEvent = Some (et :: rest)
        /\ et ∈ recognized /\ noValue headers hSignature
        /\ process = Panic "runtime error: index out of range [0] with length 0")
  \/ (exists et rest sg rest' x,
        headers !! hEvent = Some (et :: rest) /\ et ∈ recognized
        /\ headers !! hSignature = Some (sg :: rest')
        /\ dispatch Sprint et metadata = Some x
        /\ process
           = if negb (tOk x) || negb (iOk x) then Ok (None, errors_Join (missing x))
             else match time_Parse (maybeTimeCreated x) with
                  | (_, Some e) =>
                      Ok (None, Some (errorString
                            ("could not parse time_created: " +:+ Error e)))
                  | (t, None) =>
                      Ok (Some (recordOf reqMessage headers rawMetadata et sg x t),
                          None)
                  end).
Proof.
  destruct (headers !! hEvent) as [[|et rest]|] eqn:He.
  - left. split; [by right|].
    unfold processGithubEvent, processGithubEventWith, hEvent in *. by rewrite He.
  - right. destruct (decide (et ∈ recognized)) as [Hin|Hnot].
    + right. destruct (headers !! hSignature) as [[|sg rest']|] eqn:Hs.
      * left. exists et, rest. split_and!; [done|done|by right|].
        apply eventTypes_recognized in Hin.
        unfold processGithubEvent, processGithubEventWith, hEvent, hSignature in *.
        rewrite He. go_step. rewrite Hin. go_step. by rewrite Hs.
      * right. destruct (dispatch_recognized Sprint metadata _ Hin) as [x Hx].
        exists et, rest, sg, rest', x. split_and!; try done.
        unfold processGithubEvent.
        rewrite (processGithubEventWith_dispatched _ _ _ _ _ _ _ _ _ _ _ He
                   (proj2 (eventTypes_recognized _) Hin) Hs), Hx.
        done.
      * left. exists et, rest. split_and!; [done|done|by left|].
        apply eventTypes_recognized in Hin.
        unfold processGithubEvent, processGithubEventWith, hEvent, hSignature in *.
        rewrite He. go_step. rewrite Hin. go_step. by rewrite Hs.
    + left. exists et, rest. split_and!; [done|done|].
      apply eventTypes_unrecognized in Hnot.
      unfold processGithubEvent, processGithubEventWith, hEvent in *.
      rewrite He. go_step. by rewrite Hnot.
  - left. split; [by left|].
    unfold processGithubEvent, processGithubEventWith, hEvent in *. by rewrite He.
Qed.

(** [processGithubEvent] once both headers are read and the type is
    recognised. *)
Lemma processGithubEvent_dispatched (et : string) (rest : list string)
    (sg : string) (rest' : list string) (x : extraction) :
  headers !! hEvent = Some (et :: rest) -> et ∈ recognized ->
  headers !! hSignature = Some (sg :: rest') ->
  dispatch Sprint et metadata = Some x ->
  process
  = if negb (tOk x) || negb (iOk x) then Ok (None, errors_Join (missing x))
    else match time_Parse (maybeTimeCreated x) with
         | (_, Some e) =>
             Ok (None, Some (errorString
                   ("could not parse time_created: " +:+ Error e)))
         | (t, None) =>
             Ok (Some (recordOf reqMessage headers rawMetadata et sg x t), None)
         end.
Proof.
  intros He Hin Hs Hx. unfold processGithubEvent.
  by rewrite (processGithubEventWith_dispatched _ _ _ _ _ _ _ _ _ _ _ He
                (proj2 (eventTypes_recognized _) Hin) Hs), Hx.
Qed.

Lemma errors_Join_missing (x : extraction) :
  negb (tOk x) || negb (iOk x) = true ->
  errors_Join (missing x) = Some (joinError (missing x)).
Proof. unfold missing. by destruct (tOk x), (iOk x). Qed.

(** X14: [processGithubEvent] returns a record exactly when the event
    header and the signature header both hold a value, the event type is in
    [eventTypes], the [switch] finds both the timestamp and the identifier,
    and the timestamp parses; the record is then built from these values and
    the raw payload. *)
Theorem processGithubEvent_record_iff (ev : EventRecord) :
  process = Ok (Some ev, None)
  <-> exists et rest sg rest' x t,
        headers !! hEvent = Some (et :: rest) /\ et ∈ recognized
        /\ headers !! hSignature = Some (sg :: rest')
        /\ dispatch Sprint et metadata = Some x
        /\ tOk x = true /\ iOk x = true
        /\ time_Parse (maybeTimeCreated x) = (t, None)
        /\ ev = recordOf reqMessage headers rawMetadata et sg x t.
Proof.
  split.
  - intros Hp.
    destruct processGithubEvent_cases
      as [[_ Hc]|[(et & rest & _ & _ & Hc)|[(et & rest & _ & _ & _ & Hc)
         |(et & rest & sg & rest' & x & He & Hin & Hs & Hx & Hc)]]];
      rewrite Hc in Hp; try discriminate.
    destruct (tOk x) eqn:Ht, (iOk x) eqn:Hi; cbn [negb orb] in Hp;
      try (by injection Hp).
    destruct (time_Parse (maybeTimeCreated x)) as [t [e|]] eqn:Hparse;
      [discriminate|].
    injection Hp as <-. by exists et, rest, sg, rest', x, t.
  - intros (et & rest & sg & rest' & x & t & He & Hin & Hs & Hx & Ht & Hi & Hp & ->).
    by rewrite (processGithubEvent_dispatched _ _ _ _ _ He Hin Hs Hx), Ht, Hi, Hp.
Qed.

(** X15: [processGithubEvent] panics exactly when the event header holds
    no value, or the event type is in [eventTypes] and the signature header
    holds no value: a delivery of an unlisted type is skipped before the
    signature header is read. *)
Theorem processGithubEvent_panics_iff :
  (exists msg, process = Panic msg)
  <-> noValue headers hEvent
      \/ exists et rest, headers !! hEvent = Some (et :: rest)
            /\ et ∈ recognized /\ noValue headers hSignature.
Proof.
  destruct processGithubEvent_cases
    as [[Hno Hc]|[(et & rest & He & Hnot & Hc)|[(et & rest & He & Hin & Hno & Hc)
       |(et & rest & sg & rest' & x & He & Hin & Hs & Hx & Hc)]]];
    rewrite Hc.
  - split; [by left|by eexists].
  - split; [by intros [? [=]]|].
    intros [[Hno|Hno]|(et' & rest' & He' & Hin & _)]; unfold noValue in *;
      [congruence|congruence|]. by simplify_eq.
  - split; [|by eexists]. intros _. right. by exists et, rest.
  - split.
    + destruct (negb _ || negb _); [by intros [? [=]]|].
      destruct (time_Parse _) as [t [e|]]; by intros [? [=]].
    + intros [[Hno|Hno]|(et' & rest'' & He' & _ & [Hno|Hno])]; congruence.
Qed.

(** X16: [processGithubEvent] returns an error exactly for a listed event
    with both headers whose timestamp or identifier was not found, the error
    being the joined list of what is missing, or whose timestamp was found
    with the identifier and does not parse. *)
Theorem processGithubEvent_error_iff (e : error) :
  process = Ok (None, Some e)
  <-> exists et rest sg rest' x,
        headers !! hEvent = Some (et :: rest) /\ et ∈ recognized
        /\ headers !! hSignature = Some (sg :: rest')
        /\ dispatch Sprint et metadata = Some x
        /\ ((negb (tOk x) || negb (iOk x) = true /\ e = joinError (missing x))
            \/ (tOk x = true /\ iOk x = true
                /\ exists t e', time_Parse (maybeTimeCreated x) = (t, Some e')
                     /\ e = errorString
                             ("could not parse time_created: " +:+ Error e'))).
Proof.
  split.
  - intros Hp.
    destruct processGithubEvent_cases
      as [[_ Hc]|[(et & rest & _ & _ & Hc)|[(et & rest & _ & _ & _ & Hc)
         |(et & rest & sg & rest' & x & He & Hin & Hs & Hx & Hc)]]];
      rewrite Hc in Hp; try discriminate.
    exists et, rest, sg, rest', x. split_and!; try done.
    destruct (negb (tOk x) || negb (iOk x)) eqn:Hmiss.
    + left. split; [done|]. rewrite errors_Join_missing in Hp by done.
      by injection Hp.
    + right. apply orb_false_elim in Hmiss as [Ht Hi].
      apply negb_false_iff in Ht, Hi. split_and!; try done.
      destruct (time_Parse (maybeTimeCreated x)) as [t [e'|]]; [|discriminate].
      injection Hp as <-. by exists t, e'.
  - intros (et & rest & sg & rest' & x & He & Hin & Hs & Hx & Hcase).
    rewrite (processGithubEvent_dispatched _ _ _ _ _ He Hin Hs Hx).
    destruct Hcase as [[Hmiss ->]|(Ht & Hi & t & e' & Hp & ->)].
    + by rewrite Hmiss, errors_Join_missing.
    + by rewrite Ht, Hi, Hp.
Qed.

End ParserMore.

(** ** The consumer endpoint *)

Section ConsumerMore.

Variable Sprint : value -> string.
Variable time_Parse : string -> Time * option error.
Variable env : Collaborators.
Variable r : Request.

Lemma indexPost_range (s : nat) :
  indexPost Sprint time_Parse env r = Ok s ->
  s = StatusOK \/ s = StatusInternalServerError.
Proof.
  destruct (decodingFails_dec env r) as [Hfail|Hok].
  - unfold indexPost. rewrite (decodeRequest_fails _ _ Hfail). intros [= <-]. by right.
  - rewrite (indexPost_decoded Sprint time_Parse _ _ Hok).
    destruct (normalize _ _ _ _); [intros [= <-]; by left|done].
Qed.

(** X17: the status [indexPost] answers does not depend on the insertion:
    with any other sink in place of [insertIntoBigQuery] the answer is the
    same, so a failed insertion never shows in the status. *)
Theorem indexPost_independent_of_sink (insert : EventRecord -> option error) :
  indexPost Sprint time_Parse (withInsert env insert) r
  = indexPost Sprint time_Parse env r.
Proof.
  unfold indexPost.
  change (decodeRequest (withInsert env insert) r) with (decodeRequest env r).
  destruct (decodeRequest env r) as [status|[[[msg attrs] metadata] data]]; [done|].
  destruct (processGithubEvent _ _ _ _ _ _) as [[event [e|]]|msg']; try done.
  cbn [mbind result_bind]. destruct event as [ev|]; [|done].
  by destruct (insertIntoBigQuery _ ev), (insertIntoBigQuery _ ev).
Qed.

(** X18: [index] answers 404 exactly for the methods other than [POST] and
    [GET], and a [GET] is handled as a [POST]; the only statuses it writes
    are 200, 404 and 500. *)
Theorem index_statuses :
  (index Sprint time_Parse env r = Ok StatusNotFound
   <-> Method r <> "POST" /\ Method r <> "GET")
  /\ (forall s, index Sprint time_Parse env r = Ok s ->
        s = StatusOK \/ s = StatusNotFound \/ s = StatusInternalServerError).
Proof.
  unfold index.
  destruct (String.eqb_spec (Method r) "POST") as [Hpost|Hpost].
  { split.
    - split; [|by intros [? _]]. intros H404.
      by destruct (indexPost_range _ H404).
    - intros s Hs. destruct (indexPost_range _ Hs); auto. }
  destruct (String.eqb_spec (Method r) "GET") as [Hget|Hget].
  { split.
    - split; [|by intros [_ ?]]. intros H404.
      by destruct (indexPost_range _ H404).
    - intros s Hs. destruct (indexPost_range _ Hs); auto. }
  split; [done|]. intros s [= <-]. auto.
Qed.

End ConsumerMore.

Section ConsumerRev0More.

Variable time_Parse : string -> Time * option error.
Variable env : Collaborators.
Variable r : Request.

Lemma decodeRequest_rev0_cases :
  (decodingFails_rev0 env r
   /\ decodeRequest_rev0 env r = inl StatusInternalServerError)
  \/ (~ decodingFails_rev0 env r
      /\ decodeRequest_rev0 env r
         = inr (envelopeOf env r, attrsOf env r, metadataOf env r, dataOf env r)).
Proof.
  unfold decodingFails_rev0, decodeRequest_rev0, metadataOf, attrsOf, dataOf,
    envelopeOf.
  destruct (Body r) as [body [e|]]; cbn [fst snd];
    [left; split; [left; by eexists|done]|].
  destruct (json_Unmarshal_pubsubRequest env body) as [msg [e|]]; cbn [fst snd];
    [left; split; [right; left; by eexists|done]|].
  destruct (json_Unmarshal_headers env _) as [attrs [e|]]; cbn [fst snd];
    [left; split; [do 2 right; left; by eexists|done]|].
  destruct (base64_DecodeString env _) as [data [e|]]; cbn [fst snd];
    [left; split; [do 3 right; left; by eexists|done]|].
  destruct (json_Unmarshal_metadata env _) as [metadata [e|]]; cbn [fst snd];
    [left; split; [do 4 right; by eexists|done]|].
  right. split; [|done]. intros H.
  repeat (destruct H as [[? [=]] | H]). by destruct H as [? [=]].
Qed.

(** X19: the earlier revision of [indexPost] answers 500 exactly on a
    transport or decoding failure, on an error of [processGithubEvent], or
    when the insertion of the record fails, and 200 exactly when the delivery
    is decoded and either skipped or inserted without error. *)
Theorem indexPost_rev0_status :
  (indexPost_rev0 time_Parse env r = Ok StatusInternalServerError
   <-> decodingFails_rev0 env r
       \/ (exists event e, normalize_rev0 time_Parse env r = Ok (event, Some e))
       \/ (exists ev e, normalize_rev0 time_Parse env r = Ok (Some ev, None)
             /\ insertIntoBigQuery env ev = Some e))
  /\ (indexPost_rev0 time_Parse env r = Ok StatusOK
      <-> ~ decodingFails_rev0 env r
          /\ (normalize_rev0 time_Parse env r = Ok (None, None)
              \/ exists ev, normalize_rev0 time_Parse env r = Ok (Some ev, None)
                   /\ insertIntoBigQuery env ev = None)).
Proof.
  unfold indexPost_rev0, normalize_rev0.
  destruct decodeRequest_rev0_cases as [[Hfail ->]|[Hok ->]].
  { split; [split; [by left|done]|]. split; [done|by intros [? _]]. }
  destruct (processGithubEvent_rev0 _ _ _ _ _) as [[event [e|]]|msg];
    cbn [mbind result_bind].
  - split; [split; [intros _; right; left; by eexists _, _|done]|].
    split; [done|]. intros [_ [[=]|(ev & [=] & _)]].
  - destruct event as [ev|].
    + destruct (insertIntoBigQuery env ev) as [e|] eqn:Hins.
      * split; [split; [intros _; do 2 right; by eexists _, _|done]|].
        split; [done|]. intros [_ [[=]|(ev' & [= <-] & ?)]]. congruence.
      * split.
        -- split; [done|].
           intros [?|[(? & ? & [=])|(ev' & e & [= <-] & ?)]]; [done|congruence].
        -- split; [|done]. intros _. split; [done|]. right. by exists ev.
    + split.
      * split; [done|]. intros [?|[(? & ? & [=])|(ev' & e & [=] & _)]]. done.
      * split; [|done]. intros _. split; [done|]. by left.
  - split.
    + split; [done|]. intros [?|[(? & ? & [=])|(ev' & e & [=] & _)]]. done.
    + split; [done|]. intros [_ [[=]|(ev & [=] & _)]].
Qed.

End ConsumerRev0More.

Lemma repoNumber_rev0_needs_int (metadata : gmap string value)
    (numberPath : list string) :
  (forall n, descend (VMap metadata) numberPath <> Some (VInt n)) ->
  repoNumber_rev0 metadata numberPath = ("", false).
Proof.
  intros Hnum. unfold repoNumber_rev0. rewrite !LookupMap_descend.
  destruct (descend (VMap metadata) numberPath) as [[]|] eqn:Hd;
    cbn [mbind option_bind assert GoType_int];
    try (by destruct (descend _ _ ≫= _)).
  by destruct (Hnum n).
Qed.

(** X20: the earlier revision reads the number of a pull request or an
    issue as a Go [int]. When the payload holds no [int] there, as in every
    payload that [encoding/json] decodes into [interface{}], where a number
    is a [float64], a [pull_request] or [issues] delivery with both headers
    ends in the error [could not find time_created or id], whatever else the
    payload holds. *)
Theorem processGithubEvent_rev0_needs_int
    (time_Parse : string -> Time * option error) (reqMessage : pubsubRequest)
    (headers : gmap string (list string)) (metadata : gmap string value)
    (rawMetadata : list byte) (eventType : string) (rest : list string)
    (numberPath : list string) :
  headers !! hEvent = Some (eventType :: rest) ->
  ~ noValue headers hSignature ->
  (eventType = "pull_request" /\ numberPath = ["number"])
  \/ (eventType = "issues" /\ numberPath = ["issue"; "number"]) ->
  (forall n, descend (VMap metadata) numberPath <> Some (VInt n)) ->
  processGithubEvent_rev0 time_Parse reqMessage headers metadata rawMetadata
  = Ok (None, Some (errorString "could not find time_created or id")).
Proof.
  intros He Hs Hty Hnum. unfold processGithubEvent_rev0, hEvent, hSignature in *.
  rewrite He. go_step.
  destruct (headers !! "X-Hub-Signature-256") as [[|sg rest']|] eqn:Hsig;
    [destruct Hs; by right| |destruct Hs; by left].
  destruct Hty as [[-> ->]|[-> ->]]; vm_compute (eventTypes !! _); go_step;
    unfold dispatch_rev0; cbn [String.eqb Ascii.eqb Bool.eqb];
    rewrite (repoNumber_rev0_needs_int _ _ Hnum);
    destruct (LookupMap _ _) as [t []]; done.
Qed.

Lemma processGithubEvent_rev0_needs_int_witness :
  processGithubEvent_rev0 rfc3339.time_Parse envelope1
    {[ hEvent := ["pull_request"]; hSignature := ["sha256=00"] ]}
    payloadPullRequest []
  = Ok (None, Some (errorString "could not find time_created or id")).
Proof.
  apply (processGithubEvent_rev0_needs_int _ _ _ _ _ "pull_request" [] ["number"]).
  - by vm_compute.
  - vm_compute. intros [H|H]; discriminate H.
  - by left.
  - intros n. by vm_compute.
Defined.

(** ** The middleware *)

(** X21: [withTraceId] passes the request on with the context it received:
    the logger carrying the trace and the path is built and stored in a
    context that is dropped, so the handler behind it finds the logger that
    was there before. It panics exactly when the context holds no logger. *)
Theorem withTraceId_keeps_the_logger (A : Type) (projectID : string)
    (next : HttpRequest -> result A) (r : HttpRequest) :
  withTraceId projectID next r
  = match shared.LoggerFromContext (Ctx r) with
    | Ok _ => next r
    | Panic msg => Panic msg
    end.
Proof.
  unfold withTraceId. destruct (shared.LoggerFromContext (Ctx r)); [|done].
  cbn [mbind result_bind]. destruct (extractTraceID _). by destruct r.
Qed.

(** X22: the handler registered by [main] answers as [index] does on the
    request: [withLogger] puts a logger in the context before
    [withTraceId] and [indexPost] ask for one, so the chain never panics for
    want of a logger, and the trace header has no effect on the answer. *)
Theorem mainHandler_is_index (Sprint : value -> string)
    (time_Parse : string -> Time * option error) (env : Collaborators)
    (projectID : string) (r : HttpRequest) :
  mainHandler Sprint time_Parse env projectID r
  = index Sprint time_Parse env (Inner r).
Proof.
  unfold mainHandler, withLogger, withTraceId, index_ctx, indexPost_ctx, index.
  cbn. destruct (extractTraceID _). cbn.
  by repeat destruct (String.eqb _ _).
Qed.

(** ** [extractTraceID] *)

Lemma traceRun_app (run rest : list byte) :
  Forall (fun c => traceChar c = true) run -> endsRun rest ->
  traceRun (run ++ rest) = (run, rest).
Proof.
  intros Hrun Hrest. induction Hrun as [|c run Hc _ IH]; cbn [app traceRun].
  - destruct rest as [|c rest]; [done|]. cbn [traceRun]. simpl in Hrest.
    by rewrite Hrest.
  - by rewrite Hc, IH.
Qed.

Lemma traceRun_spec (s : list byte) :
  s = (traceRun s).1 ++ (traceRun s).2
  /\ Forall (fun c => traceChar c = true) (traceRun s).1
  /\ endsRun (traceRun s).2.
Proof.
  induction s as [|c s (IH1 & IH2 & IH3)]; [done|].
  cbn [traceRun]. destruct (traceChar c) eqn:Hc.
  - destruct (traceRun s) as [run rest]. cbn [fst snd] in *.
    split_and!; [by rewrite IH1 at 1|by constructor|done].
  - by split_and!.
Qed.

Lemma FindAllSubmatch_fuel (fuel : nat) (s : list byte) :
  length s <= fuel -> FindAllSubmatch fuel s = FindAllSubmatch (length s) s.
Proof.
  revert fuel. induction s as [s IH] using (induction_ltof1 _ (@length byte)).
  unfold ltof in IH. intros fuel Hfuel.
  destruct s as [|c s]; [by destruct fuel|].
  destruct fuel as [|fuel]; [simpl in Hfuel; lia|].
  cbn [length FindAllSubmatch].
  pose proof (traceRun_spec (c :: s)) as (Hs & _ & _).
  destruct (traceRun (c :: s)) as [g1 rest1]. cbn [fst snd] in Hs.
  assert (length (c :: s) = length g1 + length rest1) as Hlen
    by (by rewrite Hs at 1; rewrite length_app).
  cbn [length] in Hlen, Hfuel.
  destruct g1 as [|c0 g1].
  { apply IH; simpl; lia. }
  cbn [length] in Hlen.
  destruct rest1 as [|c1 rest2]; [done|]. cbn [length] in Hlen.
  assert (forall fuel', length (c1 :: rest2) <= fuel' ->
            FindAllSubmatch fuel' (c1 :: rest2)
            = FindAllSubmatch (length (c1 :: rest2)) (c1 :: rest2)) as IH1
    by (intros; apply IH; simpl in *; lia).
  destruct (Byte.eqb c1 slash).
  - pose proof (traceRun_spec rest2) as (Hs2 & _ & _).
    destruct (traceRun rest2) as [g2 rest3]. cbn [fst snd] in Hs2.
    assert (length rest2 = length g2 + length rest3) as Hlen2
      by (by rewrite Hs2 at 1; rewrite length_app).
    destruct g2 as [|c2 g2].
    + etrans; [apply IH1|symmetry; apply IH1]; simpl in *; lia.
    + cbn [length] in Hlen2. f_equal.
      etrans; [apply IH|symmetry; apply IH]; simpl in *; lia.
  - etrans; [apply IH1|symmetry; apply IH1]; simpl in *; lia.
Qed.

(** X23: on a header made of a trace id and a span id, each a non-empty
    run of digits and lower-case letters [a] to [f], joined by a slash and
    followed by text that does not continue the span and holds no further
    match (such as [;o=1], or nothing), [extractTraceID] returns the trace
    id. *)
Theorem extractTraceID_header (trace span tail : list byte) :
  trace <> [] -> Forall (fun c => traceChar c = true) trace ->
  span <> [] -> Forall (fun c => traceChar c = true) span ->
  endsRun tail -> FindAllSubmatch (length tail) tail = [] ->
  extractTraceID (trace ++ slash :: span ++ tail)
  = (string_of_list_byte trace, true).
Proof.
  intros Ht Htrace Hs Hspan Htail Hnone. unfold extractTraceID.
  rewrite decide_False by (destruct trace; simpl; [done|lia]).
  destruct trace as [|c trace]; [done|].
  cbn [app length FindAllSubmatch].
  change (c :: trace ++ slash :: span ++ tail)
    with ((c :: trace) ++ slash :: span ++ tail).
  rewrite (traceRun_app (c :: trace)); [|done|by vm_compute].
  change (Byte.eqb slash slash) with true. cbn match.
  rewrite (traceRun_app span); [|done|done].
  destruct span as [|c2 span]; [done|].
  rewrite FindAllSubmatch_fuel, Hnone; [done|].
  rewrite !length_app. cbn [length]. rewrite !length_app. cbn [length]. lia.
Qed.

Lemma isMatchIn_later (pre s : list byte) (sub : list (list byte)) :
  isMatchIn s sub -> isMatchIn (pre ++ s) sub.
Proof.
  intros (g1 & g2 & pre' & post & -> & -> & ?).
  exists g1, g2, (pre ++ pre'), post. by rewrite <- app_assoc.
Qed.

Lemma FindAllSubmatch_sound (fuel : nat) (s : list byte) :
  Forall (isMatchIn s) (FindAllSubmatch fuel s).
Proof.
  revert s. induction fuel as [|fuel IH]; intros s; [by constructor|].
  cbn [FindAllSubmatch]. destruct s as [|c s]; [by constructor|].
  pose proof (traceRun_spec (c :: s)) as (Hs & Hg1 & _).
  destruct (traceRun (c :: s)) as [g1 rest1]. cbn [fst snd] in Hs, Hg1.
  destruct g1 as [|c0 g1].
  { eapply Forall_impl; [apply IH|]. intros sub.
    apply (isMatchIn_later [c]). }
  destruct rest1 as [|c1 rest2]; [by constructor|].
  assert (Forall (isMatchIn (c :: s)) (FindAllSubmatch fuel (c1 :: rest2))) as Hrest.
  { eapply Forall_impl; [apply IH|]. intros sub. rewrite Hs.
    apply isMatchIn_later. }
  destruct (Byte.eqb c1 slash) eqn:Hc1; [|done].
  apply Byte.byte_dec_bl in Hc1 as ->.
  pose proof (traceRun_spec rest2) as (Hs2 & Hg2 & _).
  destruct (traceRun rest2) as [g2 rest3]. cbn [fst snd] in Hs2, Hg2.
  destruct g2 as [|c2 g2]; [done|].
  constructor.
  - exists (c0 :: g1), (c2 :: g2), [], rest3.
    split_and!; try done. by rewrite Hs, Hs2.
  - eapply Forall_impl; [apply IH|]. intros sub. rewrite Hs, Hs2.
    intros H. apply (isMatchIn_later ((c0 :: g1) ++ slash :: c2 :: g2)) in H.
    by rewrite <- app_assoc in H.
Qed.

(** X24: whatever [extractTraceID] returns with [true] is a non-empty run
    of digits and lower-case letters [a] to [f] that stands in the header
    right before a slash and a further such run. *)
Theorem extractTraceID_sound (raw : list byte) (traceID : string) :
  extractTraceID raw = (traceID, true) ->
  exists trace span pre post,
    traceID = string_of_list_byte trace
    /\ raw = pre ++ trace ++ slash :: span ++ post
    /\ trace <> [] /\ span <> []
    /\ Forall (fun c => traceChar c = true) trace
    /\ Forall (fun c => traceChar c = true) span.
Proof.
  unfold extractTraceID. case_decide; [done|].
  pose proof (FindAllSubmatch_sound (length raw) raw) as Hall.
  destruct (FindAllSubmatch (length raw) raw) as [|sub [|]]; [done| |done].
  apply Forall_inv in Hall as (g1 & g2 & pre & post & -> & Hraw & ?).
  cbn. intros [= <-]. by exists g1, g2, pre, post.
Qed.

Lemma extractTraceID_sound_witness :
  exists trace span pre post,
    "105445aa7843bc8bf206b12000100000" = string_of_list_byte trace
    /\ list_byte_of_string "105445aa7843bc8bf206b12000100000/1;o=1"
       = pre ++ trace ++ slash :: span ++ post
    /\ trace <> [] /\ span <> []
    /\ Forall (fun c => traceChar c = true) trace
    /\ Forall (fun c => traceChar c = true) span.
Proof.
  apply (extractTraceID_sound
           (list_byte_of_string "105445aa7843bc8bf206b12000100000/1;o=1")).
  vm_compute. reflexivity.
Defined.

Lemma extractTraceID_header_witness :
  extractTraceID
    (list_byte_of_string "105445aa7843bc8bf206b12000100000"
     ++ slash :: list_byte_of_string "1" ++ list_byte_of_string ";o=1")
  = ("105445aa7843bc8bf206b12000100000", true).
Proof.
  apply (extractTraceID_header
           (list_byte_of_string "105445aa7843bc8bf206b12000100000")
           (list_byte_of_string "1") (list_byte_of_string ";o=1")).
  - done.
  - vm_compute. repeat constructor.
  - done.
  - vm_compute. repeat constructor.
  - vm_compute. reflexivity.
  - vm_compute. reflexivity.
Defined.
